(** * RocketTechSolution: the client-side data consistency layer

    A shallow embedding of the TypeScript sources
      - [utils/dbMonitor.ts]          (DatabaseMonitor, PerformanceTimer, perf)
      - [utils/performanceMonitor.ts] (PerformanceMonitor)
      - [utils/apiCache.ts]           (ApiCache, CACHE_KEYS, CACHE_TTL)
      - [utils/caseStudiesApi.ts]     (CaseStudiesApi)
      - [utils/caseStudiesSync.ts]    (CaseStudiesSync)
    followed by the properties of the specification that concern them.

    Conventions.  A JavaScript object that holds mutable state becomes a
    record that is passed in and returned.  Readings of the outside world
    ([Date.now()], [performance.now()], [Math.random()], the outcome of a
    [fetch]) are arguments of the function that performs them; a clock
    reading is an integer number of milliseconds, and one synchronous
    run reads one value of the clock.  An [async] function that is
    awaited by its caller is run to its end; a promise that is started
    and not awaited is kept as data in the state until it is settled. *)

From Stdlib Require Import ZArith Lia.
From Stdlib Require QArith.
From stdpp Require Import base option list strings gmap pretty.

Open Scope Z_scope.

(* ================================================================== *)
(** * Part I: the program                                              *)
(* ================================================================== *)

(** ** JavaScript values and array primitives used by the sources *)

Module JS.

(** What a [throw] carries: an [Error] object with its message, or any
    other value ([error instanceof Error] is false for it). *)
Inductive Thrown : Type :=
| ErrorObj (message : string)
| NonError (shown : string).

(** Outcome of running a function body: it returns or it throws. For an
    [async] function, [Threw] is a rejected promise. *)
Inductive Outcome (A : Type) : Type :=
| Returned (a : A)
| Threw (e : Thrown).
Arguments Returned {A} a.
Arguments Threw {A} e.

(** [error instanceof Error ? error.message : fallback] *)
Definition messageOr (fallback : string) (e : Thrown) : string :=
  match e with
  | ErrorObj m => m
  | NonError _ => fallback
  end.

(** Truthiness of a string: only the empty string is falsy. *)
Definition truthyString (s : string) : bool :=
  match s with
  | EmptyString => false
  | String _ _ => true
  end.

(** [o || fallback] for an optional string. *)
Definition orString (o : option string) (fallback : string) : string :=
  match o with
  | Some s => if truthyString s then s else fallback
  | None => fallback
  end.

(** Truthiness of an optional number: [undefined] and [0] are falsy. *)
Definition truthyNumber (o : option Z) : bool :=
  match o with
  | Some n => negb (n =? 0)
  | None => false
  end.

(** Index normalisation of [Array.prototype.slice]: a negative index
    counts from the end, and the result is clamped to [0..len]. *)
Definition relativeIndex (len i : Z) : Z :=
  if i <? 0 then Z.max (len + i) 0 else Z.min i len.

(** [l.slice(start, stop)]; [stop = None] is the one-argument call. *)
Definition slice {A : Type} (l : list A) (start : Z) (stop : option Z) : list A :=
  let len := Z.of_nat (length l) in
  let k := relativeIndex len start in
  let final := match stop with
               | None => len
               | Some e => relativeIndex len e
               end in
  take (Z.to_nat (final - k)) (drop (Z.to_nat k) l).

(** [l.findIndex(p)]; [None] stands for the result [-1]. *)
Fixpoint findIndex {A : Type} (p : A -> bool) (l : list A) : option nat :=
  match l with
  | [] => None
  | x :: rest => if p x then Some 0%nat else S <$> findIndex p rest
  end.

(** [a === b] on strings. *)
Definition strictEq (a b : string) : bool := bool_decide (a = b).

(** [a < b] on numbers that need not be integers (a product with the
    fraction [0.8]), as exact rationals. *)
Definition ltNumber (a b : QArith_base.Q) : bool :=
  QArith_base.Qnum a * Z.pos (QArith_base.Qden b)
  <? QArith_base.Qnum b * Z.pos (QArith_base.Qden a).

(** An integer read as such a number. *)
Definition number (z : Z) : QArith_base.Q := QArith_base.inject_Z z.

(** A number of a JSON document.  The sources never compute with one:
    they test it for truthiness and turn it into a string, so a number
    is kept as these two readings of it. *)
Record JsonNumber : Type := {
  isZero : bool;
  numberText : string
}.

(** A value as [response.json()] produces it.  An object lists its own
    properties, each name once. *)
#[warnings="-register-all"] Inductive Json : Type :=
| JNull
| JBool (b : bool)
| JNumber (n : JsonNumber)
| JString (s : string)
| JArray (items : list Json)
| JObject (properties : list (string * Json)).

(** Truthiness: [null], [false], [0] and the empty string are falsy,
    every array and object is truthy. *)
Definition truthy (v : Json) : bool :=
  match v with
  | JNull => false
  | JBool b => b
  | JNumber n => negb (isZero n)
  | JString s => truthyString s
  | JArray _ => true
  | JObject _ => true
  end.

(** Truthiness of what a property read gave: [undefined] is falsy. *)
Definition truthyOpt (o : option Json) : bool :=
  match o with
  | Some v => truthy v
  | None => false
  end.

(** [v.name] for a value other than [null] and a name that no prototype
    defines (the sources read [success], [data] and [error]): the own
    property of an object, and [undefined] for any other value. *)
Definition member (name : string) (v : Json) : option Json :=
  match v with
  | JObject properties =>
      snd <$> List.find (fun kv => strictEq kv.1 name) properties
  | _ => None
  end.

(** The message of the [TypeError] thrown when a property of [null] is
    read.  The text is the engine's; this is V8's. *)
Definition nullPropertyMessage (name : string) : string :=
  "Cannot read properties of null (reading '" +:+ name +:+ "')".

(** [v.name] as an expression: reading a property of [null] throws. *)
Definition readProperty (name : string) (v : Json) : Outcome (option Json) :=
  match v with
  | JNull => Threw (ErrorObj (nullPropertyMessage name))
  | _ => Returned (member name v)
  end.

(** The message of the [TypeError] thrown when an object cannot be
    converted to a string (V8's text). *)
Definition notPrimitiveMessage : string :=
  "Cannot convert object to primitive value".

(** [String(v)], as [new Error(v)] applies it to its argument.  An
    array joins its elements with commas, [null] elements as empty
    strings.  An object is ["[object Object]"] by the [toString] it
    inherits; when it has an own property [toString] (a JSON value, so
    not a function) the conversion throws. *)
Fixpoint toText (v : Json) : Outcome string :=
  match v with
  | JNull => Returned "null"
  | JBool true => Returned "true"
  | JBool false => Returned "false"
  | JNumber n => Returned (numberText n)
  | JString s => Returned s
  | JArray items =>
      (fix join (l : list Json) : Outcome string :=
         match l with
         | [] => Returned ""
         | x :: rest =>
             match match x with
                   | JNull => Returned ""
                   | _ => toText x
                   end with
             | Threw err => Threw err
             | Returned shown =>
                 match rest with
                 | [] => Returned shown
                 | _ :: _ =>
                     match join rest with
                     | Threw err => Threw err
                     | Returned more => Returned (shown +:+ "," +:+ more)
                     end
                 end
             end
         end) items
  | JObject properties =>
      if existsb (fun kv => strictEq kv.1 "toString") properties
      then Threw (ErrorObj notPrimitiveMessage)
      else Returned "[object Object]"
  end.

End JS.

Import JS.

(** ** utils/dbMonitor.ts *)

Module DatabaseMonitor.

Inductive OpType : Type := read | write | delete | sync.

(** [details?: any]: the call sites pass flat objects of strings. *)
Definition Details : Type := gmap string string.

(** [interface DbOperation] *)
Record DbOperation : Type := {
  id : string;
  type : OpType;
  timestamp : Z;
  duration : option Z;
  success : bool;
  recordCount : option Z;
  error : option string;
  details : option Details
}.

(** [Omit<DbOperation, 'id' | 'timestamp'>], the argument of [logOperation] *)
Record OperationInput : Type := {
  in_type : OpType;
  in_duration : option Z;
  in_success : bool;
  in_recordCount : option Z;
  in_error : option string;
  in_details : option Details
}.

(** What [startOperation] stores under the property [_start_<id>]. *)
Record StartData : Type := {
  startTime : Z;
  startType : OpType;
  startDetails : option Details
}.

(** The mutable state of the singleton: the [operations] array and the
    [_start_<id>] properties, keyed by [id]. *)
Record Monitor : Type := {
  operations : list DbOperation;
  starts : gmap string StartData
}.

Definition initial : Monitor := {| operations := []; starts := ∅ |}.

(** [private maxOperations = 100] *)
Definition maxOperations : Z := 100.

(** [generateId()]: [`op_${Date.now()}_${random suffix}`]; [rnd] is the
    string made from [Math.random()]. *)
Definition generateId (now : Z) (rnd : string) : string :=
  "op_" +:+ pretty now +:+ "_" +:+ rnd.

(** The record [{ id, timestamp: Date.now(), ...operation }]. *)
Definition logEntry (now : Z) (rnd : string) (operation : OperationInput) : DbOperation :=
  {| id := generateId now rnd;
     timestamp := now;
     type := in_type operation;
     duration := in_duration operation;
     success := in_success operation;
     recordCount := in_recordCount operation;
     error := in_error operation;
     details := in_details operation |}.

(** [logOperation(operation)]: [unshift] the entry, then keep the first
    [maxOperations] when the array got longer than that.  The console
    output is not part of the state. *)
Definition logOperation (now : Z) (rnd : string) (operation : OperationInput)
    (m : Monitor) : string * Monitor :=
  let entry := logEntry now rnd operation in
  let ops := entry :: operations m in
  let kept := if Z.of_nat (length ops) >? maxOperations
              then slice ops 0 (Some maxOperations)
              else ops in
  (id entry, {| operations := kept; starts := starts m |}).

(** [startOperation(type, details?)] *)
Definition startOperation (now : Z) (rnd : string) (ty : OpType)
    (dt : option Details) (m : Monitor) : string * Monitor :=
  let i := generateId now rnd in
  (i, {| operations := operations m;
         starts := <[ i := {| startTime := now; startType := ty; startDetails := dt |} ]> (starts m) |}).

(** [{ ...a, ...b }] on optional objects: the later spread wins. *)
Definition spread (a b : option Details) : Details :=
  default ∅ b ∪ default ∅ a.

(** [completeOperation(id, success, recordCount?, error?, additionalDetails?)]:
    without start data it only warns. *)
Definition completeOperation (now : Z) (rnd : string) (i : string) (ok : bool)
    (count : option Z) (err : option string) (additionalDetails : option Details)
    (m : Monitor) : Monitor :=
  match starts m !! i with
  | None => m
  | Some startData =>
      let d := now - startTime startData in
      let m1 := snd (logOperation now rnd
                  {| in_type := startType startData;
                     in_duration := Some d;
                     in_success := ok;
                     in_recordCount := count;
                     in_error := err;
                     in_details := Some (spread (startDetails startData) additionalDetails) |} m) in
      {| operations := operations m1; starts := base.delete i (starts m1) |}
  end.

(** [getRecentOperations(limit = 10)] *)
Definition getRecentOperations (limit : Z) (m : Monitor) : list DbOperation :=
  slice (operations m) 0 (Some limit).

(** [clearHistory()] *)
Definition clearHistory (m : Monitor) : Monitor :=
  {| operations := []; starts := starts m |}.

(** One [logOperation] call as the outside world sees it: the clock, the
    random suffix and the argument. *)
Definition LogCall : Type := Z * string * OperationInput.

Definition entryOf (c : LogCall) : DbOperation :=
  logEntry c.1.1 c.1.2 c.2.

(** A sequence of [logOperation] calls, first call first. *)
Definition logAll (calls : list LogCall) (m : Monitor) : Monitor :=
  foldl (fun acc c => snd (logOperation c.1.1 c.1.2 c.2 acc)) m calls.

(** The calls that change the monitor, as data, to speak of arbitrary
    sequences of them. *)
Inductive MonitorCall : Type :=
| CallLog (now : Z) (rnd : string) (operation : OperationInput)
| CallStart (now : Z) (rnd : string) (ty : OpType) (dt : option Details)
| CallComplete (now : Z) (rnd : string) (i : string) (ok : bool)
    (count : option Z) (err : option string) (extra : option Details)
| CallClear.

(** The effect of one call on the state. *)
Definition runMonitorCall (c : MonitorCall) (m : Monitor) : Monitor :=
  match c with
  | CallLog now rnd operation => snd (logOperation now rnd operation m)
  | CallStart now rnd ty dt => snd (startOperation now rnd ty dt m)
  | CallComplete now rnd i ok count err extra =>
      completeOperation now rnd i ok count err extra m
  | CallClear => clearHistory m
  end.

#[global] Instance OpType_eq_dec : EqDecision OpType.
Proof. solve_decision. Defined.

(** The type of an operation as the property name used in
    [operationsByType]. *)
Definition typeName (t : OpType) : string :=
  match t with
  | read => "read"
  | write => "write"
  | delete => "delete"
  | sync => "sync"
  end.

(** [array.filter((x, index, array) => array.indexOf(x) === index)] *)
Definition firstOccurrences (l : list string) : list string :=
  (filter (fun ix => findIndex (fun y => strictEq y ix.2) l = Some ix.1)
     (imap pair l)).*2.

(** [op => !op.success && op.error] *)
Definition failedWithMessage (op : DbOperation) : bool :=
  negb (success op)
  && match error op with
     | Some e => truthyString e
     | None => false
     end.

(** [operationsByType[op.type] = (operationsByType[op.type] || 0) + 1]
    for each operation in turn. *)
Definition countByType (ops : list DbOperation) : gmap string Z :=
  foldl (fun acc op =>
           <[ typeName (type op) := default 0 (acc !! typeName (type op)) + 1 ]> acc)
    ∅ ops.

Section Stats.

(** The quotients and roundings of [getStats] are floating point: they
    are kept as the operations of a number type [F] that the statistics
    are parametric in. *)
Context {F : Type}.
Context (ofZ : Z -> F) (divide times : F -> F -> F) (round : F -> F).

(** The result of [getStats]. *)
Record Stats : Type := {
  totalOperations : Z;
  successRate : F;
  averageDuration : F;
  operationsByType : gmap string Z;
  errors : list string
}.

(** [getStats(timeWindowMs = 5 * 60 * 1000)] *)
Definition getStats (now : Z) (timeWindowMs : Z) (m : Monitor) : Stats :=
  let cutoff := now - timeWindowMs in
  let recentOps := filter (fun op => cutoff < timestamp op) (operations m) in
  let total := Z.of_nat (length recentOps) in
  let successfulOps := filter (fun op => success op = true) recentOps in
  let rate := if total >? 0
              then times (divide (ofZ (Z.of_nat (length successfulOps))) (ofZ total))
                     (ofZ 100)
              else ofZ 100 in
  let opsWithDuration := filter (fun op => is_Some (duration op)) recentOps in
  let average :=
    if Z.of_nat (length opsWithDuration) >? 0
    then divide (ofZ (foldl (fun sum op => sum + default 0 (duration op)) 0
                        opsWithDuration))
           (ofZ (Z.of_nat (length opsWithDuration)))
    else ofZ 0 in
  {| totalOperations := total;
     successRate := divide (round (times rate (ofZ 10))) (ofZ 10);
     averageDuration := round average;
     operationsByType := countByType recentOps;
     errors := slice (firstOccurrences
                        (omap error (filter (fun op => failedWithMessage op = true)
                                       recentOps)))
                 0 (Some 5) |}.

End Stats.

Arguments Stats : clear implicits.

End DatabaseMonitor.

(** ** utils/performanceMonitor.ts *)

Module PerformanceMonitor.

Definition Metadata : Type := gmap string string.

(** [interface PerformanceMetric] *)
Record PerformanceMetric : Type := {
  name : string;
  startTime : Z;
  endTime : option Z;
  duration : option Z;
  metadata : option Metadata
}.

(** [private maxMetrics = 100] *)
Definition maxMetrics : Z := 100.

(** [startMeasure(name, metadata?)]: [push], trim to the last
    [maxMetrics], and return [`${name}_${metric.startTime}`]. *)
Definition startMeasure (now : Z) (nm : string) (md : option Metadata)
    (metrics : list PerformanceMetric) : string * list PerformanceMetric :=
  let metric := {| name := nm; startTime := now; endTime := None;
                   duration := None; metadata := md |} in
  let pushed := metrics ++ [metric] in
  let kept := if Z.of_nat (length pushed) >? maxMetrics
              then slice pushed (- maxMetrics) None
              else pushed in
  (nm +:+ "_" +:+ pretty (startTime metric), kept).

(** The predicate of [findIndex]: [m.name === name && !m.endTime]. *)
Definition pendingNamed (nm : string) (m : PerformanceMetric) : bool :=
  strictEq (name m) nm && negb (truthyNumber (endTime m)).

(** [endMeasure(name)]: [None] is the result [null]. *)
Definition endMeasure (now : Z) (nm : string)
    (metrics : list PerformanceMetric) : option Z * list PerformanceMetric :=
  match findIndex (pendingNamed nm) metrics with
  | None => (None, metrics)
  | Some metricIndex =>
      match metrics !! metricIndex with
      | None => (None, metrics)
      | Some metric =>
          let d := now - startTime metric in
          (Some d,
           <[ metricIndex := {| name := name metric;
                                startTime := startTime metric;
                                endTime := Some now;
                                duration := Some d;
                                metadata := metadata metric |} ]> metrics)
      end
  end.

(** [getMetrics()]: the measurements that have a duration. *)
Definition getMetrics (metrics : list PerformanceMetric) : list PerformanceMetric :=
  filter (fun m => is_Some (duration m)) metrics.

(** The measurement as [startMeasure] pushes it, and as [endMeasure]
    leaves it when it is ended at [t1]. *)
Definition runningMetric (t0 : Z) (nm : string) (md : option Metadata) : PerformanceMetric :=
  {| name := nm; startTime := t0; endTime := None; duration := None;
     metadata := md |}.

Definition endedMetric (t0 t1 : Z) (nm : string) (md : option Metadata) : PerformanceMetric :=
  {| name := nm; startTime := t0; endTime := Some t1;
     duration := Some (t1 - t0); metadata := md |}.

(** [clear()] *)
Definition clear (metrics : list PerformanceMetric) : list PerformanceMetric := [].

(** [m => m.duration !== undefined && m.duration > threshold] *)
Definition slowerThan (threshold : Z) (m : PerformanceMetric) : bool :=
  match duration m with
  | Some d => d >? threshold
  | None => false
  end.

(** [getSlowOperations(threshold = 500)] *)
Definition getSlowOperations (threshold : Z)
    (metrics : list PerformanceMetric) : list PerformanceMetric :=
  filter (fun m => slowerThan threshold m = true) metrics.


(** The calls that change the recorder, as data. *)
Inductive RecorderCall : Type :=
| CallStartMeasure (now : Z) (nm : string) (md : option Metadata)
| CallEndMeasure (now : Z) (nm : string)
| CallClearMetrics.

Definition runRecorderCall (c : RecorderCall)
    (metrics : list PerformanceMetric) : list PerformanceMetric :=
  match c with
  | CallStartMeasure now nm md => snd (startMeasure now nm md metrics)
  | CallEndMeasure now nm => snd (endMeasure now nm metrics)
  | CallClearMetrics => clear metrics
  end.

(** A measurement is in one of two shapes: running (no end time, no
    duration) or ended (both set, the duration being their difference). *)
Definition consistent (m : PerformanceMetric) : Prop :=
  match endTime m, duration m with
  | None, None => True
  | Some t, Some d => d = t - startTime m
  | _, _ => False
  end.

End PerformanceMonitor.

(** ** utils/apiCache.ts *)

Module ApiCache.

Section Cache.

(** [T]: the cached data.  An [async] function given to the cache as
    [fetchFn] changes the rest of the program's state [E] when it is
    invoked, leaves a pending promise [H], and is settled by an answer
    [R] of the outside world at a later clock reading. *)
Context {T H R E : Type}.

(** [interface CacheItem<T>] *)
Record CacheItem : Type := {
  data : T;
  timestamp : Z;
  expiry : Z
}.

(** [fetchFn: () => Promise<T>], in two halves: [start] is its body up
    to the first [await] (run at the call), [finish] the rest (run when
    the awaited answer arrives). *)
Record FetchFn : Type := {
  start : Z -> E -> H * E;
  finish : Z -> H -> R -> E -> Outcome T * E
}.

(** A [refreshInBackground] call suspended at [await fetchFn()]. *)
Record Refresh : Type := {
  refreshKey : string;
  refreshTtl : Z;
  refreshPromise : H
}.

(** The state: the [cache] map of the singleton, the background
    refreshes that are in flight, and the rest of the program. *)
Record State : Type := {
  cache : gmap string CacheItem;
  refreshing : list Refresh;
  outside : E
}.

(** [private readonly defaultTTL = 5 * 60 * 1000] *)
Definition defaultTTL : Z := 5 * 60 * 1000.

(** The default [refreshThreshold = 0.8]. *)
Definition defaultRefreshThreshold : QArith_base.Q := QArith_base.Qmake 4 5.

(** [cleanup()]: collect the keys with [now > item.expiry], then delete
    each of them. *)
Definition cleanup (now : Z) (c : gmap string CacheItem) : gmap string CacheItem :=
  let toDelete := (filter (fun kv => expiry kv.2 < now) (map_to_list c)).*1 in
  foldr base.delete c toDelete.

(** [set(key, data, ttl)] *)
Definition set (now : Z) (key : string) (d : T) (ttl : Z)
    (c : gmap string CacheItem) : gmap string CacheItem :=
  let item := {| data := d; timestamp := now; expiry := now + ttl |} in
  cleanup now (<[ key := item ]> c).

(** [get(key)]: an item past its expiry is deleted and [null] returned. *)
Definition get (now : Z) (key : string)
    (c : gmap string CacheItem) : option T * gmap string CacheItem :=
  match c !! key with
  | None => (None, c)
  | Some item =>
      if now >? expiry item then (None, base.delete key c)
      else (Some (data item), c)
  end.

(** [has(key)] *)
Definition has (now : Z) (key : string)
    (c : gmap string CacheItem) : bool * gmap string CacheItem :=
  match c !! key with
  | None => (false, c)
  | Some item =>
      if now >? expiry item then (false, base.delete key c)
      else (true, c)
  end.

(** [delete(key)]: [Map.delete] tells whether the key was there. *)
Definition delete (key : string)
    (c : gmap string CacheItem) : bool * gmap string CacheItem :=
  (bool_decide (is_Some (c !! key)), base.delete key c).

(** [clear()] *)
Definition clear (c : gmap string CacheItem) : gmap string CacheItem := ∅.

(** [refreshInBackground(key, fetchFn, ttl)] up to its [await]:
    [fetchFn] is invoked and the call is left in flight. *)
Definition refreshInBackground (now : Z) (key : string) (fetchFn : FetchFn)
    (ttl : Z) (st : State) : State :=
  let (promise, e) := start fetchFn now (outside st) in
  {| cache := cache st;
     refreshing := refreshing st
                   ++ [ {| refreshKey := key; refreshTtl := ttl;
                           refreshPromise := promise |} ];
     outside := e |}.

(** The rest of [refreshInBackground], run when the promise of the
    in-flight refresh number [i] settles at clock reading [later] with
    the answer [reply]: the cache is [set] on success, and a rejection
    is only logged to the console. *)
Definition refreshSettles (later : Z) (fetchFn : FetchFn) (i : nat)
    (reply : R) (st : State) : State :=
  match refreshing st !! i with
  | None => st
  | Some r =>
      let (result, e) := finish fetchFn later (refreshPromise r) reply (outside st) in
      {| cache := match result with
                  | Returned d => set later (refreshKey r) d (refreshTtl r) (cache st)
                  | Threw _ => cache st
                  end;
         refreshing := take i (refreshing st) ++ drop (S i) (refreshing st);
         outside := e |}
  end.

(** [getOrFetch(key, fetchFn, ttl, refreshThreshold)].  [now] is the
    clock at the call.  When the key is absent, [fetchFn] is awaited:
    [reply] is the answer it gets and [later] the clock at that time. *)
Definition getOrFetch (now : Z) (key : string) (fetchFn : FetchFn) (ttl : Z)
    (refreshThreshold : QArith_base.Q) (later : Z) (reply : R)
    (st : State) : Outcome T * State :=
  match cache st !! key with
  | Some cached =>
      let timeRemaining := expiry cached - now in
      let refreshTime := QArith_base.Qmult (number ttl) refreshThreshold in
      let st1 := if ltNumber (number timeRemaining) refreshTime
                 then refreshInBackground now key fetchFn ttl st
                 else st in
      (Returned (data cached), st1)
  | None =>
      let (promise, e1) := start fetchFn now (outside st) in
      let (result, e2) := finish fetchFn later promise reply e1 in
      match result with
      | Threw err =>
          (Threw err,
           {| cache := cache st; refreshing := refreshing st; outside := e2 |})
      | Returned d =>
          (Returned d,
           {| cache := set later key d ttl (cache st);
              refreshing := refreshing st; outside := e2 |})
      end
  end.

(** The number of background refreshes in flight for a key. *)
Definition inFlight (key : string) (st : State) : nat :=
  length (filter (fun r => refreshKey r = key) (refreshing st)).

End Cache.

Arguments CacheItem : clear implicits.
Arguments FetchFn : clear implicits.
Arguments Refresh : clear implicits.
Arguments State : clear implicits.

(** [CACHE_KEYS] *)
Definition CASE_STUDIES : string := "case_studies".
Definition CASE_STUDY (id : string) : string := "case_study_" +:+ id.
Definition HEALTH_CHECK : string := "health_check".
Definition STATS : string := "case_studies_stats".
Definition HOMEPAGE_SOLUTIONS : string := "homepage_solutions".

(** [CACHE_TTL], in milliseconds *)
Definition SHORT : Z := 30 * 1000.
Definition MEDIUM : Z := 5 * 60 * 1000.
Definition LONG : Z := 30 * 60 * 1000.
Definition HEALTH : Z := 60 * 1000.

End ApiCache.

(** ** utils/caseStudiesApi.ts *)

Module CaseStudiesApi.
Import DatabaseMonitor PerformanceMonitor.

(** The domain fields that the API format and the local format of a
    case study share. *)
Record Fields : Type := {
  title : string;
  description : string;
  descriptionRu : option string;
  image : string;
  technologies : list string;
  fullDescription : string;
  fullDescriptionRu : option string;
  uniqueFeatures : list string;
  uniqueFeaturesRu : option (list string);
  keyBenefits : list string;
  keyBenefitsRu : option (list string);
  additionalImages : list string;
  category : string;
  industry : string;
  timeframe : string;
  result : string;
  showOnHomepage : option bool
}.

(** [export interface CaseStudy] of the API: the icon is a name. *)
Record CaseStudy : Type := {
  id : string;
  iconName : string;
  fields : Fields;
  createdAt : option string;
  updatedAt : option string
}.

(** [interface ApiResponse<T>], the uniform envelope that the callers
    are typed against. *)
Record ApiResponse (D : Type) : Type := {
  success : bool;
  data : option D;
  error : option string;
  message : option string
}.
Arguments success {D} _.
Arguments data {D} _.
Arguments error {D} _.
Arguments message {D} _.

(** The envelope [{ success: false, error: errorMessage }] that the
    [catch] of [makeRequest] builds. *)
Definition failure (errorMessage : string) : Json :=
  JObject [("success", JBool false); ("error", JString errorMessage)].

(** [result.success] as a condition, for a result that is not [null]. *)
Definition succeeded (result : Json) : bool :=
  truthyOpt (member "success" result).

(** What a call hands to [fetch]: the endpoint, [options.method] and
    [options.body]. *)
Inductive RequestBody : Type :=
| NewCase (iconName : string) (fields : Fields)
| Patch (changes : gmap string string)
| Bulk (caseStudies : list CaseStudy).

Record Request : Type := {
  endpoint : string;
  method : option string;
  body : option RequestBody
}.

(** [response.json()]: the body parses to a JSON value, whatever its
    shape, or the promise rejects. *)
Inductive Body : Type :=
| Parsed (v : Json)
| Unparseable (err : Thrown).

(** How [fetch] settles: it rejects (no connection, timeout, ...), or
    resolves to a response with [ok], [status] and a body. *)
Inductive FetchResult : Type :=
| Rejects (err : Thrown)
| Responds (ok : bool) (status : Z) (content : Body).

(** The rest of the program, as [makeRequest] sees and changes it: the
    two monitoring singletons and the requests handed to [fetch]. *)
Record Services : Type := {
  monitor : Monitor;
  metrics : list PerformanceMetric;
  wire : list Request
}.

(** A [makeRequest] call suspended at [await fetch(...)]. *)
Record Pending : Type := {
  operationId : string;
  sent : Request
}.

(** What the outside world supplies when the call resumes: the way
    [fetch] settled and the random suffix of the log entry's id. *)
Record Reply : Type := {
  settled : FetchResult;
  entropy : string
}.

(** [options.method === 'POST' || options.method === 'PUT' ? 'write'
     : options.method === 'DELETE' ? 'delete' : 'read'] *)
Definition operationType (m : option string) : OpType :=
  if bool_decide (m = Some "POST") || bool_decide (m = Some "PUT") then write
  else if bool_decide (m = Some "DELETE") then delete
  else read.

(** [makeRequest] up to [await fetch(...)]: the monitor token is
    opened and the request goes out. *)
Definition makeRequestStart (rnd : string) (req : Request) (now : Z)
    (e : Services) : Pending * Services :=
  let (i, m) := startOperation now rnd (operationType (method req))
                  (Some ({[ "endpoint" := endpoint req;
                            "method" := orString (method req) "GET" ]} : Details))
                  (monitor e) in
  ({| operationId := i; sent := req |},
   {| monitor := m; metrics := metrics e; wire := wire e ++ [req] |}).

(** The record count inferred from a parsed body:
    [if (data.success && data.data)], then the length of an array and 1
    for any other object. *)
Definition inferRecordCount (d : Json) : option Z :=
  if truthyOpt (member "success" d) && truthyOpt (member "data" d) then
    match member "data" d with
    | Some (JArray items) => Some (Z.of_nat (length items))
    | Some (JObject _) => Some 1
    | _ => None
    end
  else None.

(** [data.error] as the argument [error?: string] of
    [completeOperation]: a string or [undefined] is handed over as it
    is.  The record of the monitor is typed to hold strings; a value of
    another type, which that type excludes, is not kept. *)
Definition loggedError (o : option Json) : option string :=
  match o with
  | Some (JString s) => Some s
  | _ => None
  end.

(** The [try] block of [makeRequest] from the point where [fetch] has
    settled.  The monitor is handed [data.success] as it is and only
    tests it: it is kept as its truthiness. *)
Definition tryBlock (later : Z) (p : Pending) (reply : Reply)
    (m : Monitor) : Outcome Json * Monitor :=
  match settled reply with
  | Rejects err => (Threw err, m)
  | Responds ok status content =>
      if negb ok then
        let errorData := match content with
                         | Parsed v => v
                         | Unparseable _ => JObject []
                         end in
        match readProperty "error" errorData with
        | Threw err => (Threw err, m)
        | Returned errorData_error =>
            let fallback := "HTTP error! status: " +:+ pretty status in
            (match errorData_error with
             | Some v =>
                 if truthy v then
                   match toText v with
                   | Returned text => Threw (ErrorObj text)
                   | Threw err => Threw err
                   end
                 else Threw (ErrorObj fallback)
             | None => Threw (ErrorObj fallback)
             end, m)
        end
      else
        match content with
        | Unparseable err => (Threw err, m)
        | Parsed d =>
            match readProperty "success" d with
            | Threw err => (Threw err, m)
            | Returned data_success =>
                (Returned d,
                 completeOperation later (entropy reply) (operationId p)
                   (truthyOpt data_success) (inferRecordCount d)
                   (loggedError (member "error" d)) None m)
            end
        end
  end.

(** [perf.measureAsync(label, fn)] of dbMonitor.ts around an outcome:
    the timer only writes to the console, then the result is returned
    or the error thrown again. *)
Definition perfMeasureAsync {A : Type} (outcome : Outcome A) : Outcome A :=
  match outcome with
  | Returned r => Returned r
  | Threw err => Threw err
  end.

(** The rest of [makeRequest]: the [try] block and its [catch]. *)
Definition makeRequestFinish (later : Z) (p : Pending) (reply : Reply)
    (e : Services) : Outcome Json * Services :=
  match tryBlock later p reply (monitor e) with
  | (Returned d, m) =>
      (perfMeasureAsync (Returned d),
       {| monitor := m; metrics := metrics e; wire := wire e |})
  | (Threw err, m) =>
      let errorMessage := messageOr "Unknown error occurred" err in
      (perfMeasureAsync (Returned (failure errorMessage)),
       {| monitor := completeOperation later (entropy reply) (operationId p)
                       false (Some 0) (Some errorMessage) None m;
          metrics := metrics e; wire := wire e |})
  end.

(** [makeRequest(endpoint, options)], awaited by its caller. *)
Definition makeRequest (now : Z) (rnd : string) (req : Request) (later : Z)
    (reply : Reply) (e : Services) : Outcome Json * Services :=
  let (p, e1) := makeRequestStart rnd req now e in
  makeRequestFinish later p reply e1.

(** The closure [() => this.makeRequest(endpoint, options)]. *)
Definition requestFn (rnd : string) (req : Request)
    : ApiCache.FetchFn Json Pending Reply Services :=
  {| ApiCache.start := makeRequestStart rnd req;
     ApiCache.finish := makeRequestFinish |}.

(** The whole client state: the cache singleton in front of the rest. *)
Abbreviation Client := (ApiCache.State Json Pending Services).

Definition listRequest : Request :=
  {| endpoint := "/casestudies"; method := None; body := None |}.

Definition itemRequest (i : string) : Request :=
  {| endpoint := "/casestudies/" +:+ i; method := None; body := None |}.

(** [getAllCaseStudies()] *)
Definition getAllCaseStudies (now : Z) (rnd : string) (later : Z) (reply : Reply)
    (st : Client) : Outcome Json * Client :=
  ApiCache.getOrFetch now ApiCache.CASE_STUDIES (requestFn rnd listRequest)
    ApiCache.MEDIUM ApiCache.defaultRefreshThreshold later reply st.

(** [getCaseStudy(id)] *)
Definition getCaseStudy (now : Z) (rnd : string) (i : string) (later : Z)
    (reply : Reply) (st : Client) : Outcome Json * Client :=
  ApiCache.getOrFetch now (ApiCache.CASE_STUDY i) (requestFn rnd (itemRequest i))
    ApiCache.MEDIUM ApiCache.defaultRefreshThreshold later reply st.

(** [performanceMonitor.measureAsync(name, asyncFn)]: the measurement
    is ended on both paths, then the result returned or the error
    thrown again. *)
Definition measureAsync {A : Type} (now later : Z) (nm : string)
    (asyncFn : Services -> Outcome A * Services)
    (e : Services) : Outcome A * Services :=
  let e1 := {| monitor := monitor e;
               metrics := snd (startMeasure now nm None (metrics e));
               wire := wire e |} in
  let (outcome, e2) := asyncFn e1 in
  (outcome,
   {| monitor := monitor e2;
      metrics := snd (endMeasure later nm (metrics e2));
      wire := wire e2 |}).

(** The state of the client with the services replaced and the cache
    left as it is: where a write method ends when it throws. *)
Definition keeping (st : Client) (e : Services) : Client :=
  {| ApiCache.cache := ApiCache.cache st;
     ApiCache.refreshing := ApiCache.refreshing st;
     ApiCache.outside := e |}.

(** [createCaseStudy(caseStudy)] *)
Definition createCaseStudy (now : Z) (rnd : string) (icon : string)
    (caseStudy : Fields) (later : Z) (reply : Reply)
    (st : Client) : Outcome Json * Client :=
  let (outcome, e) :=
    measureAsync now later "create_case_study"
      (makeRequest now rnd
         {| endpoint := "/casestudies"; method := Some "POST";
            body := Some (NewCase icon caseStudy) |} later reply)
      (ApiCache.outside st) in
  match outcome with
  | Threw err => (Threw err, keeping st e)
  | Returned r =>
      match readProperty "success" r with
      | Threw err => (Threw err, keeping st e)
      | Returned result_success =>
          let c0 := ApiCache.cache st in
          let c2 := if truthyOpt result_success then
                      let c1 := snd (ApiCache.delete ApiCache.CASE_STUDIES c0) in
                      snd (ApiCache.delete ApiCache.HOMEPAGE_SOLUTIONS c1)
                    else c0 in
          (Returned r,
           {| ApiCache.cache := c2;
              ApiCache.refreshing := ApiCache.refreshing st;
              ApiCache.outside := e |})
      end
  end.

(** [updateCaseStudy(id, caseStudy)] *)
Definition updateCaseStudy (now : Z) (rnd : string) (i : string)
    (caseStudy : gmap string string) (later : Z) (reply : Reply)
    (st : Client) : Outcome Json * Client :=
  let (outcome, e) :=
    measureAsync now later "update_case_study"
      (makeRequest now rnd
         {| endpoint := "/casestudies/" +:+ i; method := Some "PUT";
            body := Some (Patch caseStudy) |} later reply)
      (ApiCache.outside st) in
  match outcome with
  | Threw err => (Threw err, keeping st e)
  | Returned r =>
      match readProperty "success" r with
      | Threw err => (Threw err, keeping st e)
      | Returned result_success =>
          let c0 := ApiCache.cache st in
          let c3 := if truthyOpt result_success then
                      let c1 := snd (ApiCache.delete ApiCache.CASE_STUDIES c0) in
                      let c2 := snd (ApiCache.delete (ApiCache.CASE_STUDY i) c1) in
                      snd (ApiCache.delete ApiCache.HOMEPAGE_SOLUTIONS c2)
                    else c0 in
          (Returned r,
           {| ApiCache.cache := c3;
              ApiCache.refreshing := ApiCache.refreshing st;
              ApiCache.outside := e |})
      end
  end.

(** [deleteCaseStudy(id)] *)
Definition deleteCaseStudy (now : Z) (rnd : string) (i : string)
    (later : Z) (reply : Reply)
    (st : Client) : Outcome Json * Client :=
  let (outcome, e) :=
    measureAsync now later "delete_case_study"
      (makeRequest now rnd
         {| endpoint := "/casestudies/" +:+ i; method := Some "DELETE";
            body := None |} later reply)
      (ApiCache.outside st) in
  match outcome with
  | Threw err => (Threw err, keeping st e)
  | Returned r =>
      match readProperty "success" r with
      | Threw err => (Threw err, keeping st e)
      | Returned result_success =>
          let c0 := ApiCache.cache st in
          let c3 := if truthyOpt result_success then
                      let c1 := snd (ApiCache.delete ApiCache.CASE_STUDIES c0) in
                      let c2 := snd (ApiCache.delete (ApiCache.CASE_STUDY i) c1) in
                      snd (ApiCache.delete ApiCache.HOMEPAGE_SOLUTIONS c2)
                    else c0 in
          (Returned r,
           {| ApiCache.cache := c3;
              ApiCache.refreshing := ApiCache.refreshing st;
              ApiCache.outside := e |})
      end
  end.

(** [bulkUpdateCaseStudies(caseStudies)]: success clears the cache. *)
Definition bulkUpdateCaseStudies (now : Z) (rnd : string)
    (caseStudies : list CaseStudy) (later : Z) (reply : Reply)
    (st : Client) : Outcome Json * Client :=
  let (outcome, e) :=
    measureAsync now later "bulk_update_case_studies"
      (makeRequest now rnd
         {| endpoint := "/casestudies"; method := Some "PUT";
            body := Some (Bulk caseStudies) |} later reply)
      (ApiCache.outside st) in
  match outcome with
  | Threw err => (Threw err, keeping st e)
  | Returned r =>
      match readProperty "success" r with
      | Threw err => (Threw err, keeping st e)
      | Returned result_success =>
          (Returned r,
           {| ApiCache.cache := if truthyOpt result_success
                                then ApiCache.clear (ApiCache.cache st)
                                else ApiCache.cache st;
              ApiCache.refreshing := ApiCache.refreshing st;
              ApiCache.outside := e |})
      end
  end.

(** The remote store cannot be reached, or answers with a status that
    is not [ok]. *)
Definition unavailable (r : FetchResult) : Prop :=
  match r with
  | Rejects _ => True
  | Responds ok _ _ => ok = false
  end.

(** A cached read ([getAllCaseStudies], or [getCaseStudy] with its id
    applied) as a function of what the outside world supplies. *)
Definition CachedRead : Type :=
  Z -> string -> Z -> Reply -> Client -> Outcome Json * Client.

(** What the calls of a cached read do on a state [st1] whose cache
    holds [envelope] under [key], stored at [storedAt] for [MEDIUM]:
    every call returns [envelope]; a call in the first fifth of the
    lifetime changes nothing and sends nothing; a call in the last fifth
    sends [req] and leaves one more refresh in flight; and when that
    refresh settles, at any time and with any answer, the request
    resolves to a value (the body of a 2xx answer that is not [null], as
    it is) which every call after that returns. *)
Definition servesFromCache (read : CachedRead) (key : string) (req : Request)
    (envelope : Json) (storedAt : Z) (st1 : Client) : Prop :=
  forall (now2 : Z) (rnd2 : string) (later2 : Z) (reply2 : Reply),
    fst (read now2 rnd2 later2 reply2 st1) = Returned envelope
    /\ (4 * ApiCache.MEDIUM <= 5 * (storedAt + ApiCache.MEDIUM - now2) ->
        snd (read now2 rnd2 later2 reply2 st1) = st1)
    /\ (5 * (storedAt + ApiCache.MEDIUM - now2) < ApiCache.MEDIUM ->
        let st2 := snd (read now2 rnd2 later2 reply2 st1) in
        wire (ApiCache.outside st2) = wire (ApiCache.outside st1) ++ [req]
        /\ ApiCache.inFlight key st2 = S (ApiCache.inFlight key st1)
        /\ forall (later3 : Z) (reply3 : Reply),
             let st3 := ApiCache.refreshSettles later3 (requestFn rnd2 req)
                          (length (ApiCache.refreshing st1)) reply3 st2 in
             exists refreshed : Json,
               (forall status b,
                  settled reply3 = Responds true status (Parsed b) ->
                  b <> JNull -> refreshed = b)
               /\ ApiCache.inFlight key st3 = ApiCache.inFlight key st1
               /\ forall now4 rnd4 later4 reply4,
                    fst (read now4 rnd4 later4 reply4 st3) = Returned refreshed).

Definition statsRequest : Request :=
  {| endpoint := "/case-studies/stats"; method := None; body := None |}.

Definition healthRequest : Request :=
  {| endpoint := "/health"; method := None; body := None |}.

(** [getStatistics()] *)
Definition getStatistics (now : Z) (rnd : string) (later : Z) (reply : Reply)
    (st : Client) : Outcome Json * Client :=
  ApiCache.getOrFetch now ApiCache.STATS (requestFn rnd statsRequest)
    ApiCache.SHORT ApiCache.defaultRefreshThreshold later reply st.

(** [private healthCache: { result, timestamp } | null] *)
Record HealthCache : Type := {
  cachedResult : Json;
  cachedAt : Z
}.

(** [private readonly HEALTH_CACHE_DURATION = 60000] *)
Definition HEALTH_CACHE_DURATION : Z := 60000.

(** [healthCheck()], on the [healthCache] field and the services. *)
Definition healthCheck (now : Z) (rnd : string) (later : Z) (reply : Reply)
    (healthCache : option HealthCache) (e : Services)
    : Outcome Json * option HealthCache * Services :=
  let valid := match healthCache with
               | Some c => now - cachedAt c <? HEALTH_CACHE_DURATION
               | None => false
               end in
  match healthCache, valid with
  | Some c, true => (Returned (cachedResult c), healthCache, e)
  | _, _ =>
      let (outcome, e1) := makeRequest now rnd healthRequest later reply e in
      match outcome with
      | Threw err => (Threw err, healthCache, e1)
      | Returned r =>
          match readProperty "success" r with
          | Threw err => (Threw err, healthCache, e1)
          | Returned result_success =>
              (Returned r,
               if truthyOpt result_success
               then Some {| cachedResult := r; cachedAt := now |}
               else healthCache,
               e1)
          end
      end
  end.

(** Successive calls of a cached read, each with the clock readings,
    random suffix and answer that the outside world supplies to it. *)
Fixpoint readAll (read : CachedRead) (calls : list (Z * string * Z * Reply))
    (st : Client) : list (Outcome Json) * Client :=
  match calls with
  | [] => ([], st)
  | c :: rest =>
      let (o, st1) := read c.1.1.1 c.1.1.2 c.1.2 c.2 st in
      let (os, st2) := readAll read rest st1 in
      (o :: os, st2)
  end.

End CaseStudiesApi.

(** ** utils/caseStudiesSync.ts *)

Module CaseStudiesSync.

Abbreviation ApiCaseStudy := CaseStudiesApi.CaseStudy.
Abbreviation Fields := CaseStudiesApi.Fields.
Abbreviation ApiResponse := CaseStudiesApi.ApiResponse.

(** A number as [Math.max] and [getTime] produce them. *)
Inductive JsNumber : Type := NaN | MinusInfinity | Finite (z : Z).

(** [Math.max(a, b)] *)
Definition max2 (a b : JsNumber) : JsNumber :=
  match a, b with
  | NaN, _ | _, NaN => NaN
  | MinusInfinity, x | x, MinusInfinity => x
  | Finite x, Finite y => Finite (Z.max x y)
  end.

(** [Math.max(...l)] *)
Definition mathMax (l : list JsNumber) : JsNumber := foldr max2 MinusInfinity l.

(** [n.toString()] *)
Definition numberToString (n : JsNumber) : string :=
  match n with
  | NaN => "NaN"
  | MinusInfinity => "-Infinity"
  | Finite z => pretty z
  end.

(** What the progress, error and success callbacks are called with. *)
Inductive Callback : Type :=
| Progress (current total : Z) (action : string)
| Failed (msg : string)
| Succeeded (msg : string).

(** [interface SyncOptions]: which callbacks the caller supplied. *)
Record SyncOptions : Type := {
  onProgress : bool;
  onError : bool;
  onSuccess : bool
}.

(** [{ ...options, onProgress: undefined }] *)
Definition withoutProgress (options : SyncOptions) : SyncOptions :=
  {| onProgress := false; onError := onError options; onSuccess := onSuccess options |}.

(** The recommendation of [getSyncStatus]. *)
Inductive Recommendation : Type := syncToDb | syncFromDb | noSyncNeeded | conflict.

(** The [if] chain of [getSyncStatus] on [local.count] and
    [database.count]. *)
Definition recommend (localCount databaseCount : Z) : Recommendation :=
  if (localCount =? 0) && (databaseCount =? 0) then noSyncNeeded
  else if (localCount >? 0) && (databaseCount =? 0) then syncToDb
  else if (localCount =? 0) && (databaseCount >? 0) then syncFromDb
  else if negb (localCount =? databaseCount) then conflict
  else noSyncNeeded.

(** [{ count, lastUpdated? }] *)
Record Side : Type := {
  count : Z;
  lastUpdated : option string
}.

Record SyncStatus : Type := {
  local : Side;
  database : Side;
  recommendation : Recommendation
}.

(** [success && data]: the response carries a collection. *)
Definition carried {D : Type} (r : ApiResponse D) : option D :=
  if CaseStudiesApi.success r then CaseStudiesApi.data r else None.

(** [r.success && r.data && r.data.length > 0] *)
Definition hasRecords {X : Type} (r : ApiResponse (list X)) : bool :=
  CaseStudiesApi.success r
  && match CaseStudiesApi.data r with
     | Some d => Z.of_nat (length d) >? 0
     | None => false
     end.

(** [!r.success || !r.data || r.data.length === 0] *)
Definition noRecords {X : Type} (r : ApiResponse (list X)) : bool :=
  negb (CaseStudiesApi.success r)
  || match CaseStudiesApi.data r with
     | Some d => Z.of_nat (length d) =? 0
     | None => true
     end.

Section Engine.

(** The icons are React components: values compared by identity. *)
Context {Icon : Type} `{EqDecision Icon}.

(** [new Date(s).getTime()] on a stored timestamp string. *)
Context (dateTime : string -> JsNumber).

(** [caseStudiesApi] as the engine uses it: two calls that resolve to
    an envelope and may change the state [Api] behind them. *)
Context {Api : Type}.
Context (getAllCaseStudies : Api -> ApiResponse (list ApiCaseStudy) * Api).
Context (bulkUpdateCaseStudies :
           list ApiCaseStudy -> Api -> ApiResponse (list ApiCaseStudy) * Api).

(** The constructor argument: a plain object from names to components.
    [iconMapping] lists its own properties in key order; [inherited]
    gives what a name that is not an own property is looked up to along
    the prototype chain ([Object.prototype.constructor], [toString],
    [__proto__], ... for an object literal), if anything. *)
Context (inherited : string -> option Icon).
Context (iconMapping : list (string * Icon)).

(** [export interface CaseStudy] of the local format: the icon is what
    the lookup in the mapping gave ([None] when it gave nothing). *)
Record CaseStudy : Type := {
  id : string;
  icon : option Icon;
  fields : Fields;
  createdAt : option string;
  updatedAt : option string
}.

(** An element of the array kept in localStorage. *)
Record SavedCase : Type := {
  savedId : string;
  savedIconName : option string;
  savedFields : Fields;
  savedCreatedAt : option string;
  savedUpdatedAt : option string
}.

(** What [safeLocalStorage.getJSON('allSolutions_cases')] does. *)
Inductive Stored : Type :=
| Missing
| Broken (err : Thrown)
| NotAnArray
| Saved (cases : list SavedCase).

(** The reads that fail: nothing stored, a throw while reading or
    parsing, or a value that is not an array. *)
Definition unreadable (s : Stored) : Prop :=
  match s with
  | Saved _ => False
  | Missing | Broken _ | NotAnArray => True
  end.

(** The calls that leave the engine. *)
Inductive Io : Type :=
| ReadLocal
| ReadRemote
| WroteRemote (cases : list ApiCaseStudy)
| WroteLocal (cases : list SavedCase)
| Notified.

(** The world of the engine: the local mirror (its content, and whether
    [setJSON] will succeed), the API behind [caseStudiesApi], the calls
    made so far and the callbacks invoked so far. *)
Record Host : Type := {
  storage : Stored;
  writable : bool;
  api : Api;
  io : list Io;
  reported : list Callback
}.

Definition did (e : Io) (h : Host) : Host :=
  {| storage := storage h; writable := writable h; api := api h;
     io := io h ++ [e]; reported := reported h |}.

(** [callback?.(argument)] *)
Definition call (present : bool) (c : Callback) (h : Host) : Host :=
  {| storage := storage h; writable := writable h; api := api h;
     io := io h;
     reported := reported h ++ (if present then [c] else []) |}.

(** [this.iconMapping[name]]: the own property of that name, else the
    inherited one; an absent name is the key ["undefined"]. *)
Definition iconNamed (nm : option string) : option Icon :=
  let key := default "undefined" nm in
  match List.find (fun kv => strictEq kv.1 key) iconMapping with
  | Some kv => Some kv.2
  | None => inherited key
  end.

(** [this.iconMapping[name] || this.iconMapping['MessageSquare']] *)
Definition iconFor (nm : option string) : option Icon :=
  match iconNamed nm with
  | Some c => Some c
  | None => iconNamed (Some "MessageSquare")
  end.

(** [Object.keys(this.iconMapping).find(key => this.iconMapping[key]
     === icon) || 'MessageSquare'] *)
Definition iconNameOf (i : option Icon) : string :=
  orString (fst <$> List.find (fun kv => bool_decide (Some kv.2 = i)) iconMapping)
    "MessageSquare".

(** [apiToLocal(apiCase)] *)
Definition apiToLocal (apiCase : ApiCaseStudy) : CaseStudy :=
  {| id := CaseStudiesApi.id apiCase;
     icon := iconFor (Some (CaseStudiesApi.iconName apiCase));
     fields := CaseStudiesApi.fields apiCase;
     createdAt := CaseStudiesApi.createdAt apiCase;
     updatedAt := CaseStudiesApi.updatedAt apiCase |}.

(** [{ ...this.localToApi(localCase), id, createdAt, updatedAt }] *)
Definition toApiCase (localCase : CaseStudy) : ApiCaseStudy :=
  {| CaseStudiesApi.id := id localCase;
     CaseStudiesApi.iconName := iconNameOf (icon localCase);
     CaseStudiesApi.fields := fields localCase;
     CaseStudiesApi.createdAt := createdAt localCase;
     CaseStudiesApi.updatedAt := updatedAt localCase |}.

(** The body of [getLocalCases()] on what [getJSON] does: everything
    but a stored array gives [[]]. *)
Definition localCasesOf (s : Stored) : list CaseStudy :=
  match s with
  | Saved saved =>
      map (fun study =>
             {| id := savedId study;
                icon := iconFor (savedIconName study);
                fields := savedFields study;
                createdAt := savedCreatedAt study;
                updatedAt := savedUpdatedAt study |}) saved
  | Missing => []
  | NotAnArray => []
  | Broken _ => []
  end.

(** [getLocalCases()] *)
Definition getLocalCases (h : Host) : list CaseStudy * Host :=
  (localCasesOf (storage h), did ReadLocal h).

(** What [saveLocalCases] hands to [setJSON]. *)
Definition toSaved (study : CaseStudy) : SavedCase :=
  {| savedId := id study;
     savedIconName := Some (iconNameOf (icon study));
     savedFields := fields study;
     savedCreatedAt := createdAt study;
     savedUpdatedAt := updatedAt study |}.

(** [saveLocalCases(cases)] *)
Definition saveLocalCases (cases : list CaseStudy) (h : Host) : Outcome unit * Host :=
  let casesToSave := map toSaved cases in
  if writable h then
    (Returned tt,
     did Notified
       (did (WroteLocal casesToSave)
          {| storage := Saved casesToSave; writable := writable h; api := api h;
             io := io h; reported := reported h |}))
  else (Threw (ErrorObj "Failed to save to localStorage"), h).

(** [await caseStudiesApi.getAllCaseStudies()] *)
Definition readRemote (h : Host) : ApiResponse (list ApiCaseStudy) * Host :=
  let (response, a) := getAllCaseStudies (api h) in
  (response,
   did ReadRemote
     {| storage := storage h; writable := writable h; api := a;
        io := io h; reported := reported h |}).

(** [await caseStudiesApi.bulkUpdateCaseStudies(apiCases)] *)
Definition writeRemote (apiCases : list ApiCaseStudy) (h : Host)
    : ApiResponse (list ApiCaseStudy) * Host :=
  let (response, a) := bulkUpdateCaseStudies apiCases (api h) in
  (response,
   did (WroteRemote apiCases)
     {| storage := storage h; writable := writable h; api := a;
        io := io h; reported := reported h |}).

(** [syncFromDatabase(options)] *)
Definition syncFromDatabase (options : SyncOptions) (h : Host)
    : Outcome (list CaseStudy) * Host :=
  let h1 := call (onProgress options)
              (Progress 0 1 "Connecting to database...") h in
  let (response, h2) := readRemote h1 in
  let attempt : Outcome (list CaseStudy) * Host :=
    match carried response with
    | None =>
        (Threw (ErrorObj (orString (CaseStudiesApi.error response)
                            "Failed to fetch from database")), h2)
    | Some d =>
        let h3 := call (onProgress options)
                    (Progress 1 2 "Converting data format...") h2 in
        let localCases := map apiToLocal d in
        let h4 := call (onProgress options)
                    (Progress 2 2 "Saving to local storage...") h3 in
        match saveLocalCases localCases h4 with
        | (Threw err, h5) => (Threw err, h5)
        | (Returned _, h5) =>
            (Returned localCases,
             call (onSuccess options)
               (Succeeded ("Successfully synced " +:+ pretty (length localCases)
                           +:+ " case studies from database")) h5)
        end
    end in
  match attempt with
  | (Returned r, h') => (Returned r, h')
  | (Threw err, h') =>
      (Threw err,
       call (onError options)
         (Failed ("Failed to sync from database: "
                  +:+ messageOr "Unknown error" err)) h')
  end.

(** [syncToDatabase(options)] *)
Definition syncToDatabase (options : SyncOptions) (h : Host)
    : Outcome (list ApiCaseStudy) * Host :=
  let (localCases, h1) := getLocalCases h in
  let total := Z.of_nat (length localCases) + 1 in
  let attempt : Outcome (list ApiCaseStudy) * Host :=
    if Z.of_nat (length localCases) =? 0 then
      (Returned [], call (onError options) (Failed "No local case studies to sync") h1)
    else
      let h2 := call (onProgress options) (Progress 0 total "Preparing data...") h1 in
      let apiCases := map toApiCase localCases in
      let h3 := call (onProgress options)
                  (Progress 1 total "Uploading to database...") h2 in
      let (response, h4) := writeRemote apiCases h3 in
      match carried response with
      | None =>
          (Threw (ErrorObj (orString (CaseStudiesApi.error response)
                              "Failed to upload to database")), h4)
      | Some d =>
          let h5 := call (onProgress options)
                      (Progress total total "Sync complete") h4 in
          (Returned d,
           call (onSuccess options)
             (Succeeded ("Successfully synced " +:+ pretty (length apiCases)
                         +:+ " case studies to database")) h5)
      end in
  match attempt with
  | (Returned r, h') => (Returned r, h')
  | (Threw err, h') =>
      (Threw err,
       call (onError options)
         (Failed ("Failed to sync to database: "
                  +:+ messageOr "Unknown error" err)) h')
  end.

(** The result of [autoSync]. *)
Record AutoSynced : Type := {
  direction : string;
  cases : list CaseStudy
}.

(** [autoSync(options)] *)
Definition autoSync (options : SyncOptions) (h : Host)
    : Outcome AutoSynced * Host :=
  let h1 := call (onProgress options)
              (Progress 0 3 "Analyzing sync requirements...") h in
  let (localCases, h2) := getLocalCases h1 in
  let (dbResponse, h3) := readRemote h2 in
  let h4 := call (onProgress options)
              (Progress 1 3 "Comparing data sources...") h3 in
  let attempt : Outcome AutoSynced * Host :=
    if noRecords dbResponse && (Z.of_nat (length localCases) >? 0) then
      let h5 := call (onProgress options)
                  (Progress 2 3 "Syncing local data to database...") h4 in
      match syncToDatabase (withoutProgress options) h5 with
      | (Threw err, h6) => (Threw err, h6)
      | (Returned _, h6) =>
          (Returned {| direction := "toDb"; cases := localCases |},
           call (onSuccess options)
             (Succeeded "Auto-sync: Uploaded local data to database") h6)
      end
    else if (Z.of_nat (length localCases) =? 0) && hasRecords dbResponse then
      let h5 := call (onProgress options)
                  (Progress 2 3 "Syncing database to local...") h4 in
      match syncFromDatabase (withoutProgress options) h5 with
      | (Threw err, h6) => (Threw err, h6)
      | (Returned syncedCases, h6) =>
          (Returned {| direction := "fromDb"; cases := syncedCases |},
           call (onSuccess options)
             (Succeeded "Auto-sync: Downloaded data from database") h6)
      end
    else if hasRecords dbResponse then
      let h5 := call (onProgress options)
                  (Progress 2 3 "Syncing database to local...") h4 in
      match syncFromDatabase (withoutProgress options) h5 with
      | (Threw err, h6) => (Threw err, h6)
      | (Returned syncedCases, h6) =>
          (Returned {| direction := "fromDb"; cases := syncedCases |},
           call (onSuccess options)
             (Succeeded "Auto-sync: Synced from database (source of truth)") h6)
      end
    else
      let h5 := call (onProgress options) (Progress 3 3 "Using local data...") h4 in
      (Returned {| direction := "local"; cases := localCases |},
       call (onSuccess options)
         (Succeeded "Auto-sync: Using local data (no database data available)") h5) in
  match attempt with
  | (Returned r, h') => (Returned r, h')
  | (Threw err, h') =>
      (Threw err,
       call (onError options)
         (Failed ("Auto-sync failed: " +:+ messageOr "Unknown error" err)) h')
  end.

(** [new Date(c.updatedAt || c.createdAt || 0).getTime()] *)
Definition timeOf (updated created : option string) : JsNumber :=
  match updated, created with
  | Some u, _ => if truthyString u then dateTime u
                 else match created with
                      | Some c => if truthyString c then dateTime c else Finite 0
                      | None => Finite 0
                      end
  | None, Some c => if truthyString c then dateTime c else Finite 0
  | None, None => Finite 0
  end.

(** [getSyncStatus()] *)
Definition getSyncStatus (h : Host) : Outcome SyncStatus * Host :=
  let (localCases, h1) := getLocalCases h in
  let (dbResponse, h2) := readRemote h1 in
  let localSide :=
    {| count := Z.of_nat (length localCases);
       lastUpdated :=
         if Z.of_nat (length localCases) >? 0
         then Some (numberToString
                      (mathMax (map (fun c => timeOf (updatedAt c) (createdAt c))
                                  localCases)))
         else None |} in
  let databaseSide :=
    {| count := match carried dbResponse with
                | Some d => Z.of_nat (length d)
                | None => 0
                end;
       lastUpdated :=
         if hasRecords dbResponse
         then Some (numberToString
                      (mathMax (map (fun c => timeOf (CaseStudiesApi.updatedAt c)
                                                (CaseStudiesApi.createdAt c))
                                  (default [] (carried dbResponse)))))
         else None |} in
  (Returned {| local := localSide; database := databaseSide;
               recommendation := recommend (count localSide) (count databaseSide) |},
   h2).

End Engine.

Arguments CaseStudy : clear implicits.
Arguments AutoSynced : clear implicits.
Arguments Host : clear implicits.

End CaseStudiesSync.

(** ** Scenarios used to run the program on concrete inputs *)

Module Scenario.
Import ApiCache CaseStudiesApi.

(** The bound of the specification's wording of the refresh rule: the
    remaining lifetime below which a refresh is due is
    [(1 - refreshThreshold) * ttl]. *)
Definition statedRefreshBound (ttl : Z) (refreshThreshold : QArith_base.Q) : QArith_base.Q :=
  QArith_base.Qmult
    (QArith_base.Qminus (number 1) refreshThreshold) (number ttl).

(** A [fetchFn] that counts its invocations in the outside state,
    hands out the invocation number as its promise, and resolves to the
    answer it is given. *)
Definition countingFetch : FetchFn string nat string nat :=
  {| start := fun _ n => (n, S n);
     finish := fun _ _ reply n => (Returned reply, n) |}.

(** A cache holding one entry for ["k"], stored at time 0 with a
    time-to-live of 300000 ms; nothing in flight, [fetchFn] never
    invoked. *)
Definition oneEntry : State string nat nat :=
  {| cache := {[ "k" := {| ApiCache.data := "old"; timestamp := 0; expiry := 300000 |} ]};
     refreshing := [];
     outside := 0%nat |}.

(** A client that has done nothing yet. *)
Definition freshClient : Client :=
  {| cache := ∅;
     refreshing := [];
     outside := {| monitor := DatabaseMonitor.initial; metrics := []; wire := [] |} |}.

Definition sampleFields : Fields :=
  {| title := "Chat bot"; description := "Support automation";
     descriptionRu := None; image := "bot.png"; technologies := ["TypeScript"];
     fullDescription := "A support chat bot"; fullDescriptionRu := None;
     uniqueFeatures := []; uniqueFeaturesRu := None;
     keyBenefits := []; keyBenefitsRu := None; additionalImages := [];
     category := "ai"; industry := "retail"; timeframe := "3 months";
     result := "-30% tickets"; showOnHomepage := Some true |}.

Definition sampleCase (i : string) : CaseStudy :=
  {| id := i; iconName := "Bot"; fields := sampleFields;
     createdAt := Some "2024-01-01T00:00:00.000Z";
     updatedAt := Some "2024-02-01T00:00:00.000Z" |}.

(** A case study as the JSON object the remote store sends, with the
    properties that the runs below tell records apart by. *)
Definition caseJson (c : CaseStudy) : Json :=
  JObject [("id", JString (id c));
           ("title", JString (title (fields c)));
           ("iconName", JString (iconName c))].

(** The body [{ success: true, data }]. *)
Definition okBody (d : Json) : Json :=
  JObject [("success", JBool true); ("data", d)].

(** Answers of the remote store. *)
Definition networkDown : Reply :=
  {| settled := Rejects (ErrorObj "Failed to fetch"); entropy := "r1" |}.


Definition notFound : Reply :=
  {| settled := Responds false 404 (Parsed (failure "Case study not found"));
     entropy := "r3" |}.

Definition listOf (cases : list CaseStudy) : Reply :=
  {| settled := Responds true 200 (Parsed (okBody (JArray (map caseJson cases))));
     entropy := "r4" |}.

Definition updated (c : CaseStudy) : Reply :=
  {| settled := Responds true 200 (Parsed (okBody (caseJson c)));
     entropy := "r5" |}.




(** A client whose cache holds the list, one item and the homepage
    subset, all stored at time 0. *)
Definition warmClient : Client :=
  let entry d := {| ApiCache.data := okBody d;
                    timestamp := 0; expiry := MEDIUM |} in
  {| cache := <[ CASE_STUDIES := entry (JArray [caseJson (sampleCase "a")]) ]>
              (<[ CASE_STUDY "a" := entry (caseJson (sampleCase "a")) ]>
              (<[ HOMEPAGE_SOLUTIONS := entry (JArray [caseJson (sampleCase "a")]) ]>
              (<[ STATS := entry (JObject [("totalCases", JString "1")]) ]> ∅)));
     refreshing := [];
     outside := {| monitor := DatabaseMonitor.initial; metrics := []; wire := [] |} |}.

(** [warmClient] after a read of the list at 250000, in the last minute
    of the entry: a refresh of the list is in flight. *)
Definition refreshingClient : Client :=
  snd (getAllCaseStudies 250000 "r" 0 networkDown warmClient).

(** 101 [logOperation] calls, at times 0 to 100. *)
Definition sampleOperation : DatabaseMonitor.OperationInput :=
  {| DatabaseMonitor.in_type := DatabaseMonitor.read;
     DatabaseMonitor.in_duration := None;
     DatabaseMonitor.in_success := true;
     DatabaseMonitor.in_recordCount := Some 1;
     DatabaseMonitor.in_error := None;
     DatabaseMonitor.in_details := None |}.

Definition callAt (n : nat) : DatabaseMonitor.LogCall :=
  (Z.of_nat n, "x", sampleOperation).

Definition manyCalls : list DatabaseMonitor.LogCall := map callAt (seq 0 101).

(** A [fetchFn] whose promise always rejects, with the answer it is
    given as the message. *)
Definition rejectingFetch : FetchFn string nat string nat :=
  {| start := fun _ n => (n, S n);
     finish := fun _ _ reply n => (Threw (ErrorObj reply), n) |}.

(** The cache of [oneEntry] with a refresh for ["k"] in flight. *)
Definition refreshingEntry : State string nat nat :=
  snd (getOrFetch 250000 "k" countingFetch 300000 defaultRefreshThreshold
         0 "new" oneEntry).

(** Floating-point arithmetic replaced by exact rationals, with a
    rounding that is the identity on integers. *)
Definition exactDivide (a b : QArith_base.Q) : QArith_base.Q := QArith_base.Qdiv a b.
Definition exactTimes (a b : QArith_base.Q) : QArith_base.Q := QArith_base.Qmult a b.
Definition exactRound (a : QArith_base.Q) : QArith_base.Q :=
  number ((2 * QArith_base.Qnum a + Z.pos (QArith_base.Qden a))
          / (2 * Z.pos (QArith_base.Qden a))).

(** A monitor with three records: a failed write at 30 and two reads. *)
Definition busyMonitor : DatabaseMonitor.Monitor :=
  DatabaseMonitor.logAll
    [ (10, "a", sampleOperation);
      (20, "b", sampleOperation);
      (30, "c", {| DatabaseMonitor.in_type := DatabaseMonitor.write;
                   DatabaseMonitor.in_duration := Some 12;
                   DatabaseMonitor.in_success := false;
                   DatabaseMonitor.in_recordCount := Some 0;
                   DatabaseMonitor.in_error := Some "HTTP error! status: 500";
                   DatabaseMonitor.in_details := None |}) ]
    DatabaseMonitor.initial.

End Scenario.

Module SyncScenario.
Import CaseStudiesSync.

(** A remote store behind [caseStudiesApi]: reachable or not, with the
    collection it holds.  A bulk update replaces the collection. *)
Record Remote : Type := {
  reachable : bool;
  collection : list ApiCaseStudy
}.

(** The typed view of the envelope [{ success: false, error }]. *)
Definition refusal (errorMessage : string) : ApiResponse (list ApiCaseStudy) :=
  {| CaseStudiesApi.success := false; CaseStudiesApi.data := None;
     CaseStudiesApi.error := Some errorMessage;
     CaseStudiesApi.message := None |}.

Definition remoteList (r : Remote) : ApiResponse (list ApiCaseStudy) * Remote :=
  if reachable r then
    ({| CaseStudiesApi.success := true;
        CaseStudiesApi.data := Some (collection r);
        CaseStudiesApi.error := None; CaseStudiesApi.message := None |}, r)
  else (refusal "Failed to fetch", r).

Definition remoteBulk (cs : list ApiCaseStudy) (r : Remote)
    : ApiResponse (list ApiCaseStudy) * Remote :=
  if reachable r then
    ({| CaseStudiesApi.success := true; CaseStudiesApi.data := Some cs;
        CaseStudiesApi.error := None; CaseStudiesApi.message := None |},
     {| reachable := true; collection := cs |})
  else (refusal "Failed to fetch", r).

(** Icons stand for themselves as strings. *)
Definition icons : list (string * string) :=
  [("MessageSquare", "<MessageSquare/>"); ("Bot", "<Bot/>")].

(** What an object literal inherits from [Object.prototype], each
    property standing for itself as a string. *)
Definition objectPrototype (nm : string) : option string :=
  if bool_decide (nm ∈ ["constructor"; "__proto__"; "hasOwnProperty";
                        "isPrototypeOf"; "propertyIsEnumerable";
                        "toLocaleString"; "toString"; "valueOf";
                        "__defineGetter__"; "__defineSetter__";
                        "__lookupGetter__"; "__lookupSetter__"])
  then Some ("Object.prototype." +:+ nm)
  else None.

(** A stand-in for date parsing: every timestamp is the same instant. *)
Definition clock (s : string) : JsNumber := Finite 1706745600000.

Definition savedSample (i : string) : SavedCase :=
  {| savedId := i; savedIconName := Some "Bot";
     savedFields := Scenario.sampleFields;
     savedCreatedAt := Some "2024-01-01T00:00:00.000Z";
     savedUpdatedAt := Some "2024-02-01T00:00:00.000Z" |}.

Definition hostOf (s : Stored) (r : Remote) : Host Remote :=
  {| storage := s; writable := true; api := r; io := []; reported := [] |}.

Definition everyCallback : SyncOptions :=
  {| onProgress := true; onError := true; onSuccess := true |}.

Definition emptyRemote : Remote := {| reachable := true; collection := [] |}.

Definition downRemote : Remote := {| reachable := false; collection := [] |}.

Definition fullRemote : Remote :=
  {| reachable := true;
     collection := [Scenario.sampleCase "a"; Scenario.sampleCase "b"] |}.

(** A [caseStudiesApi] whose every read gets the same answer and whose
    bulk update always fails. *)
Definition fixedList (r : ApiResponse (list ApiCaseStudy)) (a : unit)
    : ApiResponse (list ApiCaseStudy) * unit := (r, a).

Definition refusedBulk (cs : list ApiCaseStudy) (a : unit)
    : ApiResponse (list ApiCaseStudy) * unit :=
  (refusal "Invalid data format", a).

Definition twoRecords : ApiResponse (list ApiCaseStudy) :=
  {| CaseStudiesApi.success := true;
     CaseStudiesApi.data := Some [Scenario.sampleCase "a"; Scenario.sampleCase "b"];
     CaseStudiesApi.error := None; CaseStudiesApi.message := None |}.

(** An API record whose icon name is not in [icons] but is the name of
    a property that every object literal inherits. *)
Definition inheritedNameCase : ApiCaseStudy :=
  {| CaseStudiesApi.id := "c"; CaseStudiesApi.iconName := "constructor";
     CaseStudiesApi.fields := Scenario.sampleFields;
     CaseStudiesApi.createdAt := None; CaseStudiesApi.updatedAt := None |}.

(** A local record whose icon is the component registered as ["Bot"]. *)
Definition localSample (i : string) : CaseStudy string :=
  {| id := i; icon := Some "<Bot/>"; fields := Scenario.sampleFields;
     createdAt := Some "2024-01-01T00:00:00.000Z";
     updatedAt := Some "2024-02-01T00:00:00.000Z" |}.

End SyncScenario.

(* ================================================================== *)
(** * Part II: properties                                              *)
(* ================================================================== *)

(** ** Facts on the array primitives *)

Lemma relativeIndex_nonneg (len i : Z) :
  0 <= i -> relativeIndex len i = Z.min i len.
Proof.
  intros Hi. unfold relativeIndex.
  destruct (Z.ltb_spec i 0) as [Hneg | _]; [lia | reflexivity].
Qed.

Lemma slice_prefix {A : Type} (l : list A) (n : Z) :
  0 <= n -> slice l 0 (Some n) = take (Z.to_nat n) l.
Proof.
  intros Hn. unfold slice.
  rewrite !relativeIndex_nonneg by lia.
  replace (Z.to_nat (0 `min` Z.of_nat (length l))) with 0%nat by lia.
  rewrite drop_0.
  destruct (Z.le_gt_cases n (Z.of_nat (length l))) as [Hle | Hgt].
  - f_equal. lia.
  - rewrite !take_ge; [reflexivity | lia | lia].
Qed.

Lemma slice_suffix {A : Type} (l : list A) (n : Z) :
  0 < n -> slice l (- n) None = drop (length l - Z.to_nat n) l.
Proof.
  intros Hn. unfold slice, relativeIndex.
  destruct (Z.ltb_spec (- n) 0) as [_ | Hpos]; [| lia].
  replace (Z.to_nat (Z.max (Z.of_nat (length l) + - n) 0))
    with (length l - Z.to_nat n)%nat by lia.
  apply take_ge. rewrite length_drop. lia.
Qed.

Lemma take_app_take {A : Type} (n : nat) (l k : list A) :
  take n (l ++ take n k) = take n (l ++ k).
Proof.
  rewrite !take_app, take_take. do 2 f_equal. lia.
Qed.

(** ** DatabaseMonitor: the bounded, newest-first log *)

Section MonitorFacts.
Import DatabaseMonitor.

Lemma logOperation_operations now rnd operation (m : Monitor) :
  operations (snd (logOperation now rnd operation m))
  = take 100 (logEntry now rnd operation :: operations m).
Proof.
  unfold logOperation. cbn [snd operations].
  set (ops := logEntry now rnd operation :: operations m).
  destruct (Z.gtb_spec (Z.of_nat (length ops)) maxOperations) as [Hgt | Hle].
  - apply slice_prefix. unfold maxOperations. lia.
  - symmetry. apply take_ge. unfold maxOperations in Hle. lia.
Qed.

Lemma logOperation_starts now rnd operation (m : Monitor) :
  starts (snd (logOperation now rnd operation m)) = starts m.
Proof. reflexivity. Qed.

Lemma logAll_operations (calls : list LogCall) (m : Monitor) :
  (length (operations m) <= 100)%nat ->
  operations (logAll calls m)
  = take 100 (reverse (map entryOf calls) ++ operations m).
Proof.
  revert m. induction calls as [| c calls IH]; intros m Hm.
  - cbn. symmetry. apply take_ge. exact Hm.
  - change (logAll (c :: calls) m)
      with (logAll calls (snd (logOperation c.1.1 c.1.2 c.2 m))).
    rewrite IH; rewrite logOperation_operations.
    + rewrite take_app_take.
      cbn [map]. rewrite reverse_cons, <- app_assoc. reflexivity.
    + rewrite length_take. lia.
Qed.

(** Every method of the monitor keeps the log within its capacity. *)
Lemma runMonitorCall_bounded (c : MonitorCall) (m : Monitor) :
  (length (operations m) <= 100)%nat ->
  (length (operations (runMonitorCall c m)) <= 100)%nat.
Proof.
  intros Hm. destruct c; cbn [runMonitorCall].
  - rewrite logOperation_operations, length_take. lia.
  - cbn. exact Hm.
  - unfold completeOperation. destruct (starts m !! i); [| exact Hm].
    cbn [operations]. rewrite logOperation_operations, length_take. lia.
  - cbn. lia.
Qed.

Lemma monitor_bounded (cs : list MonitorCall) :
  (length (operations (foldl (fun m c => runMonitorCall c m) initial cs)) <= 100)%nat.
Proof.
  induction cs as [| c cs IH] using rev_ind.
  - cbn. lia.
  - rewrite foldl_app. cbn [foldl]. apply runMonitorCall_bounded, IH.
Qed.

(** C8.  After any sequence of [logOperation] calls the log holds at most
    100 records, the newest first (it is the first 100 of the calls read
    backwards); and after 101 calls [getRecentOperations(100)] is the
    records of the last 100 calls, newest first, so the record of the
    first call is not among them. *)
Theorem ring_buffer_newest_first_capacity_100 (calls : list LogCall) :
  let m := logAll calls initial in
  (length (operations m) <= 100)%nat
  /\ operations m = take 100 (reverse (map entryOf calls))
  /\ (forall oldest rest,
        calls = oldest :: rest -> length rest = 100%nat ->
        getRecentOperations 100 m = reverse (map entryOf rest)
        /\ length (getRecentOperations 100 m) = 100%nat
        /\ (entryOf oldest ∉ map entryOf rest ->
            entryOf oldest ∉ getRecentOperations 100 m)).
Proof.
  intros m.
  assert (Hops : operations m = take 100 (reverse (map entryOf calls))).
  { subst m. rewrite logAll_operations by (cbn; lia).
    cbn [initial operations]. rewrite app_nil_r. reflexivity. }
  split; [| split].
  - rewrite Hops, length_take. lia.
  - exact Hops.
  - intros oldest rest -> Hlen.
    assert (Hrecent : getRecentOperations 100 m = reverse (map entryOf rest)).
    { unfold getRecentOperations. rewrite slice_prefix by lia.
      rewrite Hops, take_take. cbn [map]. rewrite reverse_cons.
      change (Z.to_nat 100 `min` 100)%nat with 100%nat.
      rewrite take_app_le by (rewrite length_reverse, length_map; lia).
      apply take_ge. rewrite length_reverse, length_map. lia. }
    split; [exact Hrecent | split].
    + rewrite Hrecent, length_reverse, length_map. exact Hlen.
    + intros Hfresh Hin. apply Hfresh.
      rewrite Hrecent in Hin. rewrite elem_of_reverse in Hin. exact Hin.
Qed.

End MonitorFacts.

(** ** PerformanceMonitor: measurements are ended by name *)

Section PerformanceFacts.
Import PerformanceMonitor.

Lemma findIndex_Some {A : Type} (p : A -> bool) (l : list A) (i : nat) :
  findIndex p l = Some i ->
  exists x, l !! i = Some x /\ p x = true
            /\ forall j y, (j < i)%nat -> l !! j = Some y -> p y = false.
Proof.
  revert i. induction l as [| a l IH]; intros i; cbn [findIndex].
  - discriminate.
  - destruct (p a) eqn:Hpa.
    + intros [= <-]. exists a. repeat split; [exact Hpa |]. intros j y Hj. lia.
    + destruct (findIndex p l) as [k |] eqn:Hk; cbn; [| discriminate].
      intros [= <-]. destruct (IH k eq_refl) as (x & Hx & Hpx & Hbefore).
      exists x. repeat split; [exact Hx | exact Hpx |].
      intros [| j] y Hj; cbn.
      * intros [= <-]. exact Hpa.
      * apply Hbefore. lia.
Qed.

Lemma findIndex_None {A : Type} (p : A -> bool) (l : list A) :
  findIndex p l = None <-> forall x, x ∈ l -> p x = false.
Proof.
  induction l as [| a l IH]; cbn [findIndex].
  - split; [intros _ x Hx; inversion Hx | reflexivity].
  - destruct (p a) eqn:Hpa.
    + split; [discriminate |]. intros H.
      rewrite (H a) in Hpa by left. discriminate.
    + destruct (findIndex p l) as [k |]; cbn.
      * split; [discriminate |]. intros H. exfalso.
        assert (HN : Some k = None); [| discriminate].
        apply IH. intros x Hx. apply H. right. exact Hx.
      * split; [| reflexivity]. intros _ x Hx.
        apply elem_of_cons in Hx as [-> | Hx]; [exact Hpa |].
        apply IH; [reflexivity | exact Hx].
Qed.






End PerformanceFacts.

Section PerformanceContract.
Import PerformanceMonitor.




End PerformanceContract.

(** ** ApiCache: expiry, refresh and what is in flight *)

Section CacheFacts.
Import ApiCache.
Context {T H R E : Type}.

Lemma ltNumber_spec (a b : QArith_base.Q) :
  ltNumber a b = true <-> QArith_base.Qlt a b.
Proof. unfold ltNumber, QArith_base.Qlt. apply Z.ltb_lt. Qed.

Lemma lookup_foldr_delete {V : Type} (ks : list string) (m : gmap string V) (k : string) :
  foldr base.delete m ks !! k = if decide (k ∈ ks) then None else m !! k.
Proof.
  induction ks as [| a ks IH]; cbn [foldr].
  - destruct (decide (k ∈ [])) as [Hin | _]; [inversion Hin | reflexivity].
  - destruct (decide (a = k)) as [-> | Hne].
    + rewrite lookup_delete_eq.
      destruct (decide (k ∈ k :: ks)) as [_ | Hout]; [reflexivity |].
      exfalso. apply Hout. left.
    + rewrite lookup_delete_ne by exact Hne. rewrite IH.
      destruct (decide (k ∈ ks)) as [Hin | Hout];
        destruct (decide (k ∈ a :: ks)) as [Hin' | Hout']; try reflexivity.
      * exfalso. apply Hout'. right. exact Hin.
      * exfalso. apply elem_of_cons in Hin' as [-> | Hin']; [apply Hne | apply Hout]; done.
Qed.

(** [cleanup] removes exactly the items whose expiry lies before [now]. *)
Lemma cleanup_lookup (now : Z) (c : gmap string (CacheItem T)) (k : string) :
  cleanup now c !! k
  = match c !! k with
    | Some item => if decide (expiry item < now) then None else Some item
    | None => None
    end.
Proof.
  unfold cleanup. rewrite lookup_foldr_delete.
  set (ks := (filter (fun kv => expiry kv.2 < now) (map_to_list c)).*1).
  destruct (c !! k) as [item |] eqn:Hk.
  - destruct (decide (expiry item < now)) as [Hold | Hlive].
    + destruct (decide (k ∈ ks)) as [_ | Hout]; [reflexivity |].
      exfalso. apply Hout. subst ks. apply list_elem_of_fmap.
      exists (k, item). split; [reflexivity |].
      apply list_elem_of_filter. split; [exact Hold |].
      apply elem_of_map_to_list. exact Hk.
    + destruct (decide (k ∈ ks)) as [Hin | _]; [| reflexivity].
      exfalso. subst ks. apply list_elem_of_fmap in Hin as ([k' item'] & Hk' & Hin).
      cbn in Hk'. subst k'.
      apply list_elem_of_filter in Hin as [Hold Hin].
      apply elem_of_map_to_list in Hin. rewrite Hk in Hin.
      injection Hin as <-. cbn in Hold. lia.
  - destruct (decide (k ∈ ks)) as [Hin | _]; reflexivity.
Qed.

(** Right after [set], the key holds the new item (for a [ttl] that is
    not negative). *)
Lemma set_lookup (now : Z) (key : string) (d : T) (ttl : Z)
    (c : gmap string (CacheItem T)) :
  0 <= ttl ->
  set now key d ttl c !! key
  = Some {| data := d; timestamp := now; expiry := now + ttl |}.
Proof.
  intros Httl. unfold set. rewrite cleanup_lookup, lookup_insert_eq.
  cbn [expiry]. destruct (decide (now + ttl < now)); [lia | reflexivity].
Qed.

(** [getOrFetch] on a present key: the cached data is returned, and
    [fetchFn] is invoked in the background exactly when the remaining
    lifetime is below [ttl * refreshThreshold]. *)
Lemma getOrFetch_hit now key (fetchFn : FetchFn T H R E) ttl threshold later reply
    (st : State T H E) (cached : CacheItem T) :
  cache st !! key = Some cached ->
  getOrFetch now key fetchFn ttl threshold later reply st
  = (Returned (data cached),
     if ltNumber (number (expiry cached - now))
          (QArith_base.Qmult (number ttl) threshold)
     then refreshInBackground now key fetchFn ttl st
     else st).
Proof. intros Hk. unfold getOrFetch. rewrite Hk. reflexivity. Qed.

Lemma inFlight_refreshInBackground now key (fetchFn : FetchFn T H R E) ttl
    (st : State T H E) :
  inFlight key (refreshInBackground now key fetchFn ttl st) = S (inFlight key st).
Proof.
  unfold inFlight, refreshInBackground.
  destruct (start fetchFn now (outside st)) as [promise e]. cbn [refreshing].
  rewrite filter_app, length_app.
  rewrite filter_cons_True by reflexivity. cbn. lia.
Qed.

(** C1, as the code has it.  The cache keeps no record of the refreshes
    in flight when it decides to refresh: every [getOrFetch] call that
    finds the key with a remaining lifetime below
    [ttl * refreshThreshold] invokes [fetchFn] once more and adds one
    refresh in flight for the key, however many are in flight already;
    the cached data is returned and the cache map is left as it was. *)
Theorem refresh_started_by_every_call_below_threshold
    now key (fetchFn : FetchFn T H R E) ttl threshold later reply
    (st : State T H E) (cached : CacheItem T) :
  cache st !! key = Some cached ->
  QArith_base.Qlt (number (expiry cached - now))
    (QArith_base.Qmult (number ttl) threshold) ->
  let after := snd (getOrFetch now key fetchFn ttl threshold later reply st) in
  fst (getOrFetch now key fetchFn ttl threshold later reply st)
  = Returned (data cached)
  /\ cache after = cache st
  /\ refreshing after
     = refreshing st
       ++ [ {| refreshKey := key; refreshTtl := ttl;
               refreshPromise := fst (start fetchFn now (outside st)) |} ]
  /\ outside after = snd (start fetchFn now (outside st))
  /\ inFlight key after = S (inFlight key st).
Proof.
  intros Hk Hlt after. subst after.
  rewrite (getOrFetch_hit _ _ _ _ _ _ _ _ _ Hk).
  apply ltNumber_spec in Hlt. rewrite Hlt. cbn [fst snd].
  split; [reflexivity |].
  rewrite inFlight_refreshInBackground.
  unfold refreshInBackground.
  destruct (start fetchFn now (outside st)) as [promise e].
  cbn. repeat split.
Qed.

End CacheFacts.

Section CacheRuns.
Import ApiCache Scenario.

(** A run of the statement above: the entry stored at 0 for 300000 ms is
    read at 250000 while nothing is in flight. *)
Lemma refresh_started_witness :
  inFlight "k"
    (snd (getOrFetch 250000 "k" countingFetch 300000 defaultRefreshThreshold
            0 "new" oneEntry)) = 1%nat.
Proof.
  destruct (refresh_started_by_every_call_below_threshold
              250000 "k" countingFetch 300000 defaultRefreshThreshold 0 "new"
              oneEntry {| data := "old"; timestamp := 0; expiry := 300000 |})
    as (_ & _ & _ & _ & Hcount).
  - reflexivity.
  - vm_compute. reflexivity.
  - rewrite Hcount. reflexivity.
Defined.

(** C1 as stated fails.  Two [getOrFetch] calls for ["k"] one
    millisecond apart, both past the refresh threshold and with no
    refresh settled in between: two refreshes are in flight for ["k"]
    and [fetchFn] has been invoked twice. *)
Lemma single_flight_counterexample :
  let first := snd (getOrFetch 250000 "k" countingFetch 300000
                      defaultRefreshThreshold 0 "new" oneEntry) in
  let second := snd (getOrFetch 250001 "k" countingFetch 300000
                       defaultRefreshThreshold 0 "new" first) in
  inFlight "k" first = 1%nat
  /\ inFlight "k" second = 2%nat
  /\ outside second = 2%nat
  /\ ~ (inFlight "k" second <= 1)%nat.
Proof. vm_compute. repeat split. lia. Qed.

(** C2 at the input where the code and the stated rule part.  A third
    of the time-to-live has passed: the remaining 200000 ms are not
    below [(1 - 0.8) * 300000 = 60000], so the stated rule schedules
    nothing; the code compares with [300000 * 0.8 = 240000] and invokes
    [fetchFn]. *)
Theorem refresh_fires_after_a_third_of_ttl :
  let after := snd (getOrFetch 100000 "k" countingFetch 300000
                      defaultRefreshThreshold 0 "new" oneEntry) in
  ltNumber (number (300000 - 100000))
    (statedRefreshBound 300000 defaultRefreshThreshold) = false
  /\ ltNumber (number (300000 - 100000))
       (QArith_base.Qmult (number 300000) defaultRefreshThreshold) = true
  /\ inFlight "k" after = 1%nat
  /\ outside after = 1%nat.
Proof. vm_compute. repeat split. Qed.

End CacheRuns.

(** ** CaseStudiesApi: the envelope, and the cache around the requests *)

Section RequestFacts.
Import ApiCache CaseStudiesApi.

(** Closing a token that [startOperation] has just handed out logs one
    record with the given outcome. *)
Lemma completeOperation_after_start now rnd ty dt (m : DatabaseMonitor.Monitor)
    later rnd' ok count err extra :
  let started := DatabaseMonitor.startOperation now rnd ty dt m in
  DatabaseMonitor.operations
    (DatabaseMonitor.completeOperation later rnd' (fst started) ok count err extra
       (snd started))
  = take 100
      (DatabaseMonitor.logEntry later rnd'
         {| DatabaseMonitor.in_type := ty;
            DatabaseMonitor.in_duration := Some (later - now);
            DatabaseMonitor.in_success := ok;
            DatabaseMonitor.in_recordCount := count;
            DatabaseMonitor.in_error := err;
            DatabaseMonitor.in_details := Some (DatabaseMonitor.spread dt extra) |}
       :: DatabaseMonitor.operations m).
Proof.
  cbn [DatabaseMonitor.startOperation fst snd].
  unfold DatabaseMonitor.completeOperation. cbn [DatabaseMonitor.starts].
  rewrite lookup_insert_eq.
  cbn [DatabaseMonitor.operations DatabaseMonitor.startTime
       DatabaseMonitor.startType DatabaseMonitor.startDetails].
  rewrite logOperation_operations. reflexivity.
Qed.

Lemma failure_shape (msg : string) :
  failure msg <> JNull
  /\ succeeded (failure msg) = false
  /\ member "error" (failure msg) = Some (JString msg)
  /\ readProperty "success" (failure msg) = Returned (Some (JBool false)).
Proof. repeat split. discriminate. Qed.

(** The count that [makeRequest] infers, read off the body. *)
Lemma inferRecordCount_cases (d : Json) :
  inferRecordCount d
  = if truthyOpt (member "success" d) then
      match member "data" d with
      | Some (JArray items) => Some (Z.of_nat (length items))
      | Some (JObject _) => Some 1
      | _ => None
      end
    else None.
Proof.
  unfold inferRecordCount.
  destruct (truthyOpt (member "success" d)); [| reflexivity].
  destruct (member "data" d) as [[| b | n | s | items | properties] |];
    cbn [truthyOpt truthy andb]; try reflexivity.
  - destruct b; reflexivity.
  - destruct (negb (isZero n)); reflexivity.
  - destruct (truthyString s); reflexivity.
Qed.

(** The second half of [makeRequest], for every way [fetch] can settle:
    it returns, never [null]; what it returns; and how it closes the
    token of the monitor. *)
Lemma makeRequestFinish_outcome (later : Z) (p : Pending) (reply : Reply)
    (e : Services) :
  exists (result : Json) (e' : Services) (count : option Z) (err : option string),
    makeRequestFinish later p reply e = (Returned result, e')
    /\ match settled reply with
       | Rejects thrown =>
           result = failure (messageOr "Unknown error occurred" thrown)
       | Responds false status (Unparseable _) =>
           result = failure ("HTTP error! status: " +:+ pretty status)
       | Responds false status (Parsed JNull) =>
           result = failure (nullPropertyMessage "error")
       | Responds false status (Parsed errorData) =>
           result = failure
                      match member "error" errorData with
                      | Some v =>
                          if truthy v then
                            match toText v with
                            | Returned text => text
                            | Threw thrown =>
                                messageOr "Unknown error occurred" thrown
                            end
                          else "HTTP error! status: " +:+ pretty status
                      | None => "HTTP error! status: " +:+ pretty status
                      end
       | Responds true _ (Unparseable thrown) =>
           result = failure (messageOr "Unknown error occurred" thrown)
       | Responds true _ (Parsed JNull) =>
           result = failure (nullPropertyMessage "success")
       | Responds true _ (Parsed d) => result = d
       end
    /\ result <> JNull
    /\ monitor e'
       = DatabaseMonitor.completeOperation later (entropy reply) (operationId p)
           (succeeded result) count err None (monitor e)
    /\ (forall msg, member "error" result = Some (JString msg) -> err = Some msg)
    /\ (member "error" result = None -> err = None)
    /\ count = match settled reply with
               | Responds true _ (Parsed JNull) => Some 0
               | Responds true _ (Parsed d) => inferRecordCount d
               | _ => Some 0
               end
    /\ metrics e' = metrics e
    /\ wire e' = wire e.
Proof.
  unfold makeRequestFinish, tryBlock.
  destruct (settled reply) as [thrown | [|] status [v | thrown]];
    try destruct v;
    cbn [negb readProperty];
    try change (member "error" (JObject [])) with (@None Json);
    try match goal with
        | |- context [toText] =>
            destruct (member "error" _) as [w |];
              [destruct (truthy w); [destruct (toText w) as [text | thrown] |] |]
        end;
    (eexists _, _, _, _; split; [reflexivity |];
     split; [reflexivity |];
     split; [unfold failure; discriminate |];
     split; [reflexivity |];
     cbn [monitor metrics wire];
     split; [intros msg Hmsg;
             first [ injection Hmsg as <-; reflexivity
                   | cbn [loggedError]; rewrite Hmsg; reflexivity
                   | discriminate Hmsg ] |];
     split; [intros Hnone;
             first [ discriminate Hnone
                   | reflexivity
                   | cbn [loggedError]; rewrite Hnone; reflexivity ] |];
     repeat split).
Qed.

(** Every way [fetch] can settle, followed through [makeRequest]: the
    value returned, the record that enters the operation log, and the
    request that went out. *)
Lemma makeRequest_outcome (now : Z) (rnd : string) (req : Request)
    (later : Z) (reply : Reply) (e : Services) :
  exists (result : Json) (e' : Services),
    makeRequest now rnd req later reply e = (Returned result, e')
    /\ match settled reply with
       | Rejects thrown =>
           result = failure (messageOr "Unknown error occurred" thrown)
       | Responds false status (Unparseable _) =>
           result = failure ("HTTP error! status: " +:+ pretty status)
       | Responds false status (Parsed JNull) =>
           result = failure (nullPropertyMessage "error")
       | Responds false status (Parsed errorData) =>
           result = failure
                      match member "error" errorData with
                      | Some v =>
                          if truthy v then
                            match toText v with
                            | Returned text => text
                            | Threw thrown =>
                                messageOr "Unknown error occurred" thrown
                            end
                          else "HTTP error! status: " +:+ pretty status
                      | None => "HTTP error! status: " +:+ pretty status
                      end
       | Responds true _ (Unparseable thrown) =>
           result = failure (messageOr "Unknown error occurred" thrown)
       | Responds true _ (Parsed JNull) =>
           result = failure (nullPropertyMessage "success")
       | Responds true _ (Parsed d) => result = d
       end
    /\ result <> JNull
    /\ (exists entry,
          DatabaseMonitor.operations (monitor e')
          = take 100 (entry :: DatabaseMonitor.operations (monitor e))
          /\ DatabaseMonitor.success entry = succeeded result
          /\ (forall msg, member "error" result = Some (JString msg) ->
                          DatabaseMonitor.error entry = Some msg)
          /\ (member "error" result = None -> DatabaseMonitor.error entry = None)
          /\ DatabaseMonitor.type entry = operationType (method req)
          /\ DatabaseMonitor.duration entry = Some (later - now)
          /\ DatabaseMonitor.details entry
             = Some {[ "endpoint" := endpoint req;
                       "method" := orString (method req) "GET" ]}
          /\ DatabaseMonitor.recordCount entry
             = match settled reply with
               | Responds true _ (Parsed JNull) => Some 0
               | Responds true _ (Parsed d) => inferRecordCount d
               | _ => Some 0
               end)
    /\ metrics e' = metrics e
    /\ wire e' = wire e ++ [req].
Proof.
  unfold makeRequest, makeRequestStart.
  pose proof (completeOperation_after_start now rnd (operationType (method req))
                (Some ({[ "endpoint" := endpoint req;
                          "method" := orString (method req) "GET" ]}
                       : DatabaseMonitor.Details))
                (monitor e) later (entropy reply)) as Hlog.
  cbn zeta in Hlog.
  destruct (DatabaseMonitor.startOperation now rnd (operationType (method req))
              (Some ({[ "endpoint" := endpoint req;
                        "method" := orString (method req) "GET" ]}
                     : DatabaseMonitor.Details)) (monitor e)) as [i m] eqn:Hstart.
  cbn [fst snd] in Hlog.
  assert (Hdetails : forall d : DatabaseMonitor.Details,
             DatabaseMonitor.spread (Some d) None = d).
  { intros d. unfold DatabaseMonitor.spread. cbn [default from_option id].
    apply (left_id_L ∅ (∪)). }
  destruct (makeRequestFinish_outcome later {| operationId := i; sent := req |}
              reply {| monitor := m; metrics := metrics e; wire := wire e ++ [req] |})
    as (result & e' & count & err & Hrun & Hshape & Hnn & Hmon & Herr & Hnone
        & Hcount & Hmetrics & Hwire).
  exists result, e'. split; [exact Hrun |]. split; [exact Hshape |].
  split; [exact Hnn |]. split; [| split; [exact Hmetrics | exact Hwire]].
  cbn [monitor operationId] in Hmon. rewrite Hmon.
  eexists. split; [apply Hlog |].
  cbn [DatabaseMonitor.logEntry DatabaseMonitor.type DatabaseMonitor.duration
       DatabaseMonitor.success DatabaseMonitor.error DatabaseMonitor.details
       DatabaseMonitor.recordCount DatabaseMonitor.in_type
       DatabaseMonitor.in_duration DatabaseMonitor.in_success
       DatabaseMonitor.in_error DatabaseMonitor.in_details
       DatabaseMonitor.in_recordCount].
  rewrite Hdetails.
  split; [reflexivity |]. split; [exact Herr |]. split; [exact Hnone |].
  split; [reflexivity |]. split; [reflexivity |]. split; [reflexivity | exact Hcount].
Qed.


End RequestFacts.

Section ClientFacts.
Import ApiCache CaseStudiesApi.

Lemma cache_delete_lookup {V : Type} (k j : string)
    (c : gmap string (CacheItem V)) :
  snd (ApiCache.delete k c) !! j = if decide (k = j) then None else c !! j.
Proof. cbn [ApiCache.delete snd]. apply lookup_delete. Qed.

(** A read of an absent key is the request itself, and what it resolves
    to is stored whatever it says. *)
Lemma getOrFetch_miss_request now key rnd req ttl threshold later reply (st : Client) :
  cache st !! key = None ->
  exists result e',
    makeRequest now rnd req later reply (outside st) = (Returned result, e')
    /\ getOrFetch now key (requestFn rnd req) ttl threshold later reply st
       = (Returned result,
          {| cache := ApiCache.set later key result ttl (cache st);
             refreshing := refreshing st;
             outside := e' |}).
Proof.
  intros Hnone.
  destruct (makeRequest_outcome now rnd req later reply (outside st))
    as (result & e' & Hreq & _).
  exists result, e'. split; [exact Hreq |].
  unfold getOrFetch. rewrite Hnone. cbn [start finish requestFn].
  unfold makeRequest in Hreq.
  destruct (makeRequestStart rnd req now (outside st)) as [p e1].
  rewrite Hreq. reflexivity.
Qed.

(** The cached reads always return: [caseStudiesApi.getAllCaseStudies()]
    is a promise that never rejects. *)
Lemma getAllCaseStudies_returns now rnd later reply (st : Client) :
  exists result st',
    getAllCaseStudies now rnd later reply st = (Returned result, st').
Proof.
  unfold getAllCaseStudies.
  destruct (cache st !! CASE_STUDIES) as [cached |] eqn:Hk.
  - rewrite (getOrFetch_hit _ _ _ _ _ _ _ _ _ Hk). eexists _, _. reflexivity.
  - destruct (getOrFetch_miss_request now CASE_STUDIES rnd listRequest MEDIUM
                defaultRefreshThreshold later reply st Hk)
      as (result & e' & _ & Hget).
    rewrite Hget. eexists _, _. reflexivity.
Qed.

(** A refresh of the client that settles: the request resolves, and what
    it resolves to is stored under the key of the refresh and returned
    by every read of that key from then on. *)
Lemma client_refresh_settles (later : Z) (rnd : string) (req : Request) (j : nat)
    (reply : Reply) (st : Client) (r : Refresh Pending) :
  refreshing st !! j = Some r -> 0 <= refreshTtl r ->
  let st' := refreshSettles later (requestFn rnd req) j reply st in
  exists fetched : Json,
    fst (makeRequestFinish later (refreshPromise r) reply (outside st))
    = Returned fetched
    /\ (forall status b, settled reply = Responds true status (Parsed b) ->
                         b <> JNull -> fetched = b)
    /\ refreshing st' = take j (refreshing st) ++ drop (S j) (refreshing st)
    /\ cache st' !! refreshKey r
       = Some {| ApiCache.data := fetched; timestamp := later;
                 expiry := later + refreshTtl r |}
    /\ (forall now' rnd' req' ttl threshold later' reply',
          fst (getOrFetch now' (refreshKey r) (requestFn rnd' req') ttl threshold
                 later' reply' st')
          = Returned fetched).
Proof.
  intros Hr Httl st'.
  destruct (makeRequestFinish_outcome later (refreshPromise r) reply (outside st))
    as (fetched & e' & count & err & Hrun & Hshape & _).
  exists fetched. rewrite Hrun. split; [reflexivity |].
  split.
  { intros status b Hb Hnn. rewrite Hb in Hshape.
    destruct b; solve [exact Hshape | congruence]. }
  assert (Hstate : st' = {| cache := ApiCache.set later (refreshKey r) fetched
                                       (refreshTtl r) (cache st);
                            refreshing := take j (refreshing st)
                                          ++ drop (S j) (refreshing st);
                            outside := e' |}).
  { subst st'. unfold refreshSettles. rewrite Hr. cbn [finish requestFn].
    rewrite Hrun. reflexivity. }
  assert (Hstored : cache st' !! refreshKey r
                    = Some {| ApiCache.data := fetched; timestamp := later;
                              expiry := later + refreshTtl r |}).
  { rewrite Hstate. cbn [cache]. apply set_lookup. exact Httl. }
  split; [rewrite Hstate; reflexivity |]. split; [exact Hstored |].
  intros now' rnd' req' ttl threshold later' reply'.
  rewrite (getOrFetch_hit _ _ _ _ _ _ _ _ _ Hstored). reflexivity.
Qed.

(** C3, as the code has it.  [updateCaseStudy] sends one PUT with the
    patch and always returns what that request resolved to.  When that
    says success, the list key, the key
    of that id and the homepage key are absent from the cache afterwards
    and every other key is as before, so a [getAllCaseStudies] or
    [getCaseStudy(id)] made on that state answers with what a new
    request returns; when it says failure, the cache is exactly as
    before.  The refreshes in flight are not touched by the update: when
    one that was started before the update settles after it, what it
    fetched is stored under its key again, and the reads of that key
    return that value from then on. *)
Theorem updateCaseStudy_invalidates_on_success_only (now : Z) (rnd : string)
    (i : string) (patch : gmap string string) (later : Z) (reply : Reply)
    (st : Client) :
  let request := {| endpoint := "/casestudies/" +:+ i; method := Some "PUT";
                    body := Some (Patch patch) |} in
  exists (result : Json) (st' : Client),
    updateCaseStudy now rnd i patch later reply st = (Returned result, st')
    /\ fst (makeRequest now rnd request later reply
              {| monitor := monitor (outside st);
                 metrics := snd (PerformanceMonitor.startMeasure now
                                   "update_case_study" None (metrics (outside st)));
                 wire := wire (outside st) |})
       = Returned result
    /\ wire (outside st') = wire (outside st) ++ [request]
    /\ (succeeded result = true ->
        cache st' !! CASE_STUDIES = None
        /\ cache st' !! CASE_STUDY i = None
        /\ cache st' !! HOMEPAGE_SOLUTIONS = None
        /\ (forall k, k <> CASE_STUDIES -> k <> CASE_STUDY i ->
                      k <> HOMEPAGE_SOLUTIONS -> cache st' !! k = cache st !! k)
        /\ (forall now2 rnd2 later2 reply2,
              fst (getAllCaseStudies now2 rnd2 later2 reply2 st')
              = fst (makeRequest now2 rnd2 listRequest later2 reply2 (outside st'))
              /\ fst (getCaseStudy now2 rnd2 i later2 reply2 st')
                 = fst (makeRequest now2 rnd2 (itemRequest i) later2 reply2
                          (outside st'))))
    /\ (succeeded result = false -> cache st' = cache st)
    /\ refreshing st' = refreshing st
    /\ (forall (j : nat) (r : Refresh Pending) (rnd0 : string) (req0 : Request)
               (later3 : Z) (reply3 : Reply),
          refreshing st !! j = Some r -> 0 <= refreshTtl r ->
          let st3 := refreshSettles later3 (requestFn rnd0 req0) j reply3 st' in
          exists fetched : Json,
            fst (makeRequestFinish later3 (refreshPromise r) reply3 (outside st'))
            = Returned fetched
            /\ (forall status b, settled reply3 = Responds true status (Parsed b) ->
                                 b <> JNull -> fetched = b)
            /\ cache st3 !! refreshKey r
               = Some {| ApiCache.data := fetched; timestamp := later3;
                         expiry := later3 + refreshTtl r |}
            /\ (refreshKey r = CASE_STUDIES ->
                forall now4 rnd4 later4 reply4,
                  fst (getAllCaseStudies now4 rnd4 later4 reply4 st3)
                  = Returned fetched)
            /\ (refreshKey r = CASE_STUDY i ->
                forall now4 rnd4 later4 reply4,
                  fst (getCaseStudy now4 rnd4 i later4 reply4 st3)
                  = Returned fetched)).
Proof.
  intros req. unfold updateCaseStudy, measureAsync. fold req.
  set (e1 := {| monitor := monitor (outside st);
                metrics := snd (PerformanceMonitor.startMeasure now
                                  "update_case_study" None (metrics (outside st)));
                wire := wire (outside st) |}).
  destruct (makeRequest_outcome now rnd req later reply e1)
    as (result & e' & Hreq & _ & Hnn & _ & _ & Hwire).
  rewrite Hreq.
  assert (Hread : readProperty "success" result = Returned (member "success" result)).
  { destruct result; [congruence | reflexivity ..]. }
  rewrite Hread. eexists result, _. split; [reflexivity |].
  split; [reflexivity |].
  cbn [cache refreshing outside wire]. fold (succeeded result).
  split; [exact Hwire |].
  split; [| split; [| split; [reflexivity |]]].
  - intros Hok. rewrite Hok.
    assert (Hlist : snd (ApiCache.delete HOMEPAGE_SOLUTIONS
                      (snd (ApiCache.delete (CASE_STUDY i)
                         (snd (ApiCache.delete CASE_STUDIES (cache st))))))
                    !! CASE_STUDIES = None).
    { rewrite !cache_delete_lookup. repeat case_decide; reflexivity || congruence. }
    assert (Hitem : snd (ApiCache.delete HOMEPAGE_SOLUTIONS
                      (snd (ApiCache.delete (CASE_STUDY i)
                         (snd (ApiCache.delete CASE_STUDIES (cache st))))))
                    !! CASE_STUDY i = None).
    { rewrite !cache_delete_lookup. repeat case_decide; reflexivity || congruence. }
    split; [exact Hlist | split; [exact Hitem | split; [| split]]].
    + rewrite cache_delete_lookup. case_decide; reflexivity || congruence.
    + intros k H1 H2 H3. rewrite !cache_delete_lookup.
      repeat case_decide; reflexivity || congruence.
    + intros now2 rnd2 later2 reply2. split.
      * unfold getAllCaseStudies.
        match goal with
        | |- fst (getOrFetch _ _ _ _ _ _ _ ?s) = _ =>
            destruct (getOrFetch_miss_request now2 CASE_STUDIES rnd2 listRequest
                        MEDIUM defaultRefreshThreshold later2 reply2 s Hlist)
              as (env2 & e2 & Hreq2 & Hget)
        end.
        rewrite Hget. cbn [outside] in Hreq2. rewrite Hreq2. reflexivity.
      * unfold getCaseStudy.
        match goal with
        | |- fst (getOrFetch _ _ _ _ _ _ _ ?s) = _ =>
            destruct (getOrFetch_miss_request now2 (CASE_STUDY i) rnd2
                        (itemRequest i) MEDIUM defaultRefreshThreshold later2
                        reply2 s Hitem)
              as (env2 & e2 & Hreq2 & Hget)
        end.
        rewrite Hget. cbn [outside] in Hreq2. rewrite Hreq2. reflexivity.
  - intros Hfail. rewrite Hfail. reflexivity.
  - intros j r rnd0 req0 later3 reply3 Hr Httl.
    match goal with
    | |- context [refreshSettles later3 _ j reply3 ?s] =>
        destruct (client_refresh_settles later3 rnd0 req0 j reply3 s r Hr Httl)
          as (fetched & Hrun & Hbody & _ & Hstored & Hreads)
    end.
    exists fetched. cbn [outside] in Hrun.
    split; [exact Hrun | split; [exact Hbody | split; [exact Hstored | split]]].
    + intros Hkey now4 rnd4 later4 reply4. unfold getAllCaseStudies.
      rewrite Hkey in Hreads. apply Hreads.
    + intros Hkey now4 rnd4 later4 reply4. unfold getCaseStudy.
      rewrite Hkey in Hreads. apply Hreads.
Qed.

End ClientFacts.

Section CachedFailures.
Import ApiCache CaseStudiesApi.

(** An answer of an unavailable store becomes a failure envelope. *)
Lemma unavailable_envelope now rnd req later reply (e : Services) :
  unavailable (settled reply) ->
  exists msg e',
    makeRequest now rnd req later reply e = (Returned (failure msg), e').
Proof.
  intros Hdown.
  destruct (makeRequest_outcome now rnd req later reply e)
    as (result & e' & Hreq & Hshape & _).
  destruct (settled reply) as [thrown | ok status content]; cbn in Hdown.
  - subst result. eexists _, _. exact Hreq.
  - subst ok. destruct content as [v | thrown]; [destruct v |];
      subst result; eexists _, _; exact Hreq.
Qed.

(** The refresh rule of [getOrFetch] at [MEDIUM] and the default
    threshold, in integers: [remaining < 300000 * 0.8]. *)
Lemma medium_threshold (remaining : Z) :
  ltNumber (number remaining)
    (QArith_base.Qmult (number MEDIUM) defaultRefreshThreshold)
  = (5 * remaining <? 4 * MEDIUM).
Proof.
  unfold ltNumber, number, defaultRefreshThreshold, MEDIUM. cbn.
  change (Z.pos (1 * 5)) with 5.
  destruct (Z.ltb_spec (remaining * 5) (5 * 60 * 1000 * 4 * 1));
    destruct (Z.ltb_spec (5 * remaining) (4 * (5 * 60 * 1000)));
    reflexivity || lia.
Qed.

(** A read through the cache with [MEDIUM] and the default threshold:
    when the key is absent and the store unavailable, the failure
    envelope is returned and stored, and then served from the cache. *)
Lemma failed_fetch_is_cached (key : string) (req : Request) :
  let read : CachedRead :=
    fun now rnd later reply st =>
      getOrFetch now key (requestFn rnd req) MEDIUM defaultRefreshThreshold
        later reply st in
  forall now rnd later reply (st : Client),
    cache st !! key = None ->
    unavailable (settled reply) ->
    exists envelope st1,
      read now rnd later reply st = (Returned envelope, st1)
      /\ wire (outside st1) = wire (outside st) ++ [req]
      /\ (exists msg, envelope = failure msg)
      /\ succeeded envelope = false
      /\ cache st1 !! key
         = Some {| ApiCache.data := envelope; timestamp := later;
                   expiry := later + MEDIUM |}
      /\ servesFromCache read key req envelope later st1.
Proof.
  intros read now rnd later reply st Hnone Hdown.
  destruct (getOrFetch_miss_request now key rnd req MEDIUM
              defaultRefreshThreshold later reply st Hnone)
    as (envelope & e' & Hreq & Hget).
  destruct (unavailable_envelope now rnd req later reply (outside st) Hdown)
    as (msg & e'' & Hfail).
  rewrite Hfail in Hreq. injection Hreq as <- <-.
  destruct (makeRequest_outcome now rnd req later reply (outside st))
    as (r0 & e0 & Hrun0 & _ & _ & _ & _ & Hwire0).
  rewrite Hfail in Hrun0. injection Hrun0 as <- <-.
  eexists _, _. split; [exact Hget |]. split; [exact Hwire0 |].
  split; [exists msg; reflexivity |].
  split; [reflexivity |].
  cbn [cache].
  assert (Hstored :
    ApiCache.set later key (failure msg) MEDIUM (cache st) !! key
    = Some {| ApiCache.data := failure msg; timestamp := later;
              expiry := later + MEDIUM |}).
  { apply set_lookup. unfold MEDIUM. lia. }
  split; [exact Hstored |].
  intros now2 rnd2 later2 reply2. subst read. cbn beta.
  match goal with
  | |- context [getOrFetch _ _ _ _ _ _ _ ?s] =>
      rewrite (getOrFetch_hit now2 key (requestFn rnd2 req) MEDIUM
                 defaultRefreshThreshold later2 reply2 s _ Hstored)
  end.
  cbn [fst snd expiry ApiCache.data]. rewrite medium_threshold.
  split; [reflexivity | split].
  - intros Hearly.
    destruct (Z.ltb_spec (5 * (later + MEDIUM - now2)) (4 * MEDIUM));
      [lia | reflexivity].
  - intros Hlate.
    destruct (Z.ltb_spec (5 * (later + MEDIUM - now2)) (4 * MEDIUM));
      [| unfold MEDIUM in *; lia].
    cbn zeta. rewrite inFlight_refreshInBackground.
    split; [| split; [reflexivity |]].
    + unfold refreshInBackground. cbn [start requestFn outside].
      unfold makeRequestStart.
      destruct (DatabaseMonitor.startOperation now2 rnd2 _ _ _) as [i m].
      reflexivity.
    + intros later3 reply3.
      match goal with
      | |- context [refreshSettles later3 _ _ reply3 ?s] => set (st2 := s)
      end.
      assert (Hlast : exists promise,
                refreshing st2
                = refreshing st
                  ++ [ {| refreshKey := key; refreshTtl := MEDIUM;
                          refreshPromise := promise |} ]).
      { subst st2. unfold refreshInBackground. cbn [outside refreshing].
        match goal with
        | |- context [start ?f ?t ?o] => destruct (start f t o) as [promise e2]
        end.
        exists promise. reflexivity. }
      destruct Hlast as [promise Hlast].
      destruct (client_refresh_settles later3 rnd2 req (length (refreshing st))
                  reply3 st2 _
                  ltac:(rewrite Hlast; apply list_lookup_middle; reflexivity)
                  ltac:(cbn [refreshTtl]; unfold MEDIUM; lia))
        as (fetched & _ & Hbody & Hrest & _ & Hreads).
      cbn [refreshKey] in Hreads. cbn [refreshing].
      exists fetched. split; [exact Hbody | split].
      * unfold inFlight at 1. rewrite Hrest, Hlast.
        rewrite take_app_length.
        rewrite drop_ge by (rewrite length_app; cbn [length]; lia).
        rewrite app_nil_r. reflexivity.
      * intros now4 rnd4 later4 reply4. apply Hreads.
Qed.

(** Any number of calls in the first fifth of the lifetime are served
    from the cache and leave the state as it is. *)
Lemma early_reads_repeat (read : CachedRead) key req envelope storedAt
    (st1 : Client) (calls : list (Z * string * Z * Reply)) :
  servesFromCache read key req envelope storedAt st1 ->
  Forall (fun c => 4 * MEDIUM <= 5 * (storedAt + MEDIUM - c.1.1.1)) calls ->
  readAll read calls st1 = (map (fun _ => Returned envelope) calls, st1).
Proof.
  intros Hserve Hearly.
  induction Hearly as [| c calls Hc _ IH]; [reflexivity |].
  cbn [readAll map].
  destruct (Hserve c.1.1.1 c.1.1.2 c.1.2 c.2) as (Hres & Hquiet & _).
  specialize (Hquiet Hc).
  destruct (read c.1.1.1 c.1.1.2 c.1.2 c.2 st1) as [o st2].
  cbn [fst snd] in Hres, Hquiet. subst o st2.
  rewrite IH. reflexivity.
Qed.

(** C10, as the code has it.  A [getAllCaseStudies] or [getCaseStudy]
    call that finds its key absent while the store is unavailable
    returns the failure envelope and stores it under the read key for
    five minutes.  Every later call on that state returns the stored
    failure envelope, whatever the store would answer by then.  A call
    in the first minute (remaining lifetime at least 0.8 of the five
    minutes) sends nothing and changes nothing; a call in the last
    minute (remaining lifetime below 0.2 of them) sends the read request
    again, as a background refresh; and once that refresh has settled,
    every call returns what the refresh fetched (the body of a 2xx
    answer of the recovered store, as it is) instead of the failure
    envelope. *)
Theorem failed_read_is_cached_until_refreshed :
  (forall now rnd later reply (st : Client),
     cache st !! CASE_STUDIES = None ->
     unavailable (settled reply) ->
     exists envelope st1,
       getAllCaseStudies now rnd later reply st = (Returned envelope, st1)
       /\ wire (outside st1) = wire (outside st) ++ [listRequest]
       /\ (exists msg, envelope = failure msg)
       /\ succeeded envelope = false
       /\ cache st1 !! CASE_STUDIES
          = Some {| ApiCache.data := envelope; timestamp := later;
                    expiry := later + MEDIUM |}
       /\ servesFromCache getAllCaseStudies CASE_STUDIES listRequest
            envelope later st1)
  /\ (forall (i : string) now rnd later reply (st : Client),
        cache st !! CASE_STUDY i = None ->
        unavailable (settled reply) ->
        exists envelope st1,
          getCaseStudy now rnd i later reply st = (Returned envelope, st1)
          /\ wire (outside st1) = wire (outside st) ++ [itemRequest i]
          /\ (exists msg, envelope = failure msg)
          /\ succeeded envelope = false
          /\ cache st1 !! CASE_STUDY i
             = Some {| ApiCache.data := envelope; timestamp := later;
                       expiry := later + MEDIUM |}
          /\ servesFromCache (fun now rnd => getCaseStudy now rnd i)
               (CASE_STUDY i) (itemRequest i) envelope later st1).
Proof.
  split.
  - intros now rnd later reply st.
    exact (failed_fetch_is_cached CASE_STUDIES listRequest now rnd later reply st).
  - intros i now rnd later reply st.
    exact (failed_fetch_is_cached (CASE_STUDY i) (itemRequest i)
             now rnd later reply st).
Qed.

End CachedFailures.

Section ClientRuns.
Import ApiCache CaseStudiesApi Scenario.



(** A run of C3: the same update against the warm cache, once answered
    with the updated record and once with 404; and the update made while
    a refresh of the list is in flight, which then settles with the list
    it had fetched. *)
Lemma updateCaseStudy_witness :
  cache (snd (updateCaseStudy 10 "x" "a" ∅ 20 (updated (sampleCase "a")) warmClient))
    !! CASE_STUDIES = None
  /\ cache (snd (updateCaseStudy 10 "x" "a" ∅ 20 notFound warmClient))
     = cache warmClient
  /\ fst (getAllCaseStudies 250030 "s" 0 networkDown
            (refreshSettles 250020 (requestFn "r" listRequest) 0
               (listOf [sampleCase "a"])
               (snd (updateCaseStudy 250010 "u" "a" ∅ 250015
                       (updated (sampleCase "a")) refreshingClient))))
     = Returned (okBody (JArray [caseJson (sampleCase "a")])).
Proof.
  split; [| split].
  - destruct (updateCaseStudy_invalidates_on_success_only
                10 "x" "a" ∅ 20 (updated (sampleCase "a")) warmClient)
      as (result & st' & Hrun & _ & _ & Hok & _).
    rewrite Hrun. cbn [snd]. apply Hok.
    apply (f_equal fst) in Hrun. vm_compute in Hrun.
    injection Hrun as <-. reflexivity.
  - destruct (updateCaseStudy_invalidates_on_success_only
                10 "x" "a" ∅ 20 notFound warmClient)
      as (result & st' & Hrun & _ & _ & _ & Hfail & _).
    rewrite Hrun. cbn [snd]. apply Hfail.
    apply (f_equal fst) in Hrun. vm_compute in Hrun.
    injection Hrun as <-. reflexivity.
  - destruct (updateCaseStudy_invalidates_on_success_only
                250010 "u" "a" ∅ 250015 (updated (sampleCase "a")) refreshingClient)
      as (result & st' & Hrun & _ & _ & _ & _ & _ & Hrefresh).
    rewrite Hrun. cbn [snd].
    assert (Hr : exists r, refreshing refreshingClient !! 0%nat = Some r
                           /\ refreshKey r = CASE_STUDIES
                           /\ refreshTtl r = MEDIUM).
    { eexists. split; [vm_compute; reflexivity | split; reflexivity]. }
    destruct Hr as (r & Hr & Hkey & Httl).
    destruct (Hrefresh 0%nat r "r" listRequest 250020 (listOf [sampleCase "a"]) Hr)
      as (fetched & _ & Hbody & _ & Hlist & _).
    + rewrite Httl. vm_compute. discriminate.
    + rewrite (Hlist Hkey). f_equal.
      apply (Hbody 200 _ eq_refl). discriminate.
Defined.

(** C3 as stated fails.  The list is read at 250000, which starts a
    refresh; the update of record ["a"] succeeds at 250015 and deletes
    the list from the cache; the refresh settles at 250020 with the list
    as it was when it fetched it.  A read at 250030 returns the list
    that was cached before the update, without a request. *)
Lemma stale_refresh_counterexample :
  let before := getAllCaseStudies 250000 "r" 0 networkDown warmClient in
  let update := updateCaseStudy 250010 "u" "a" ∅ 250015
                  (updated (sampleCase "a")) (snd before) in
  let st3 := refreshSettles 250020 (requestFn "r" listRequest) 0
               (listOf [sampleCase "a"]) (snd update) in
  let after := getAllCaseStudies 250030 "s" 0 networkDown st3 in
  fst update = Returned (okBody (caseJson (sampleCase "a")))
  /\ succeeded (okBody (caseJson (sampleCase "a"))) = true
  /\ cache (snd update) !! CASE_STUDIES = None
  /\ fst after = fst before
  /\ fst after = Returned (okBody (JArray [caseJson (sampleCase "a")]))
  /\ wire (outside (snd after)) = wire (outside (snd update)).
Proof. vm_compute. repeat split. Qed.

(** A run of C10: the first read finds the network down; a read 30
    seconds later, when the store is back, still gets the failure and
    sends nothing; a read after 260 seconds starts a refresh, and once
    that has settled with the list of the recovered store the reads
    return the list. *)
Lemma failed_read_witness :
  let st1 := snd (getAllCaseStudies 0 "a" 10 networkDown freshClient) in
  let st2 := snd (getAllCaseStudies 260000 "b" 0 networkDown st1) in
  let st3 := refreshSettles 260500 (requestFn "b" listRequest) 0
               (listOf [sampleCase "a"]) st2 in
  fst (getAllCaseStudies 30000 "b" 30010 (listOf [sampleCase "a"]) st1)
  = Returned (failure "Failed to fetch")
  /\ snd (getAllCaseStudies 30000 "b" 30010 (listOf [sampleCase "a"]) st1) = st1
  /\ fst (getAllCaseStudies 270000 "c" 0 networkDown st3)
     = Returned (okBody (JArray [caseJson (sampleCase "a")])).
Proof.
  destruct failed_read_is_cached_until_refreshed as [Hall _].
  destruct (Hall 0 "a" 10 networkDown freshClient) as
    (envelope & st1 & Hrun & _ & _ & _ & _ & Hserve).
  - reflexivity.
  - exact I.
  - pose proof (f_equal fst Hrun) as Henvelope. vm_compute in Henvelope.
    injection Henvelope as <-.
    apply (f_equal snd) in Hrun. cbn [snd] in Hrun. subst st1.
    cbn zeta.
    destruct (Hserve 30000 "b" 30010 (listOf [sampleCase "a"]))
      as (Hsame & Hquiet & _).
    destruct (Hserve 260000 "b" 0 networkDown) as (_ & _ & Hlate).
    split; [exact Hsame | split].
    + apply Hquiet. vm_compute. discriminate.
    + destruct Hlate as (_ & _ & Hsettled); [vm_compute; reflexivity |].
      destruct (Hsettled 260500 (listOf [sampleCase "a"]))
        as (refreshed & Hbody & _ & Hreads).
      rewrite (Hbody 200 _ eq_refl) in Hreads by discriminate.
      exact (Hreads 270000 "c" 0 networkDown).
Defined.

(** C10 as stated fails.  The first read, at time 0, finds the network
    down and its failure envelope is stored until 300010.  A read at
    260000, inside the five minutes, returns that envelope but sends the
    list request again.  Once that refresh has settled with the list of
    the recovered store, a read at 270000, still inside the five
    minutes, returns the list and not the failure. *)
Lemma cached_failure_counterexample :
  let st1 := snd (getAllCaseStudies 0 "a" 10 networkDown freshClient) in
  let second := getAllCaseStudies 260000 "b" 0 networkDown st1 in
  let st3 := refreshSettles 260500 (requestFn "b" listRequest) 0
               (listOf [sampleCase "a"]) (snd second) in
  let third := getAllCaseStudies 270000 "c" 0 networkDown st3 in
  fst second = Returned (failure "Failed to fetch")
  /\ wire (outside st1) = [listRequest]
  /\ wire (outside (snd second)) = [listRequest; listRequest]
  /\ fst third = Returned (okBody (JArray [caseJson (sampleCase "a")]))
  /\ fst third <> Returned (failure "Failed to fetch").
Proof. vm_compute. repeat split. discriminate. Qed.

End ClientRuns.

(** ** CaseStudiesSync: classification, fail-open reads, auto-sync *)

Section EngineFacts.
Import CaseStudiesSync.
Context {Icon : Type} `{EqDecision Icon}.
Context (dateTime : string -> JsNumber).
Context {Api : Type}.
Context (getAllCaseStudies : Api -> ApiResponse (list ApiCaseStudy) * Api).
Context (bulkUpdateCaseStudies :
           list ApiCaseStudy -> Api -> ApiResponse (list ApiCaseStudy) * Api).
Context (inherited : string -> option Icon).
Context (iconMapping : list (string * Icon)).

Lemma recommend_cases (L R : Z) :
  ((L = 0 /\ R = 0) \/ L = R -> recommend L R = noSyncNeeded)
  /\ (L > 0 /\ R = 0 -> recommend L R = syncToDb)
  /\ (L = 0 /\ R > 0 -> recommend L R = syncFromDb)
  /\ (L > 0 /\ R > 0 /\ L <> R -> recommend L R = conflict).
Proof.
  unfold recommend.
  destruct (Z.eqb_spec L 0), (Z.eqb_spec R 0), (Z.gtb_spec L 0),
    (Z.gtb_spec R 0), (Z.eqb_spec L R); cbn; repeat split; intros; try lia;
    reflexivity.
Qed.

(** C5.  The recommendation that [getSyncStatus] returns is [recommend]
    applied to the two counts it reports (the length of the local
    collection, and the length of the remote one or 0 when the read
    failed), and for all counts [L] and [R]: [noSyncNeeded] if both are
    0 or [L = R]; [syncToDb] if [L > 0] and [R = 0]; [syncFromDb] if
    [L = 0] and [R > 0]; [conflict] if both are positive and differ. *)
Theorem classification_by_counts :
  (forall h : Host Api,
     exists status h',
       getSyncStatus dateTime getAllCaseStudies inherited iconMapping h = (Returned status, h')
       /\ recommendation status
          = recommend (count (local status)) (count (database status))
       /\ count (local status)
          = Z.of_nat (length (fst (getLocalCases inherited iconMapping h)))
       /\ count (database status)
          = match carried (fst (getAllCaseStudies (api h))) with
            | Some d => Z.of_nat (length d)
            | None => 0
            end)
  /\ (forall L R : Z,
        ((L = 0 /\ R = 0) \/ L = R -> recommend L R = noSyncNeeded)
        /\ (L > 0 /\ R = 0 -> recommend L R = syncToDb)
        /\ (L = 0 /\ R > 0 -> recommend L R = syncFromDb)
        /\ (L > 0 /\ R > 0 /\ L <> R -> recommend L R = conflict)).
Proof.
  split; [| exact recommend_cases].
  intros h. unfold getSyncStatus, getLocalCases, readRemote. cbn [api did].
  destruct (getAllCaseStudies (api h)) as [dbResponse a].
  eexists _, _. split; [reflexivity |]. cbn. repeat split.
Qed.

(** C9.  When the read of the local mirror fails (nothing stored, a
    value that is not an array, or a throw while reading or parsing),
    [getLocalCases] returns the empty list, and [getSyncStatus] returns
    (it does not throw) with local count 0 and no local timestamp; the
    stored value is left as it is. *)
Theorem unreadable_mirror_reads_as_empty (h : Host Api) :
  unreadable (storage h) ->
  fst (getLocalCases inherited iconMapping h) = []
  /\ exists status h',
       getSyncStatus dateTime getAllCaseStudies inherited iconMapping h = (Returned status, h')
       /\ local status = {| count := 0; lastUpdated := None |}
       /\ storage h' = storage h.
Proof.
  intros Hbad.
  assert (Hnone : localCasesOf inherited iconMapping (storage h) = []).
  { destruct (storage h); cbn in Hbad; [reflexivity .. | contradiction]. }
  split; [exact Hnone |].
  unfold getSyncStatus, getLocalCases, readRemote. cbn [api did].
  destruct (getAllCaseStudies (api h)) as [dbResponse a].
  eexists _, _. split; [reflexivity |]. cbn [local storage did].
  rewrite Hnone. split; reflexivity.
Qed.

End EngineFacts.

Section AutoSyncFacts.
Import CaseStudiesSync.
Context {Icon : Type} `{EqDecision Icon}.
Context {Api : Type}.
Context (getAllCaseStudies : Api -> ApiResponse (list ApiCaseStudy) * Api).
Context (bulkUpdateCaseStudies :
           list ApiCaseStudy -> Api -> ApiResponse (list ApiCaseStudy) * Api).
Context (inherited : string -> option Icon).
Context (iconMapping : list (string * Icon)).

Lemma noRecords_hasRecords {X : Type} (r : ApiResponse (list X)) :
  noRecords r = negb (hasRecords r).
Proof.
  unfold noRecords, hasRecords.
  destruct (CaseStudiesApi.success r); cbn; [| reflexivity].
  destruct (CaseStudiesApi.data r) as [d |]; [| reflexivity].
  destruct d; reflexivity.
Qed.

Lemma hasRecords_carried {X : Type} (r : ApiResponse (list X)) :
  hasRecords r = true -> exists x d, carried r = Some (x :: d).
Proof.
  unfold hasRecords, carried.
  destruct (CaseStudiesApi.success r); cbn; [| discriminate].
  destruct (CaseStudiesApi.data r) as [[| x d] |]; cbn; try discriminate.
  intros _. exists x, d. reflexivity.
Qed.

Lemma nonempty_length {A : Type} (l : list A) :
  l <> [] -> (Z.of_nat (length l) >? 0) = true /\ (Z.of_nat (length l) =? 0) = false.
Proof.
  destruct l; [congruence |]. intros _. cbn [length].
  destruct (Z.gtb_spec (Z.of_nat (S (length l))) 0),
    (Z.eqb_spec (Z.of_nat (S (length l))) 0); split; reflexivity || lia.
Qed.


Lemma autoSync_idle (options : SyncOptions) (h : Host Api) :
  localCasesOf inherited iconMapping (storage h) = [] ->
  hasRecords (fst (getAllCaseStudies (api h))) = false ->
  let run := autoSync getAllCaseStudies bulkUpdateCaseStudies inherited iconMapping options h in
  fst run = Returned {| direction := "local"; cases := [] |}
  /\ io (snd run) = io h ++ [ReadLocal; ReadRemote]
  /\ storage (snd run) = storage h
  /\ reported (snd run)
     = reported h
       ++ (if onProgress options
           then [Progress 0 3 "Analyzing sync requirements...";
                 Progress 1 3 "Comparing data sources...";
                 Progress 3 3 "Using local data..."]
           else [])
       ++ (if onSuccess options
           then [Succeeded "Auto-sync: Using local data (no database data available)"]
           else []).
Proof.
  intros Hlocal Hrec run. subst run.
  unfold autoSync, getLocalCases, readRemote.
  cbn [fst snd api did call storage writable io reported].
  destruct (getAllCaseStudies (api h)) as [r1 a1]. cbn [fst] in Hrec.
  rewrite noRecords_hasRecords, Hrec, Hlocal.
  cbn [length]. change (Z.of_nat 0 >? 0) with false.
  change (Z.of_nat 0 =? 0) with true. cbn [negb andb].
  cbn [fst snd api did call storage writable io reported].
  rewrite <- !app_assoc. repeat split.
  destruct (onProgress options), (onSuccess options); reflexivity.
Qed.

Lemma autoSync_push (options : SyncOptions) (h : Host Api) :
  localCasesOf inherited iconMapping (storage h) <> [] ->
  hasRecords (fst (getAllCaseStudies (api h))) = false ->
  let run := autoSync getAllCaseStudies bulkUpdateCaseStudies inherited iconMapping options h in
  io (snd run)
  = io h ++ [ReadLocal; ReadRemote; ReadLocal;
             WroteRemote (map (toApiCase iconMapping)
                            (localCasesOf inherited iconMapping (storage h)))]
  /\ storage (snd run) = storage h.
Proof.
  intros Hlocal Hrec run. subst run.
  destruct (nonempty_length _ Hlocal) as [Hpos Hnz].
  unfold autoSync, getLocalCases, readRemote.
  cbn [fst snd api did call storage writable io reported].
  destruct (getAllCaseStudies (api h)) as [r1 a1]. cbn [fst] in Hrec.
  rewrite noRecords_hasRecords, Hrec, Hpos. cbn [negb andb].
  unfold syncToDatabase, getLocalCases, writeRemote.
  cbn [fst snd api did call storage writable io reported].
  rewrite Hnz.
  destruct (bulkUpdateCaseStudies _ a1) as [r2 a2].
  destruct (carried r2) as [d |]; cbn; rewrite <- !app_assoc; split; reflexivity.
Qed.

Lemma autoSync_pull (options : SyncOptions) (h : Host Api) :
  hasRecords (fst (getAllCaseStudies (api h))) = true ->
  let run := autoSync getAllCaseStudies bulkUpdateCaseStudies inherited iconMapping options h in
  let second := getAllCaseStudies (snd (getAllCaseStudies (api h))) in
  let saved := fun d => map (toSaved iconMapping) (map (apiToLocal inherited iconMapping) d) in
  match carried (fst second), writable h with
  | Some d, true =>
      io (snd run)
      = io h ++ [ReadLocal; ReadRemote; ReadRemote; WroteLocal (saved d); Notified]
      /\ storage (snd run) = Saved (saved d)
      /\ fst run = Returned {| direction := "fromDb";
                               cases := map (apiToLocal inherited iconMapping) d |}
  | _, _ =>
      io (snd run) = io h ++ [ReadLocal; ReadRemote; ReadRemote]
      /\ storage (snd run) = storage h
      /\ exists err, fst run = Threw err
  end.
Proof.
  intros Hrec run second saved. subst run second saved.
  unfold autoSync, getLocalCases, readRemote.
  cbn [fst snd api did call storage writable io reported].
  destruct (getAllCaseStudies (api h)) as [r1 a1]. cbn [fst snd] in *.
  rewrite noRecords_hasRecords, Hrec. cbn [negb andb].
  destruct (Z.of_nat (length (localCasesOf inherited iconMapping (storage h))) =? 0);
    cbn [andb];
    unfold syncFromDatabase, readRemote, saveLocalCases;
    cbn [fst snd api did call storage writable io reported];
    destruct (getAllCaseStudies a1) as [r2 a2]; cbn [fst];
    destruct (carried r2) as [d |];
    cbn [fst snd api did call storage writable io reported];
    destruct (writable h);
    cbn; rewrite <- ?app_assoc; repeat split; eauto.
Qed.

(** What the push leaves behind the API, and what [autoSync] returns
    after it. *)
Lemma autoSync_push_remote (options : SyncOptions) (h : Host Api) :
  localCasesOf inherited iconMapping (storage h) <> [] ->
  hasRecords (fst (getAllCaseStudies (api h))) = false ->
  let localCases := localCasesOf inherited iconMapping (storage h) in
  let run := autoSync getAllCaseStudies bulkUpdateCaseStudies inherited iconMapping options h in
  let pushed := bulkUpdateCaseStudies (map (toApiCase iconMapping) localCases)
                  (snd (getAllCaseStudies (api h))) in
  api (snd run) = snd pushed
  /\ fst run
     = match carried (fst pushed) with
       | Some _ => Returned {| direction := "toDb"; cases := localCases |}
       | None => Threw (ErrorObj (orString (CaseStudiesApi.error (fst pushed))
                                    "Failed to upload to database"))
       end.
Proof.
  intros Hlocal Hrec localCases run pushed. subst localCases run pushed.
  destruct (nonempty_length _ Hlocal) as [Hpos Hnz].
  unfold autoSync, getLocalCases, readRemote.
  cbn [fst snd api did call storage writable io reported].
  destruct (getAllCaseStudies (api h)) as [r1 a1]. cbn [fst snd] in *.
  rewrite noRecords_hasRecords, Hrec, Hpos. cbn [negb andb].
  unfold syncToDatabase, getLocalCases, writeRemote.
  cbn [fst snd api did call storage writable io reported].
  rewrite Hnz.
  destruct (bulkUpdateCaseStudies _ a1) as [r2 a2]. cbn [fst snd].
  destruct (carried r2) as [d |]; cbn; split; reflexivity.
Qed.

(** A pull and an idle run send nothing: the state behind the API is
    what the reads left. *)
Lemma autoSync_pull_remote (options : SyncOptions) (h : Host Api) :
  hasRecords (fst (getAllCaseStudies (api h))) = true ->
  api (snd (autoSync getAllCaseStudies bulkUpdateCaseStudies inherited iconMapping
              options h))
  = snd (getAllCaseStudies (snd (getAllCaseStudies (api h)))).
Proof.
  intros Hrec.
  unfold autoSync, getLocalCases, readRemote.
  cbn [fst snd api did call storage writable io reported].
  destruct (getAllCaseStudies (api h)) as [r1 a1]. cbn [fst snd] in *.
  rewrite noRecords_hasRecords, Hrec. cbn [negb andb].
  destruct (Z.of_nat (length (localCasesOf inherited iconMapping (storage h))) =? 0);
    cbn [andb];
    unfold syncFromDatabase, readRemote, saveLocalCases;
    cbn [fst snd api did call storage writable io reported];
    destruct (getAllCaseStudies a1) as [r2 a2]; cbn [fst snd];
    destruct (carried r2) as [d |];
    cbn [fst snd api did call storage writable io reported];
    destruct (writable h); reflexivity.
Qed.

Lemma autoSync_idle_remote (options : SyncOptions) (h : Host Api) :
  localCasesOf inherited iconMapping (storage h) = [] ->
  hasRecords (fst (getAllCaseStudies (api h))) = false ->
  api (snd (autoSync getAllCaseStudies bulkUpdateCaseStudies inherited iconMapping
              options h))
  = snd (getAllCaseStudies (api h)).
Proof.
  intros Hlocal Hrec.
  unfold autoSync, getLocalCases, readRemote.
  cbn [fst snd api did call storage writable io reported].
  destruct (getAllCaseStudies (api h)) as [r1 a1]. cbn [fst snd] in *.
  rewrite noRecords_hasRecords, Hrec, Hlocal.
  cbn [length]. change (Z.of_nat 0 >? 0) with false.
  change (Z.of_nat 0 =? 0) with true. cbn [negb andb].
  reflexivity.
Qed.

(** C6.  What [autoSync] does after its two classification reads (the
    local mirror, then the remote list).
    - Local records and a remote list that is empty or unreadable: the
      local records are pushed.  They are read again, converted and sent
      as one bulk update; the state behind the API is what that bulk
      update leaves; nothing is written locally; the call returns
      direction ["toDb"] with the local records when the update's answer
      carries a collection, and throws otherwise.
    - A remote list with records, whatever the local mirror holds: the
      remote list is pulled.  It is read again and, when that read
      carries a collection and the mirror can be written, saved as the
      local mirror and returned with direction ["fromDb"]; otherwise the
      call throws and the mirror is as before.  Nothing is sent to the
      remote store: the state behind the API is what the two reads left.
    - No local records and no remote records: nothing more is read or
      written, the mirror and the remote store are untouched, and the
      call reports success with direction ["local"] and no cases.
    - A bulk update is sent in the first case only. *)
Theorem autoSync_direction (options : SyncOptions) (h : Host Api) :
  let localCases := fst (getLocalCases inherited iconMapping h) in
  let first := getAllCaseStudies (api h) in
  let run := autoSync getAllCaseStudies bulkUpdateCaseStudies inherited iconMapping options h in
  (localCases <> [] -> hasRecords (fst first) = false ->
     let apiCases := map (toApiCase iconMapping) localCases in
     let pushed := bulkUpdateCaseStudies apiCases (snd first) in
     io (snd run)
     = io h ++ [ReadLocal; ReadRemote; ReadLocal; WroteRemote apiCases]
     /\ storage (snd run) = storage h
     /\ api (snd run) = snd pushed
     /\ fst run
        = match carried (fst pushed) with
          | Some _ => Returned {| direction := "toDb"; cases := localCases |}
          | None => Threw (ErrorObj (orString (CaseStudiesApi.error (fst pushed))
                                       "Failed to upload to database"))
          end)
  /\ (hasRecords (fst first) = true ->
      let second := getAllCaseStudies (snd first) in
      exists rest,
        io (snd run) = io h ++ [ReadLocal; ReadRemote; ReadRemote] ++ rest
        /\ (forall cs, WroteRemote cs ∉ rest)
        /\ api (snd run) = snd second
        /\ (forall d, carried (fst second) = Some d -> writable h = true ->
              rest = [WroteLocal (map (toSaved iconMapping)
                                    (map (apiToLocal inherited iconMapping) d));
                      Notified]
              /\ storage (snd run)
                 = Saved (map (toSaved iconMapping) (map (apiToLocal inherited iconMapping) d))
              /\ fst run
                 = Returned {| direction := "fromDb";
                               cases := map (apiToLocal inherited iconMapping) d |})
        /\ (carried (fst second) = None \/ writable h = false ->
            rest = [] /\ storage (snd run) = storage h
            /\ exists err, fst run = Threw err))
  /\ (localCases = [] -> hasRecords (fst first) = false ->
      fst run = Returned {| direction := "local"; cases := [] |}
      /\ io (snd run) = io h ++ [ReadLocal; ReadRemote]
      /\ storage (snd run) = storage h
      /\ api (snd run) = snd first
      /\ (onSuccess options = true ->
          Succeeded "Auto-sync: Using local data (no database data available)"
          ∈ reported (snd run))
      /\ (forall msg, Failed msg ∉ drop (length (reported h)) (reported (snd run))))
  /\ ((exists cs, WroteRemote cs ∈ drop (length (io h)) (io (snd run)))
      <-> localCases <> [] /\ hasRecords (fst first) = false).
Proof.
  intros localCases first run. subst localCases first run.
  cbn [getLocalCases fst].
  split; [| split; [| split]].
  - intros Hlocal Hrec.
    destruct (autoSync_push options h Hlocal Hrec) as [Hio Hst].
    destruct (autoSync_push_remote options h Hlocal Hrec) as [Hapi Hres].
    cbn zeta. split; [exact Hio | split; [exact Hst | split; [exact Hapi | exact Hres]]].
  - intros Hrec.
    pose proof (autoSync_pull options h Hrec) as Hpull. cbn zeta in Hpull.
    pose proof (autoSync_pull_remote options h Hrec) as Hapi.
    cbn zeta.
    destruct (carried (fst (getAllCaseStudies (snd (getAllCaseStudies (api h))))))
      as [d |] eqn:Hd; [destruct (writable h) eqn:Hw |].
    + destruct Hpull as (Hio & Hst & Hres).
      eexists. split; [rewrite Hio; reflexivity |]. split; [| split; [exact Hapi | split]].
      * intros cs Hin. repeat (apply elem_of_cons in Hin as [Hin | Hin]; [discriminate |]).
        inversion Hin.
      * intros d' [= <-] _. repeat split; assumption.
      * intros [Hnone | Hro]; discriminate.
    + destruct Hpull as (Hio & Hst & Hres).
      exists []. split; [rewrite Hio; reflexivity |]. split; [| split; [exact Hapi | split]].
      * intros cs Hin. inversion Hin.
      * intros d' _ Hw'. discriminate.
      * intros _. split; [reflexivity | split; [exact Hst | exact Hres]].
    + destruct Hpull as (Hio & Hst & Hres).
      exists []. split; [rewrite Hio; reflexivity |]. split; [| split; [exact Hapi | split]].
      * intros cs Hin. inversion Hin.
      * intros d' Hd'. discriminate.
      * intros _. split; [reflexivity | split; [exact Hst | exact Hres]].
  - intros Hlocal Hrec.
    destruct (autoSync_idle options h Hlocal Hrec) as (Hres & Hio & Hst & Hrep).
    split; [exact Hres | split; [exact Hio | split; [exact Hst | split; [| split]]]].
    + exact (autoSync_idle_remote options h Hlocal Hrec).
    + intros Hon. rewrite Hrep, Hon. rewrite !elem_of_app. right. right.
      apply list_elem_of_singleton. reflexivity.
    + intros msg. rewrite Hrep, drop_app_length.
      destruct (onProgress options), (onSuccess options); cbn;
        intros Hin;
        repeat (apply elem_of_cons in Hin as [Hin | Hin]; [discriminate |]);
        inversion Hin.
  - split.
    + intros [cs Hin].
      destruct (hasRecords (fst (getAllCaseStudies (api h)))) eqn:Hrec.
      * exfalso.
        pose proof (autoSync_pull options h Hrec) as Hpull. cbn zeta in Hpull.
        destruct (carried _) as [d |]; [destruct (writable h) |];
          destruct Hpull as (Hio & _); rewrite Hio, drop_app_length in Hin;
          repeat (apply elem_of_cons in Hin as [Hin | Hin]; [discriminate |]);
          inversion Hin.
      * split; [| reflexivity]. intros Hlocal.
        destruct (autoSync_idle options h Hlocal Hrec) as (_ & Hio & _).
        rewrite Hio, drop_app_length in Hin.
        repeat (apply elem_of_cons in Hin as [Hin | Hin]; [discriminate |]).
        inversion Hin.
    + intros [Hlocal Hrec].
      destruct (autoSync_push options h Hlocal Hrec) as [Hio _].
      eexists. rewrite Hio, drop_app_length.
      do 3 right. left.
Qed.

End AutoSyncFacts.

Section EngineRuns.
Import CaseStudiesSync SyncScenario.

(** The four classifications of the specification's examples. *)
Lemma classification_witness :
  recommend 0 0 = noSyncNeeded
  /\ recommend 5 0 = syncToDb
  /\ recommend 0 3 = syncFromDb
  /\ recommend 4 7 = conflict.
Proof.
  destruct (classification_by_counts clock remoteList objectPrototype icons) as [_ Hcases].
  destruct (Hcases 0 0) as (Hnone & _).
  destruct (Hcases 5 0) as (_ & Hpush & _).
  destruct (Hcases 0 3) as (_ & _ & Hpull & _).
  destruct (Hcases 4 7) as (_ & _ & _ & Hconflict).
  split; [apply Hnone; left; split; reflexivity |].
  split; [apply Hpush; split; reflexivity |].
  split; [apply Hpull; split; reflexivity |].
  apply Hconflict. repeat split. discriminate.
Defined.

(** A mirror whose stored text does not parse, next to a remote store
    with two records. *)
Lemma unreadable_mirror_witness :
  fst (getLocalCases objectPrototype icons
         (hostOf (Broken (ErrorObj "Unexpected token < in JSON")) fullRemote))
  = [].
Proof.
  apply (unreadable_mirror_reads_as_empty clock remoteList objectPrototype icons
           (hostOf (Broken (ErrorObj "Unexpected token < in JSON")) fullRemote)).
  exact I.
Defined.

(** Three runs of [autoSync]: a push to an empty remote store, which
    holds the pushed record afterwards; a pull over a local record; and
    nothing to do. *)
Lemma autoSync_witness :
  io (snd (autoSync remoteList remoteBulk objectPrototype icons everyCallback
             (hostOf (Saved [savedSample "a"]) emptyRemote)))
  = [ReadLocal; ReadRemote; ReadLocal;
     WroteRemote [Scenario.sampleCase "a"]]
  /\ collection (api (snd (autoSync remoteList remoteBulk objectPrototype icons
                             everyCallback
                             (hostOf (Saved [savedSample "a"]) emptyRemote))))
     = [Scenario.sampleCase "a"]
  /\ storage (snd (autoSync remoteList remoteBulk objectPrototype icons everyCallback
                     (hostOf (Saved [savedSample "c"]) fullRemote)))
     = Saved [savedSample "a"; savedSample "b"]
  /\ fst (autoSync remoteList remoteBulk objectPrototype icons everyCallback
            (hostOf Missing downRemote))
     = Returned {| direction := "local"; cases := [] |}.
Proof.
  split; [| split; [| split]].
  - destruct (autoSync_direction remoteList remoteBulk objectPrototype icons everyCallback
                (hostOf (Saved [savedSample "a"]) emptyRemote))
      as ([Hio _] & _).
    + discriminate.
    + reflexivity.
    + rewrite Hio. reflexivity.
  - destruct (autoSync_direction remoteList remoteBulk objectPrototype icons everyCallback
                (hostOf (Saved [savedSample "a"]) emptyRemote))
      as ((_ & _ & Hapi & _) & _).
    + discriminate.
    + reflexivity.
    + rewrite Hapi. reflexivity.
  - destruct (autoSync_direction remoteList remoteBulk objectPrototype icons everyCallback
                (hostOf (Saved [savedSample "c"]) fullRemote))
      as (_ & Hpull & _).
    destruct Hpull as (rest & _ & _ & _ & Hsaved & _); [reflexivity |].
    destruct (Hsaved (collection fullRemote)) as (_ & Hst & _);
      [reflexivity | reflexivity |].
    rewrite Hst. reflexivity.
  - destruct (autoSync_direction remoteList remoteBulk objectPrototype icons everyCallback
                (hostOf Missing downRemote))
      as (_ & _ & Hidle & _).
    destruct Hidle as [Hres _]; [reflexivity | reflexivity |].
    exact Hres.
Defined.

End EngineRuns.

Section MonitorRuns.
Import DatabaseMonitor Scenario.

(** 101 records logged at times 0 to 100: the 100 most recent are the
    records of times 100 down to 1. *)
Lemma ring_buffer_witness :
  getRecentOperations 100 (logAll manyCalls initial)
  = reverse (map entryOf (map callAt (seq 1 100)))
  /\ entryOf (callAt 0) ∉ getRecentOperations 100 (logAll manyCalls initial).
Proof.
  destruct (ring_buffer_newest_first_capacity_100 manyCalls) as (_ & _ & Hfull).
  destruct (Hfull (callAt 0) (map callAt (seq 1 100)))
    as (Hrecent & _ & Hout).
  - reflexivity.
  - reflexivity.
  - split; [exact Hrecent |]. apply Hout.
    intros Hin. apply list_elem_of_fmap in Hin as (c & Hc & Hin).
    apply list_elem_of_fmap in Hin as (n & -> & Hn).
    apply elem_of_seq in Hn.
    apply (f_equal timestamp) in Hc. cbn in Hc. lia.
Defined.

End MonitorRuns.

(* ================================================================== *)
(** * Part III: further properties of the same code                    *)
(* ================================================================== *)

(** ** ApiCache: [set], [get], expiry and the two halves of a refresh *)

Section CacheBehaviour.
Import ApiCache.
Context {T H R E : Type}.

(** X1.  [set] then [get]: for a time-to-live that is not negative, a
    [get] of the key at any clock reading up to and including the expiry
    [now + ttl] returns the value that was set and leaves the cache as
    it is; a [get] after the expiry returns [null] and deletes the
    key. *)
Theorem set_then_get (now now' : Z) (key : string) (d : T) (ttl : Z)
    (c : gmap string (CacheItem T)) :
  0 <= ttl ->
  (now' <= now + ttl ->
   get now' key (set now key d ttl c) = (Some d, set now key d ttl c))
  /\ (now + ttl < now' ->
      fst (get now' key (set now key d ttl c)) = None
      /\ snd (get now' key (set now key d ttl c)) !! key = None).
Proof.
  intros Httl. unfold get. rewrite (set_lookup now key d ttl c Httl).
  cbn [expiry data]. split; intros Hnow.
  - destruct (Z.gtb_spec now' (now + ttl)); [lia | reflexivity].
  - destruct (Z.gtb_spec now' (now + ttl)); [| lia].
    split; [reflexivity |]. cbn [snd]. apply lookup_delete_eq.
Qed.

(** X2.  [get] on any cache: a value comes back exactly when the key
    holds an item whose expiry is not before the clock; after a [get]
    that returned [null] the key is absent; and no other key is ever
    touched, expired or not. *)
Theorem get_checks_expiry_of_its_key_only (now : Z) (key : string)
    (c : gmap string (CacheItem T)) :
  (forall d, fst (get now key c) = Some d
             <-> exists item, c !! key = Some item /\ data item = d
                              /\ now <= expiry item)
  /\ (fst (get now key c) = None -> snd (get now key c) !! key = None)
  /\ (forall k, k <> key -> snd (get now key c) !! k = c !! k).
Proof.
  unfold get. destruct (c !! key) as [item |] eqn:Hk.
  - destruct (Z.gtb_spec now (expiry item)) as [Hold | Hlive]; cbn [fst snd].
    + split; [| split].
      * intros d. split; [discriminate |].
        intros (item' & [= <-] & _ & Hle). lia.
      * intros _. apply lookup_delete_eq.
      * intros k Hne. apply lookup_delete_ne. congruence.
    + split; [| split].
      * intros d. split.
        -- intros [= <-]. exists item. repeat split. lia.
        -- intros (item' & [= <-] & <- & _). reflexivity.
      * discriminate.
      * reflexivity.
  - cbn [fst snd]. split; [| split].
    + intros d. split; [discriminate |]. intros (item & Hitem & _). discriminate.
    + intros _. exact Hk.
    + reflexivity.
Qed.

(** X3.  [set] sweeps: right after [set] at clock [now], no item in the
    cache has an expiry before [now] (with a negative [ttl] that
    includes the item just written, which is gone at once), and every
    item of another key that has not expired is still there. *)
Theorem set_sweeps_expired (now : Z) (key : string) (d : T) (ttl : Z)
    (c : gmap string (CacheItem T)) :
  (forall k item, set now key d ttl c !! k = Some item -> now <= expiry item)
  /\ (ttl < 0 -> set now key d ttl c !! key = None)
  /\ (forall k item, k <> key -> c !! k = Some item -> now <= expiry item ->
                     set now key d ttl c !! k = Some item)
  /\ (forall k item, k <> key -> c !! k = Some item -> expiry item < now ->
                     set now key d ttl c !! k = None).
Proof.
  unfold set. split; [| split; [| split]].
  - intros k item. rewrite cleanup_lookup.
    destruct (<[key:=_]> c !! k) as [it |]; [| discriminate].
    destruct (decide (expiry it < now)); [discriminate |].
    intros [= <-]. lia.
  - intros Hneg. rewrite cleanup_lookup, lookup_insert_eq. cbn [expiry].
    destruct (decide (now + ttl < now)); [reflexivity | lia].
  - intros k item Hne Hk Hlive. rewrite cleanup_lookup.
    rewrite lookup_insert_ne by congruence. rewrite Hk.
    destruct (decide (expiry item < now)); [lia | reflexivity].
  - intros k item Hne Hk Hold. rewrite cleanup_lookup.
    rewrite lookup_insert_ne by congruence. rewrite Hk.
    destruct (decide (expiry item < now)); [reflexivity | lia].
Qed.

(** The product [ttl * refreshThreshold] is not negative when neither
    factor is. *)
Lemma refreshTime_nonneg (ttl : Z) (threshold : QArith_base.Q) (remaining : Z) :
  0 <= ttl -> 0 <= QArith_base.Qnum threshold -> remaining < 0 ->
  ltNumber (number remaining) (QArith_base.Qmult (number ttl) threshold) = true.
Proof.
  intros Httl Hthr Hneg. unfold ltNumber, number. cbn.
  apply Z.ltb_lt. nia.
Qed.

(** X4.  [getOrFetch] does not look at the expiry before it answers: an
    item that has expired, and that [get] would report as absent, is
    returned as it is, and (for a [ttl] and a threshold that are not
    negative) a background refresh is started. *)
Theorem getOrFetch_serves_expired now key (fetchFn : FetchFn T H R E) ttl
    threshold later reply (st : State T H E) (cached : CacheItem T) :
  cache st !! key = Some cached ->
  expiry cached < now ->
  0 <= ttl -> 0 <= QArith_base.Qnum threshold ->
  fst (get now key (cache st)) = None
  /\ getOrFetch now key fetchFn ttl threshold later reply st
     = (Returned (data cached), refreshInBackground now key fetchFn ttl st).
Proof.
  intros Hk Hold Httl Hthr. split.
  - unfold get. rewrite Hk.
    destruct (Z.gtb_spec now (expiry cached)); [reflexivity | lia].
  - rewrite (getOrFetch_hit _ _ _ _ _ _ _ _ _ Hk).
    rewrite refreshTime_nonneg by lia. reflexivity.
Qed.

(** X5.  [getOrFetch] on an absent key awaits [fetchFn].  When the
    promise rejects, the rejection reaches the caller and the cache map
    is as before; when it resolves, the value is returned and stored
    with the expiry counted from the moment it arrived. *)
Theorem getOrFetch_miss now key (fetchFn : FetchFn T H R E) ttl threshold
    later reply (st : State T H E) :
  cache st !! key = None ->
  let started := start fetchFn now (outside st) in
  let settled := finish fetchFn later (fst started) reply (snd started) in
  match fst settled with
  | Threw err =>
      getOrFetch now key fetchFn ttl threshold later reply st
      = (Threw err, {| cache := cache st; refreshing := refreshing st;
                       outside := snd settled |})
  | Returned d =>
      getOrFetch now key fetchFn ttl threshold later reply st
      = (Returned d, {| cache := set later key d ttl (cache st);
                        refreshing := refreshing st;
                        outside := snd settled |})
      /\ (0 <= ttl ->
          set later key d ttl (cache st) !! key
          = Some {| data := d; timestamp := later; expiry := later + ttl |})
  end.
Proof.
  intros Hnone started settled. subst started settled.
  unfold getOrFetch. rewrite Hnone.
  destruct (start fetchFn now (outside st)) as [promise e1]. cbn [fst snd].
  destruct (finish fetchFn later promise reply e1) as [[d | err] e2]; cbn [fst snd].
  - split; [reflexivity |]. apply set_lookup.
  - reflexivity.
Qed.

Lemma inFlight_remove key (l : list (Refresh H)) (i : nat) (r : Refresh H) :
  l !! i = Some r ->
  length (filter (fun x => refreshKey x = key) l)
  = (length (filter (fun x => refreshKey x = key) (take i l ++ drop (S i) l))
     + (if decide (refreshKey r = key) then 1 else 0))%nat.
Proof.
  intros Hi.
  rewrite <- (take_drop_middle l i r Hi) at 1.
  rewrite !filter_app, !length_app.
  destruct (decide (refreshKey r = key)) as [Heq | Hne].
  - rewrite filter_cons_True by exact Heq. cbn [length]. lia.
  - rewrite filter_cons_False by exact Hne. lia.
Qed.

(** X6.  When a background refresh settles, it leaves the list of
    refreshes in flight (one fewer for its key).  If [fetchFn] resolved,
    the key then holds the fetched value with a new expiry, whatever the
    cache held for the key in the meantime, a deletion included; if it
    rejected, the cache map is exactly as it was. *)
Theorem refresh_settles (later : Z) (fetchFn : FetchFn T H R E) (i : nat)
    (reply : R) (st : State T H E) (r : Refresh H) :
  refreshing st !! i = Some r ->
  let settled := finish fetchFn later (refreshPromise r) reply (outside st) in
  let after := refreshSettles later fetchFn i reply st in
  inFlight (refreshKey r) st = S (inFlight (refreshKey r) after)
  /\ match fst settled with
     | Returned d =>
         0 <= refreshTtl r ->
         cache after !! refreshKey r
         = Some {| data := d; timestamp := later;
                   expiry := later + refreshTtl r |}
     | Threw _ => cache after = cache st
     end.
Proof.
  intros Hi settled after. subst settled after.
  unfold refreshSettles. rewrite Hi.
  destruct (finish fetchFn later (refreshPromise r) reply (outside st))
    as [result e]. cbn [fst].
  split.
  - unfold inFlight. cbn [refreshing].
    rewrite (inFlight_remove (refreshKey r) _ i r Hi).
    destruct (decide (refreshKey r = refreshKey r)); [lia | congruence].
  - destruct result as [d | err]; cbn [cache]; [| reflexivity].
    intros Httl. apply set_lookup. exact Httl.
Qed.

(** X27.  [has] and [get] agree: at the same clock reading [has(key)]
    answers true exactly when [get(key)] returns a value, and both leave
    the same cache behind, an expired item of the key being deleted by
    either. *)
Theorem has_agrees_with_get (now : Z) (key : string)
    (c : gmap string (CacheItem T)) :
  (fst (has now key c) = true <-> is_Some (fst (get now key c)))
  /\ snd (has now key c) = snd (get now key c)
  /\ (fst (has now key c) = false -> snd (has now key c) !! key = None).
Proof.
  unfold has, get. destruct (c !! key) as [item |] eqn:Hk.
  - destruct (now >? expiry item); cbn [fst snd].
    + split; [| split; [reflexivity | intros _; apply lookup_delete_eq]].
      split; [discriminate | intros [d Hd]; discriminate].
    + split; [| split; [reflexivity | discriminate]].
      split; [intros _; eexists; reflexivity | reflexivity].
  - cbn [fst snd]. split; [| split; [reflexivity | intros _; exact Hk]].
    split; [discriminate | intros [d Hd]; discriminate].
Qed.

End CacheBehaviour.

(** ** DatabaseMonitor: tokens, limits and statistics *)

Section MonitorBehaviour.
Import DatabaseMonitor.

(** X7.  The two-phase token.  [startOperation] followed by
    [completeOperation] with its token logs one record, of the type
    given at the start and with the time elapsed between the two clock
    readings as duration, and keeps the log within 100 records; the
    token is then gone, so completing it once more changes nothing, as
    does completing any token that was never handed out.  The start data
    of other tokens stay. *)
Theorem token_is_single_use (t0 t1 : Z) (rnd0 rnd1 : string) (ty : OpType)
    (dt extra : option Details) (ok : bool) (count : option Z)
    (err : option string) (m : Monitor) :
  let started := startOperation t0 rnd0 ty dt m in
  let done := completeOperation t1 rnd1 (fst started) ok count err extra
                (snd started) in
  (exists entry,
     operations done = take 100 (entry :: operations m)
     /\ type entry = ty /\ duration entry = Some (t1 - t0)
     /\ success entry = ok /\ recordCount entry = count /\ error entry = err)
  /\ starts done !! fst started = None
  /\ (forall j, j <> fst started -> starts done !! j = starts m !! j)
  /\ (forall t2 rnd2 ok2 count2 err2 extra2,
        completeOperation t2 rnd2 (fst started) ok2 count2 err2 extra2 done = done)
  /\ (forall unknown t2 rnd2 ok2 count2 err2 extra2,
        starts m !! unknown = None ->
        completeOperation t2 rnd2 unknown ok2 count2 err2 extra2 m = m).
Proof.
  intros started done.
  assert (Hgone : starts done !! fst started = None).
  { subst done started. cbn [startOperation fst snd].
    unfold completeOperation. cbn [starts]. rewrite lookup_insert_eq.
    cbn [starts]. apply lookup_delete_eq. }
  split; [| split; [exact Hgone | split; [| split]]].
  - eexists. split.
    + subst done started. apply completeOperation_after_start.
    + repeat split.
  - intros j Hne. subst done started. cbn [startOperation fst snd] in *.
    unfold completeOperation. cbn [starts]. rewrite lookup_insert_eq.
    cbn [starts]. rewrite lookup_delete_ne by congruence.
    apply lookup_insert_ne. congruence.
  - intros t2 rnd2 ok2 count2 err2 extra2.
    unfold completeOperation at 1. rewrite Hgone. reflexivity.
  - intros unknown t2 rnd2 ok2 count2 err2 extra2 Hnone.
    unfold completeOperation. rewrite Hnone. reflexivity.
Qed.

Lemma slice_drop_last {A : Type} (l : list A) (n : Z) :
  n < 0 -> slice l 0 (Some n) = take (length l - Z.to_nat (- n)) l.
Proof.
  intros Hn. unfold slice, relativeIndex.
  destruct (Z.ltb_spec n 0) as [_ | Hge]; [| lia].
  change (0 <? 0) with false. cbn iota.
  replace (Z.to_nat (0 `min` Z.of_nat (length l))) with 0%nat by lia.
  rewrite drop_0. f_equal. lia.
Qed.

(** X8.  [getRecentOperations(limit)] returns the [limit] newest
    records, newest first, and all of them when there are fewer; with
    limit 0 it returns none; a negative limit [-k] returns all but the
    [k] oldest. *)
Theorem getRecentOperations_limit (limit : Z) (m : Monitor) :
  (0 <= limit ->
   getRecentOperations limit m = take (Z.to_nat limit) (operations m)
   /\ Z.of_nat (length (getRecentOperations limit m))
      = Z.min limit (Z.of_nat (length (operations m))))
  /\ (limit < 0 ->
      getRecentOperations limit m
      = take (length (operations m) - Z.to_nat (- limit)) (operations m)).
Proof.
  unfold getRecentOperations. split; intros Hl.
  - rewrite slice_prefix by exact Hl. split; [reflexivity |].
    rewrite length_take. lia.
  - apply slice_drop_last. exact Hl.
Qed.

Lemma typeName_inj (a b : OpType) : typeName a = typeName b -> a = b.
Proof. destruct a, b; cbn; congruence. Qed.

Lemma countByType_from (acc : gmap string Z) (ops : list DbOperation) (t : OpType) :
  foldl (fun acc op =>
           <[ typeName (type op) := default 0 (acc !! typeName (type op)) + 1 ]> acc)
    acc ops !! typeName t
  = let n := Z.of_nat (length (filter (fun op => type op = t) ops)) in
    if n =? 0 then acc !! typeName t
    else Some (default 0 (acc !! typeName t) + n).
Proof.
  revert acc. induction ops as [| op ops IH]; intros acc; [reflexivity |].
  cbn [foldl]. rewrite IH. cbn zeta.
  destruct (decide (type op = t)) as [Heq | Hne].
  - rewrite filter_cons_True by exact Heq. rewrite Heq, lookup_insert_eq.
    cbn [length default].
    destruct (Z.eqb_spec (Z.of_nat (length (filter (fun op => type op = t) ops))) 0);
      destruct (Z.eqb_spec (Z.of_nat (S (length (filter (fun op => type op = t) ops)))) 0);
      try lia; unfold Datatypes.id; f_equal;
      generalize dependent (length (filter (fun op => type op = t) ops));
      intros k; intros; generalize (default 0 (acc !! typeName t)); intros d; lia.
  - rewrite filter_cons_False by exact Hne.
    rewrite lookup_insert_ne; [reflexivity |].
    intros Hname. apply typeName_inj in Hname. congruence.
Qed.

Lemma length_by_type (ops : list DbOperation) :
  length ops
  = (length (filter (fun op => type op = read) ops)
     + length (filter (fun op => type op = write) ops)
     + length (filter (fun op => type op = delete) ops)
     + length (filter (fun op => type op = sync) ops))%nat.
Proof.
  induction ops as [| op ops IH]; [reflexivity |].
  destruct (type op) eqn:Hty;
    repeat match goal with
           | |- context [filter (fun o => type o = ?t) (op :: ops)] =>
               first [ rewrite (filter_cons_True (fun o => type o = t)) by exact Hty
                     | rewrite (filter_cons_False (fun o => type o = t)) by congruence ]
           end; cbn [length]; lia.
Qed.

Section StatsFacts.
Context {F : Type}.
Context (ofZ : Z -> F) (divide times : F -> F -> F) (round : F -> F).

(** X9.  The counts of [getStats]: [totalOperations] is the number of
    retained records whose timestamp is after [now - timeWindowMs];
    [operationsByType] has, for each type that occurs among them, the
    number of its records, and no property for a type that does not
    occur; the four counts add up to the total.  With no record in the
    window nothing is divided: the rate is the rounding of the constant
    100, the average that of 0, and there are no types and no errors. *)
Theorem getStats_counts (now window : Z) (m : Monitor) :
  let stats := getStats ofZ divide times round now window m in
  let recent := filter (fun op => now - window < timestamp op) (operations m) in
  let count := fun t => Z.of_nat (length (filter (fun op => type op = t) recent)) in
  totalOperations stats = Z.of_nat (length recent)
  /\ (forall t, operationsByType stats !! typeName t
                = if count t =? 0 then None else Some (count t))
  /\ totalOperations stats = count read + count write + count delete + count sync
  /\ (recent = [] ->
      successRate stats = divide (round (times (ofZ 100) (ofZ 10))) (ofZ 10)
      /\ averageDuration stats = round (ofZ 0)
      /\ operationsByType stats = ∅
      /\ errors stats = []).
Proof.
  intros stats recent count. subst stats. unfold getStats.
  fold recent. cbn [totalOperations operationsByType successRate
                    averageDuration errors].
  split; [reflexivity | split; [| split]].
  - intros t. unfold countByType. rewrite countByType_from. cbn zeta.
    fold (count t). rewrite lookup_empty. cbn [default].
    destruct (count t =? 0); [reflexivity | f_equal; lia].
  - subst count. cbn beta. rewrite (length_by_type recent) at 1. lia.
  - intros Hnone. rewrite Hnone. repeat split.
Qed.

Lemma firstOccurrences_spec (l : list string) :
  NoDup (firstOccurrences l) /\ forall x, x ∈ firstOccurrences l <-> x ∈ l.
Proof.
  unfold firstOccurrences.
  set (P := fun ix : nat * string =>
              findIndex (fun y => strictEq y ix.2) l = Some ix.1).
  split.
  - apply NoDup_fmap_2_strong.
    + intros [i x] [j y] Hx Hy Heq. cbn in Heq. subst y.
      apply list_elem_of_filter in Hx as [Hi _].
      apply list_elem_of_filter in Hy as [Hj _].
      unfold P in Hi, Hj. cbn in Hi, Hj. congruence.
    + apply NoDup_filter. apply NoDup_alt. intros i j [k x] Hi Hj.
      rewrite list_lookup_imap in Hi, Hj.
      destruct (l !! i); [| discriminate]. destruct (l !! j); [| discriminate].
      cbn in Hi, Hj. congruence.
  - intros x. rewrite list_elem_of_fmap. split.
    + intros ([i y] & -> & Hin). apply list_elem_of_filter in Hin as [_ Hin].
      apply elem_of_lookup_imap in Hin as (k & z & [= -> ->] & Hk).
      cbn. apply list_elem_of_lookup. eauto.
    + intros Hin.
      destruct (findIndex (fun y => strictEq y x) l) as [i |] eqn:Hfind.
      * destruct (findIndex_Some _ _ _ Hfind) as (y & Hy & Heq & _).
        unfold strictEq in Heq. apply bool_decide_eq_true in Heq. subst y.
        exists (i, x). split; [reflexivity |].
        apply list_elem_of_filter. split; [exact Hfind |].
        apply elem_of_lookup_imap. eauto.
      * rewrite findIndex_None in Hfind. specialize (Hfind x Hin).
        unfold strictEq in Hfind. rewrite bool_decide_eq_true_2 in Hfind by reflexivity.
        discriminate.
Qed.

(** X10.  The [errors] of [getStats]: at most five messages, no message
    twice, each of them the non-empty error of a failed record inside
    the window; and when the failed records of the window carry at most
    five different messages, every one of them is listed. *)
Theorem getStats_errors (now window : Z) (m : Monitor) :
  let errs := errors (getStats ofZ divide times round now window m) in
  let failing := fun e op =>
    op ∈ operations m /\ now - window < timestamp op
    /\ success op = false /\ error op = Some e /\ e <> "" in
  NoDup errs
  /\ (length errs <= 5)%nat
  /\ (forall e, e ∈ errs -> exists op, failing e op)
  /\ ((forall es, NoDup es -> (forall e, e ∈ es -> exists op, failing e op) ->
                  (length es <= 5)%nat) ->
      forall e op, failing e op -> e ∈ errs).
Proof.
  intros errs failing. subst errs. unfold getStats. cbn [errors].
  set (recent := filter (fun op => now - window < timestamp op) (operations m)).
  set (msgs := omap error (filter (fun op => failedWithMessage op = true) recent)).
  rewrite slice_prefix by lia. change (Z.to_nat 5) with 5%nat.
  destruct (firstOccurrences_spec msgs) as [Hnodup Hmem].
  assert (Hmsgs : forall e, e ∈ msgs <-> exists op, failing e op).
  { intros e. subst msgs. rewrite list_elem_of_omap. split.
    - intros (op & Hin & Herr).
      apply list_elem_of_filter in Hin as [Hfail Hin].
      apply list_elem_of_filter in Hin as [Hwin Hin].
      exists op. unfold failing, failedWithMessage in *. rewrite Herr in Hfail.
      destruct (success op); cbn in Hfail; [discriminate |].
      repeat split; try assumption. intros ->. discriminate.
    - intros (op & Hin & Hwin & Hok & Herr & Hne).
      exists op. split; [| exact Herr].
      apply list_elem_of_filter. split.
      + unfold failedWithMessage. rewrite Hok, Herr. cbn.
        destruct e; [congruence | reflexivity].
      + apply list_elem_of_filter. split; assumption. }
  split; [| split; [| split]].
  - eapply sublist_NoDup; [exact Hnodup | apply sublist_take].
  - rewrite length_take. lia.
  - intros e Hin. apply Hmsgs, Hmem. exact (subseteq_take _ _ _ Hin).
  - intros Hfew e op Hfail.
    rewrite take_ge.
    + apply Hmem, Hmsgs. eauto.
    + apply Hfew; [exact Hnodup |]. intros e' He'. apply Hmsgs, Hmem, He'.
Qed.

End StatsFacts.

End MonitorBehaviour.

(** ** PerformanceMonitor: what the recorder keeps *)

Section RecorderBehaviour.
Import PerformanceMonitor.

Lemma findIndex_app_first {A : Type} (p : A -> bool) (pre rest : list A) (x : A) :
  (forall y, y ∈ pre -> p y = false) -> p x = true ->
  findIndex p (pre ++ x :: rest) = Some (length pre).
Proof.
  intros Hpre Hx. induction pre as [| a pre IH]; cbn [app findIndex length].
  - rewrite Hx. reflexivity.
  - rewrite (Hpre a) by left.
    rewrite IH; [reflexivity |]. intros y Hy. apply Hpre. right. exact Hy.
Qed.

(** [startMeasure] drops from the front exactly what exceeds 100. *)
Lemma startMeasure_keeps now nm md (metrics : list PerformanceMetric) :
  snd (startMeasure now nm md metrics)
  = drop (length metrics + 1 - 100) metrics ++ [runningMetric now nm md]
  /\ (length metrics + 1 - 100 <= length metrics)%nat.
Proof.
  split; [| lia]. unfold startMeasure. cbn [snd].
  fold (runningMetric now nm md).
  destruct (Z.gtb_spec (Z.of_nat (length (metrics ++ [runningMetric now nm md])))
              maxMetrics) as [Hgt | Hle];
    rewrite length_app in *; cbn [length] in *; unfold maxMetrics in *.
  - rewrite slice_suffix by lia. rewrite length_app. cbn [length].
    change (Z.to_nat 100) with 100%nat. apply drop_app_le. lia.
  - replace (length metrics + 1 - 100)%nat with 0%nat by lia.
    rewrite drop_0. reflexivity.
Qed.

Lemma endMeasure_none now nm (metrics : list PerformanceMetric) :
  (forall m, m ∈ metrics -> pendingNamed nm m = false) ->
  endMeasure now nm metrics = (None, metrics).
Proof.
  intros Hquiet. unfold endMeasure.
  apply findIndex_None in Hquiet. rewrite Hquiet. reflexivity.
Qed.

Lemma endMeasure_first now nm (pre rest : list PerformanceMetric)
    (x : PerformanceMetric) :
  (forall m, m ∈ pre -> pendingNamed nm m = false) ->
  pendingNamed nm x = true ->
  endMeasure now nm (pre ++ x :: rest)
  = (Some (now - startTime x),
     pre ++ {| name := name x; startTime := startTime x; endTime := Some now;
               duration := Some (now - startTime x); metadata := metadata x |}
         :: rest).
Proof.
  intros Hpre Hx. unfold endMeasure.
  rewrite (findIndex_app_first _ pre rest x Hpre Hx).
  rewrite list_lookup_middle by reflexivity. f_equal.
  replace (length pre) with (length pre + 0)%nat by lia.
  rewrite insert_app_r. reflexivity.
Qed.

Lemma endMeasure_shape now nm (metrics : list PerformanceMetric) :
  length (snd (endMeasure now nm metrics)) = length metrics
  /\ (Forall consistent metrics -> Forall consistent (snd (endMeasure now nm metrics))).
Proof.
  unfold endMeasure.
  destruct (findIndex (pendingNamed nm) metrics) as [i |]; [| split; auto].
  destruct (metrics !! i) as [m |] eqn:Hm; [| split; auto]. cbn [snd].
  split; [apply length_insert |].
  intros Hall. apply Forall_insert; [exact Hall |].
  unfold consistent. cbn. reflexivity.
Qed.

(** X11.  Whatever sequence of [startMeasure], [endMeasure] and [clear]
    calls the recorder receives, it retains at most 100 measurements,
    and each of them is either running (no end time, no duration) or
    ended with a duration equal to its end time minus its start time;
    so every measurement that [getMetrics] lists is an ended one, and
    the measurements that [getSlowOperations] lists are those of
    [getMetrics] that ended more than the threshold after they
    started. *)
Theorem recorder_invariant (calls : list RecorderCall) :
  let metrics := foldl (fun ms c => runRecorderCall c ms) [] calls in
  (length metrics <= 100)%nat
  /\ Forall consistent metrics
  /\ (forall m, m ∈ getMetrics metrics ->
        m ∈ metrics
        /\ exists t, endTime m = Some t /\ duration m = Some (t - startTime m))
  /\ (forall threshold m,
        m ∈ getSlowOperations threshold metrics
        <-> m ∈ getMetrics metrics
            /\ exists t, endTime m = Some t /\ threshold < t - startTime m).
Proof.
  intros metrics.
  assert (Hinv : (length metrics <= 100)%nat /\ Forall consistent metrics).
  { subst metrics. induction calls as [| c calls IH] using rev_ind.
    - split; [cbn; lia | constructor].
    - rewrite foldl_app. cbn [foldl].
      set (ms := foldl (fun ms c => runRecorderCall c ms) [] calls) in *.
      destruct IH as [Hlen Hall]. destruct c as [now nm md | now nm |];
        cbn [runRecorderCall].
      + destruct (startMeasure_keeps now nm md ms) as [-> Hk]. split.
        * rewrite length_app, length_drop. cbn [length]. lia.
        * apply Forall_app. split; [apply Forall_drop, Hall |].
          constructor; [exact I | constructor].
      + destruct (endMeasure_shape now nm ms) as [-> Hkeep].
        split; [exact Hlen | exact (Hkeep Hall)].
      + split; [cbn; lia | constructor]. }
  destruct Hinv as [Hlen Hall].
  assert (Hended : forall m, m ∈ getMetrics metrics ->
            m ∈ metrics
            /\ exists t, endTime m = Some t /\ duration m = Some (t - startTime m)).
  { intros m Hin. unfold getMetrics in Hin.
    apply list_elem_of_filter in Hin as [[d Hd] Hin]. split; [exact Hin |].
    rewrite Forall_forall in Hall. specialize (Hall m Hin).
    unfold consistent in Hall. rewrite Hd in Hall.
    destruct (endTime m) as [t |]; [| contradiction].
    exists t. split; [reflexivity | congruence]. }
  split; [exact Hlen | split; [exact Hall | split; [exact Hended |]]].
  intros threshold m. unfold getSlowOperations. rewrite list_elem_of_filter.
  unfold slowerThan. split.
  - intros [Hslow Hin].
    destruct (duration m) as [d |] eqn:Hd; [| discriminate].
    assert (Hlisted : m ∈ getMetrics metrics).
    { unfold getMetrics. apply list_elem_of_filter. split; [| exact Hin].
      rewrite Hd. eexists. reflexivity. }
    split; [exact Hlisted |].
    destruct (Hended m Hlisted) as (_ & t & Ht & Hdur).
    exists t. split; [exact Ht |]. rewrite Hd in Hdur.
    injection Hdur as ->. lia.
  - intros (Hlisted & t & Ht & Hlong).
    destruct (Hended m Hlisted) as (Hin & t' & Ht' & Hdur).
    split; [| exact Hin]. rewrite Hdur.
    assert (t' = t) as -> by congruence.
    apply Z.gtb_lt. lia.
Qed.

(** X12.  [endMeasure] pairs ends with starts of the same name in start
    order, not by caller.  With two measurements of one name running
    (started at [t0], then at [t1], none of that name running before),
    the first [endMeasure(name)] ends the one started at [t0] and
    returns [t2 - t0], whoever calls it; the second returns [t3 - t1];
    a third finds nothing running and returns [null], changing
    nothing.  (End times are clock readings other than 0.) *)
Theorem same_name_measurements_end_in_start_order (t0 t1 t2 t3 t4 : Z)
    (nm : string) (md0 md1 : option Metadata)
    (metrics : list PerformanceMetric) :
  (forall m, m ∈ metrics -> pendingNamed nm m = false) ->
  t2 <> 0 -> t3 <> 0 ->
  let started := snd (startMeasure t1 nm md1 (snd (startMeasure t0 nm md0 metrics))) in
  let first := endMeasure t2 nm started in
  let second := endMeasure t3 nm (snd first) in
  fst first = Some (t2 - t0)
  /\ fst second = Some (t3 - t1)
  /\ endMeasure t4 nm (snd second) = (None, snd second).
Proof.
  intros Hquiet Ht2 Ht3 started first second.
  destruct (startMeasure_keeps t0 nm md0 metrics) as [Hs0 Hk0].
  set (k0 := (length metrics + 1 - 100)%nat) in *.
  subst started first second. cbn zeta. rewrite Hs0.
  destruct (startMeasure_keeps t1 nm md1
              (drop k0 metrics ++ [runningMetric t0 nm md0])) as [Hs1 Hk1].
  set (k1 := (length (drop k0 metrics ++ [runningMetric t0 nm md0]) + 1 - 100)%nat) in *.
  assert (Hk1' : (k1 <= length (drop k0 metrics))%nat).
  { subst k1 k0. rewrite length_app, length_drop in *. cbn [length] in *. lia. }
  rewrite drop_app_le in Hs1 by exact Hk1'.
  rewrite <- app_assoc in Hs1. cbn [app] in Hs1.
  set (pre := drop k1 (drop k0 metrics)) in *.
  assert (Hpre : forall m, m ∈ pre -> pendingNamed nm m = false).
  { intros m Hm. apply Hquiet.
    apply (subseteq_drop k0 metrics), (subseteq_drop k1 _), Hm. }
  assert (Hrun : forall t md, pendingNamed nm (runningMetric t nm md) = true).
  { intros t md. unfold pendingNamed, strictEq. cbn.
    rewrite bool_decide_eq_true_2; reflexivity. }
  assert (Hend : forall t t' md, t' <> 0 ->
            pendingNamed nm (endedMetric t t' nm md) = false).
  { intros t t' md Hne. unfold pendingNamed, strictEq. cbn.
    rewrite bool_decide_eq_true_2 by reflexivity. cbn.
    destruct (Z.eqb_spec t' 0); [contradiction | reflexivity]. }
  rewrite Hs1.
  rewrite (endMeasure_first t2 nm pre _ _ Hpre (Hrun t0 md0)).
  cbn [fst snd name startTime metadata runningMetric].
  fold (endedMetric t0 t2 nm md0).
  split; [reflexivity |].
  change (pre ++ endedMetric t0 t2 nm md0 :: [runningMetric t1 nm md1])
    with (pre ++ [endedMetric t0 t2 nm md0] ++ runningMetric t1 nm md1 :: []).
  rewrite app_assoc.
  assert (Hpre2 : forall m, m ∈ pre ++ [endedMetric t0 t2 nm md0] ->
                            pendingNamed nm m = false).
  { intros m Hm. apply elem_of_app in Hm as [Hm | Hm]; [apply Hpre, Hm |].
    apply list_elem_of_singleton in Hm as ->. apply Hend, Ht2. }
  rewrite (endMeasure_first t3 nm _ _ _ Hpre2 (Hrun t1 md1)).
  cbn [fst snd name startTime metadata runningMetric].
  fold (endedMetric t1 t3 nm md1).
  split; [reflexivity |].
  apply endMeasure_none. intros m Hm.
  apply elem_of_app in Hm as [Hm | Hm]; [apply Hpre2, Hm |].
  apply list_elem_of_singleton in Hm as ->. apply Hend, Ht3.
Qed.


End RecorderBehaviour.

(** ** CaseStudiesApi: the other write paths, statistics and health *)

Section WritePaths.
Import ApiCache CaseStudiesApi.

(** No by-id key is one of the fixed keys. *)
Lemma CASE_STUDY_is_no_fixed_key (i : string) :
  CASE_STUDY i <> CASE_STUDIES /\ CASE_STUDY i <> HOMEPAGE_SOLUTIONS
  /\ CASE_STUDY i <> STATS /\ CASE_STUDY i <> HEALTH_CHECK.
Proof.
  unfold CASE_STUDY, CASE_STUDIES, HOMEPAGE_SOLUTIONS, STATS, HEALTH_CHECK.
  repeat split; intros Heq; cbv [String.append] in Heq; congruence.
Qed.

(** What a measured request leaves behind: what the request resolved
    to (never [null], so that its [success] can be read), with the
    request on the wire. *)
Lemma measured_request now rnd nm req later reply (e : Services) :
  exists result e',
    measureAsync now later nm (makeRequest now rnd req later reply) e
    = (Returned result, e')
    /\ wire e' = wire e ++ [req]
    /\ fst (makeRequest now rnd req later reply
              {| monitor := monitor e;
                 metrics := snd (PerformanceMonitor.startMeasure now nm None (metrics e));
                 wire := wire e |}) = Returned result
    /\ readProperty "success" result = Returned (member "success" result).
Proof.
  unfold measureAsync.
  set (e1 := {| monitor := monitor e;
                metrics := snd (PerformanceMonitor.startMeasure now nm None (metrics e));
                wire := wire e |}).
  destruct (makeRequest_outcome now rnd req later reply e1)
    as (result & e' & Hreq & _ & Hnn & _ & _ & Hwire).
  rewrite Hreq. eexists _, _. split; [reflexivity |]. cbn [wire fst].
  split; [exact Hwire | split; [reflexivity |]].
  destruct result; [congruence | reflexivity ..].
Qed.




(** X17.  No write of a single record touches the cached statistics:
    after [createCaseStudy], [updateCaseStudy] or [deleteCaseStudy],
    whether it succeeded or not, the entry under the statistics key is
    what it was before the call, so that a following [getStatistics]
    answers with the statistics cached before the write, whatever the
    clock says. *)
Theorem single_writes_keep_cached_statistics (now : Z) (rnd : string)
    (later : Z) (reply : Reply) (st : Client) :
  let stale := fun st' : Client =>
    cache st' !! STATS = cache st !! STATS
    /\ (forall item now2 rnd2 later2 reply2,
          cache st !! STATS = Some item ->
          fst (getStatistics now2 rnd2 later2 reply2 st')
          = Returned (ApiCache.data item)) in
  (forall icon caseStudy,
     stale (snd (createCaseStudy now rnd icon caseStudy later reply st)))
  /\ (forall i patch,
        stale (snd (updateCaseStudy now rnd i patch later reply st)))
  /\ (forall i, stale (snd (deleteCaseStudy now rnd i later reply st))).
Proof.
  intros stale.
  assert (Hserve : forall st' : Client,
             cache st' !! STATS = cache st !! STATS -> stale st').
  { intros st' Hsame. split; [exact Hsame |].
    intros item now2 rnd2 later2 reply2 Hitem. unfold getStatistics.
    rewrite (getOrFetch_hit now2 STATS _ _ _ later2 reply2 st' item)
      by (rewrite Hsame; exact Hitem).
    reflexivity. }
  split; [| split].
  - intros icon caseStudy. apply Hserve. unfold createCaseStudy.
    destruct (measured_request now rnd "create_case_study"
                {| endpoint := "/casestudies"; method := Some "POST";
                   body := Some (NewCase icon caseStudy) |} later reply (outside st))
      as (result & e' & -> & _ & _ & ->).
    cbn [snd cache]. destruct (truthyOpt (member "success" result)); [| reflexivity].
    rewrite !cache_delete_lookup. repeat case_decide; reflexivity || discriminate.
  - intros i patch. apply Hserve. unfold updateCaseStudy.
    destruct (measured_request now rnd "update_case_study"
                {| endpoint := "/casestudies/" +:+ i; method := Some "PUT";
                   body := Some (Patch patch) |} later reply (outside st))
      as (result & e' & -> & _ & _ & ->).
    cbn [snd cache]. destruct (truthyOpt (member "success" result)); [| reflexivity].
    destruct (CASE_STUDY_is_no_fixed_key i) as (_ & _ & Hne & _).
    rewrite !cache_delete_lookup.
    repeat case_decide; reflexivity || discriminate || congruence.
  - intros i. apply Hserve. unfold deleteCaseStudy.
    destruct (measured_request now rnd "delete_case_study"
                {| endpoint := "/casestudies/" +:+ i; method := Some "DELETE";
                   body := None |} later reply (outside st))
      as (result & e' & -> & _ & _ & ->).
    cbn [snd cache]. destruct (truthyOpt (member "success" result)); [| reflexivity].
    destruct (CASE_STUDY_is_no_fixed_key i) as (_ & _ & Hne & _).
    rewrite !cache_delete_lookup.
    repeat case_decide; reflexivity || discriminate || congruence.
Qed.

(** X18.  [healthCheck] keeps its own one-entry cache.  A cached result
    younger than 60000 ms is returned without any request.  Otherwise
    one request is made and what it resolved to is returned: a success
    is cached with the clock reading taken before the request; a failure
    is not cached, and leaves the entry that was there. *)
Theorem healthCheck_caches_successes_only (now : Z) (rnd : string) (later : Z)
    (reply : Reply) (healthCache : option HealthCache) (e : Services) :
  (forall c, healthCache = Some c -> now - cachedAt c < HEALTH_CACHE_DURATION ->
     healthCheck now rnd later reply healthCache e
     = (Returned (cachedResult c), healthCache, e))
  /\ ((healthCache = None
       \/ exists c, healthCache = Some c
                    /\ HEALTH_CACHE_DURATION <= now - cachedAt c) ->
      exists result e',
        makeRequest now rnd healthRequest later reply e = (Returned result, e')
        /\ wire e' = wire e ++ [healthRequest]
        /\ healthCheck now rnd later reply healthCache e
           = (Returned result,
              if succeeded result
              then Some {| cachedResult := result; cachedAt := now |}
              else healthCache,
              e')).
Proof.
  split.
  - intros c -> Hfresh. unfold healthCheck.
    destruct (Z.ltb_spec (now - cachedAt c) HEALTH_CACHE_DURATION); [reflexivity | lia].
  - intros Hstale.
    destruct (makeRequest_outcome now rnd healthRequest later reply e)
      as (result & e' & Hreq & _ & Hnn & _ & _ & Hwire).
    assert (Hread : readProperty "success" result
                    = Returned (member "success" result)).
    { destruct result; [congruence | reflexivity ..]. }
    exists result, e'. split; [exact Hreq | split; [exact Hwire |]].
    unfold healthCheck, succeeded.
    destruct Hstale as [-> | (c & -> & Hold)].
    + rewrite Hreq, Hread. reflexivity.
    + destruct (Z.ltb_spec (now - cachedAt c) HEALTH_CACHE_DURATION); [lia |].
      rewrite Hreq, Hread. reflexivity.
Qed.

(** X19.  The record that [makeRequest] leaves in the operation log: its
    type follows the HTTP method (write for POST and PUT, delete for
    DELETE, read for anything else), its duration is the time between
    the two clock readings, its details are the endpoint and the method
    (["GET"] when none was given), and its record count is inferred from
    an [ok] body that parsed to something other than [null] (the length
    of an array under [data], 1 for any other object there, none for a
    primitive or for a body without a truthy [success]) and is 0 on
    every path that went through the [catch]. *)
Theorem makeRequest_log_record (now : Z) (rnd : string) (req : Request)
    (later : Z) (reply : Reply) (e : Services) :
  exists entry,
    DatabaseMonitor.operations (monitor (snd (makeRequest now rnd req later reply e)))
    = take 100 (entry :: DatabaseMonitor.operations (monitor e))
    /\ DatabaseMonitor.type entry
       = (if bool_decide (method req = Some "POST")
             || bool_decide (method req = Some "PUT")
          then DatabaseMonitor.write
          else if bool_decide (method req = Some "DELETE")
               then DatabaseMonitor.delete
               else DatabaseMonitor.read)
    /\ DatabaseMonitor.duration entry = Some (later - now)
    /\ DatabaseMonitor.details entry
       = Some {[ "endpoint" := endpoint req;
                 "method" := orString (method req) "GET" ]}
    /\ DatabaseMonitor.recordCount entry
       = match settled reply with
         | Responds true _ (Parsed JNull) => Some 0
         | Responds true _ (Parsed d) =>
             if truthyOpt (member "success" d) then
               match member "data" d with
               | Some (JArray items) => Some (Z.of_nat (length items))
               | Some (JObject _) => Some 1
               | _ => None
               end
             else None
         | _ => Some 0
         end.
Proof.
  destruct (makeRequest_outcome now rnd req later reply e)
    as (result & e' & Hrun & _ & _
        & (entry & Hlog & _ & _ & _ & Htype & Hduration & Hdetails & Hcount) & _).
  rewrite Hrun. cbn [snd]. exists entry.
  split; [exact Hlog |]. split; [exact Htype |]. split; [exact Hduration |].
  split; [exact Hdetails |]. rewrite Hcount.
  destruct (settled reply) as [thrown | [|] status [d | thrown]]; try reflexivity.
  destruct d; try reflexivity; apply inferRecordCount_cases.
Qed.

End WritePaths.

(** ** CaseStudiesSync: conversions, the mirror and the two directions *)

Section EngineBehaviour.
Import CaseStudiesSync.
Context {Icon : Type} `{EqDecision Icon}.
Context (dateTime : string -> JsNumber).
Context {Api : Type}.
Context (getAllCaseStudies : Api -> ApiResponse (list ApiCaseStudy) * Api).
Context (bulkUpdateCaseStudies :
           list ApiCaseStudy -> Api -> ApiResponse (list ApiCaseStudy) * Api).
Context (inherited : string -> option Icon).
Context (iconMapping : list (string * Icon)).

Lemma find_by_key (k : string) (v : Icon) :
  NoDup iconMapping.*1 -> (k, v) ∈ iconMapping ->
  List.find (fun kv => strictEq kv.1 k) iconMapping = Some (k, v).
Proof.
  induction iconMapping as [| [k' v'] l IH]; intros Hnd Hin; [inversion Hin |].
  cbn [List.find fst]. unfold strictEq.
  apply NoDup_cons in Hnd as [Hfresh Hnd].
  apply elem_of_cons in Hin as [[= <- <-] | Hin].
  - rewrite bool_decide_eq_true_2; reflexivity.
  - rewrite bool_decide_eq_false_2; [apply IH; assumption |].
    intros ->. apply Hfresh. apply list_elem_of_fmap. exists (k, v). split; [reflexivity | exact Hin].
Qed.

Lemma find_by_value (k : string) (v : Icon) :
  NoDup iconMapping.*2 -> (k, v) ∈ iconMapping ->
  List.find (fun kv => bool_decide (Some kv.2 = Some v)) iconMapping = Some (k, v).
Proof.
  induction iconMapping as [| [k' v'] l IH]; intros Hnd Hin; [inversion Hin |].
  cbn [List.find snd].
  apply NoDup_cons in Hnd as [Hfresh Hnd].
  apply elem_of_cons in Hin as [[= <- <-] | Hin].
  - rewrite bool_decide_eq_true_2; reflexivity.
  - rewrite bool_decide_eq_false_2; [apply IH; assumption |].
    intros [= ->]. apply Hfresh. apply list_elem_of_fmap. exists (k, v). split; [reflexivity | exact Hin].
Qed.

Lemma iconNameOf_known (v : Icon) :
  (exists k, (k, v) ∈ iconMapping) ->
  exists k, (k, v) ∈ iconMapping
            /\ iconNameOf iconMapping (Some v) = orString (Some k) "MessageSquare".
Proof.
  intros (k0 & Hin). unfold iconNameOf.
  destruct (List.find (fun kv => bool_decide (Some kv.2 = Some v)) iconMapping)
    as [[k v'] |] eqn:Hfind.
  - apply List.find_some in Hfind as [Hmem Hv].
    apply bool_decide_eq_true in Hv. cbn in Hv. injection Hv as ->.
    exists k. split; [apply list_elem_of_In; exact Hmem | reflexivity].
  - exfalso.
    pose proof (List.find_none _ _ Hfind (k0, v)
                  (proj1 (list_elem_of_In _ _) Hin)) as Hno.
    cbn in Hno. rewrite bool_decide_eq_true_2 in Hno by reflexivity. discriminate.
Qed.

Lemma orString_truthy (s fallback : string) :
  s <> "" -> orString (Some s) fallback = s.
Proof. intros Hne. destruct s; [congruence | reflexivity]. Qed.

Lemma icon_round_trip (v : Icon) :
  NoDup iconMapping.*1 ->
  (forall kv, kv ∈ iconMapping -> kv.1 <> "") ->
  (exists k, (k, v) ∈ iconMapping) ->
  iconFor inherited iconMapping (Some (iconNameOf iconMapping (Some v))) = Some v.
Proof.
  intros Hkeys Hnames Hknown.
  destruct (iconNameOf_known v Hknown) as (k & Hin & ->).
  rewrite orString_truthy by exact (Hnames _ Hin).
  unfold iconFor, iconNamed. cbn [default from_option]. unfold Datatypes.id.
  rewrite (find_by_key k v Hkeys Hin). reflexivity.
Qed.

(** X20.  Local to API and back.  When the mapping has no repeated and
    no empty name and the case study's icon is one of its components,
    converting the local record for upload and converting the result
    back gives the same local record. *)
Theorem local_to_api_and_back (c : CaseStudy Icon) (v : Icon) :
  NoDup iconMapping.*1 ->
  (forall kv, kv ∈ iconMapping -> kv.1 <> "") ->
  icon c = Some v ->
  (exists k, (k, v) ∈ iconMapping) ->
  apiToLocal inherited iconMapping (toApiCase iconMapping c) = c.
Proof.
  intros Hkeys Hnames Hicon Hknown.
  unfold apiToLocal, toApiCase. cbn. rewrite Hicon.
  rewrite (icon_round_trip v Hkeys Hnames Hknown).
  destruct c. cbn in *. subst. reflexivity.
Qed.

(** X21.  API to local and back.  When no two names of the mapping share
    a component and the record's icon name is a non-empty own name of
    the mapping, converting the API record to the local format and back
    gives the same API record.  An icon name that is not an own name of
    the mapping is looked up along the prototype chain: when the mapping
    inherits a property of that name (["constructor"], ["toString"], ...)
    the local record gets that inherited value, and converting back
    yields the name ["MessageSquare"] unless the value is also a
    component of the mapping; when it inherits none, the local record
    gets what the mapping gives for ["MessageSquare"]. *)
Theorem api_to_local_and_back (a : ApiCaseStudy) :
  (NoDup iconMapping.*2 ->
   CaseStudiesApi.iconName a <> "" ->
   (exists v, (CaseStudiesApi.iconName a, v) ∈ iconMapping) ->
   toApiCase iconMapping (apiToLocal inherited iconMapping a) = a)
  /\ (CaseStudiesApi.iconName a ∉ iconMapping.*1 ->
      icon (apiToLocal inherited iconMapping a)
      = match inherited (CaseStudiesApi.iconName a) with
        | Some v => Some v
        | None => iconNamed inherited iconMapping (Some "MessageSquare")
        end)
  /\ (CaseStudiesApi.iconName a ∉ iconMapping.*1 ->
      forall v, inherited (CaseStudiesApi.iconName a) = Some v ->
                v ∉ iconMapping.*2 ->
                CaseStudiesApi.iconName
                  (toApiCase iconMapping (apiToLocal inherited iconMapping a))
                = "MessageSquare").
Proof.
  assert (Hmiss : CaseStudiesApi.iconName a ∉ iconMapping.*1 ->
            icon (apiToLocal inherited iconMapping a)
            = match inherited (CaseStudiesApi.iconName a) with
              | Some v => Some v
              | None => iconNamed inherited iconMapping (Some "MessageSquare")
              end).
  { intros Hunknown. unfold apiToLocal. cbn [icon].
    unfold iconFor. unfold iconNamed at 1. cbn [default from_option].
    unfold Datatypes.id.
    destruct (List.find (fun kv => strictEq kv.1 (CaseStudiesApi.iconName a)) iconMapping)
      as [[k v1] |] eqn:Hfind; [| reflexivity].
    exfalso. apply List.find_some in Hfind as [Hmem Hk].
    unfold strictEq in Hk. apply bool_decide_eq_true in Hk. cbn in Hk. subst k.
    apply Hunknown. apply list_elem_of_fmap. exists (CaseStudiesApi.iconName a, v1).
    split; [reflexivity | apply list_elem_of_In; exact Hmem]. }
  split; [| split; [exact Hmiss |]].
  - intros Hvalues Hname (v & Hin).
    unfold apiToLocal, toApiCase. cbn.
    unfold iconFor, iconNamed. cbn [default from_option]. unfold Datatypes.id.
    destruct (List.find (fun kv => strictEq kv.1 (CaseStudiesApi.iconName a)) iconMapping)
      as [[k v1] |] eqn:Hfind.
    + apply List.find_some in Hfind as [Hmem Hk].
      unfold strictEq in Hk. apply bool_decide_eq_true in Hk. cbn in Hk. subst k.
      apply list_elem_of_In in Hmem. cbn [snd].
      unfold iconNameOf. rewrite (find_by_value _ v1 Hvalues Hmem).
      cbn [fmap option_fmap option_map fst].
      rewrite orString_truthy by exact Hname.
      destruct a. reflexivity.
    + exfalso.
      pose proof (List.find_none _ _ Hfind (CaseStudiesApi.iconName a, v)
                    (proj1 (list_elem_of_In _ _) Hin)) as Hno.
      unfold strictEq in Hno. cbn in Hno.
      rewrite bool_decide_eq_true_2 in Hno by reflexivity. discriminate.
  - intros Hunknown v Hv Hforeign.
    unfold toApiCase. cbn [CaseStudiesApi.iconName].
    rewrite (Hmiss Hunknown), Hv. unfold iconNameOf.
    destruct (List.find (fun kv => bool_decide (Some kv.2 = Some v)) iconMapping)
      as [[k v1] |] eqn:Hfind; [| reflexivity].
    exfalso. apply List.find_some in Hfind as [Hmem Hk].
    apply bool_decide_eq_true in Hk. cbn in Hk. injection Hk as ->.
    apply Hforeign. apply list_elem_of_fmap. exists (k, v).
    split; [reflexivity | apply list_elem_of_In; exact Hmem].
Qed.

(** X22.  The mirror round trip.  [saveLocalCases] either writes the
    whole collection and announces it, or (when [setJSON] reports
    failure) throws and leaves the mirror as it was.  After a successful
    save, [getLocalCases] returns the collection that was saved,
    provided every icon is a component of a mapping without repeated or
    empty names. *)
Theorem save_then_read_local (cases : list (CaseStudy Icon)) (h : Host Api) :
  (writable h = false ->
   saveLocalCases iconMapping cases h
   = (Threw (ErrorObj "Failed to save to localStorage"), h))
  /\ (writable h = true ->
      let saved := snd (saveLocalCases iconMapping cases h) in
      fst (saveLocalCases iconMapping cases h) = Returned tt
      /\ io saved = io h ++ [WroteLocal (map (toSaved iconMapping) cases); Notified]
      /\ (NoDup iconMapping.*1 ->
          (forall kv, kv ∈ iconMapping -> kv.1 <> "") ->
          Forall (fun c => exists v k, icon c = Some v /\ (k, v) ∈ iconMapping) cases ->
          fst (getLocalCases inherited iconMapping saved) = cases)).
Proof.
  unfold saveLocalCases. split; intros Hw; rewrite Hw; [reflexivity |].
  cbn [fst snd did io storage]. split; [reflexivity |].
  split; [rewrite <- app_assoc; reflexivity |].
  intros Hkeys Hnames Hicons. cbn [getLocalCases fst storage did localCasesOf].
  induction Hicons as [| c cases (v & k & Hicon & Hin) _ IH]; [reflexivity |].
  cbn [map]. rewrite IH. f_equal.
  cbn [toSaved savedId savedIconName savedFields savedCreatedAt savedUpdatedAt].
  rewrite Hicon. rewrite (icon_round_trip v Hkeys Hnames (ex_intro _ k Hin)).
  destruct c. cbn in *. subst. reflexivity.
Qed.

(** X23.  [syncFromDatabase] is all or nothing on the mirror.  When the
    remote read carries a collection and the mirror can be written, the
    converted collection replaces the mirror and is returned.  In every
    other case the call throws, the mirror holds what it held, nothing
    but the one remote read has happened, and the error callback (when
    given) is the last callback invoked, with the message of the
    error. *)
Theorem syncFromDatabase_all_or_nothing (options : SyncOptions) (h : Host Api) :
  let response := fst (getAllCaseStudies (api h)) in
  let run := syncFromDatabase getAllCaseStudies inherited iconMapping options h in
  match carried response, writable h with
  | Some d, true =>
      fst run = Returned (map (apiToLocal inherited iconMapping) d)
      /\ storage (snd run)
         = Saved (map (toSaved iconMapping) (map (apiToLocal inherited iconMapping) d))
      /\ io (snd run)
         = io h ++ [ReadRemote;
                    WroteLocal (map (toSaved iconMapping)
                                  (map (apiToLocal inherited iconMapping) d));
                    Notified]
      /\ (forall msg, Failed msg ∉ drop (length (reported h)) (reported (snd run)))
  | found, _ =>
      let msg := match found with
                 | None => orString (CaseStudiesApi.error response)
                             "Failed to fetch from database"
                 | Some _ => "Failed to save to localStorage"
                 end in
      fst run = Threw (ErrorObj msg)
      /\ storage (snd run) = storage h
      /\ io (snd run) = io h ++ [ReadRemote]
      /\ (onError options = true ->
          last (reported (snd run))
          = Some (Failed ("Failed to sync from database: " +:+ msg)))
  end.
Proof.
  intros response run. subst response run.
  unfold syncFromDatabase, readRemote, saveLocalCases.
  cbn [fst snd api did call storage writable io reported].
  destruct (getAllCaseStudies (api h)) as [r a]. cbn [fst].
  destruct (carried r) as [d |]; [destruct (writable h) |];
    cbn [fst snd api did call storage writable io reported messageOr].
  - rewrite <- !app_assoc. repeat split.
    intros msg. rewrite drop_app_length.
    destruct (onProgress options), (onSuccess options); cbn [app]; intros Hin;
      repeat (apply elem_of_cons in Hin as [Hin | Hin]; [discriminate |]);
      inversion Hin.
  - repeat split. intros ->. rewrite last_snoc. reflexivity.
  - repeat split. intros ->. rewrite last_snoc. reflexivity.
Qed.

(** X24.  [syncToDatabase] never writes the mirror.  With no local
    records it returns the empty list without throwing and without
    contacting the remote store, after telling the error callback that
    there is nothing to sync.  With local records it sends them, in one
    bulk update, converted and in order; it returns the collection the
    remote store answered with, or throws when the answer carries
    none. *)
Theorem syncToDatabase_behaviour (options : SyncOptions) (h : Host Api) :
  let localCases := localCasesOf inherited iconMapping (storage h) in
  let run := syncToDatabase bulkUpdateCaseStudies inherited iconMapping options h in
  storage (snd run) = storage h
  /\ (localCases = [] ->
      fst run = Returned []
      /\ io (snd run) = io h ++ [ReadLocal]
      /\ reported (snd run)
         = reported h ++ (if onError options
                          then [Failed "No local case studies to sync"] else []))
  /\ (localCases <> [] ->
      let apiCases := map (toApiCase iconMapping) localCases in
      let response := fst (bulkUpdateCaseStudies apiCases (api h)) in
      io (snd run) = io h ++ [ReadLocal; WroteRemote apiCases]
      /\ fst run
         = match carried response with
           | Some d => Returned d
           | None => Threw (ErrorObj (orString (CaseStudiesApi.error response)
                                        "Failed to upload to database"))
           end).
Proof.
  intros localCases run. subst localCases run.
  unfold syncToDatabase, getLocalCases, writeRemote.
  cbn [fst snd api did call storage writable io reported].
  destruct (localCasesOf inherited iconMapping (storage h)) as [| c cs] eqn:Hlocal.
  - cbn [length]. change (Z.of_nat 0 =? 0) with true.
    cbn [fst snd api did call storage writable io reported].
    split; [reflexivity |]. split; [| congruence].
    intros _. repeat split.
  - destruct (nonempty_length (c :: cs)) as [_ Hnz]; [discriminate |].
    rewrite Hnz.
    destruct (bulkUpdateCaseStudies (map (toApiCase iconMapping) (c :: cs)) (api h))
      as [r a]. cbn [fst snd].
    destruct (carried r) as [d |];
      cbn [fst snd api did call storage writable io reported];
      (split; [reflexivity |]; split; [congruence |]; intros _;
       rewrite <- ?app_assoc; split; reflexivity).
Qed.

(** X25.  A failed push inside [autoSync] is reported twice.  When the
    mirror has records, the remote list has none and the bulk update
    answers without a collection, [autoSync] throws the error of
    [syncToDatabase], and a caller that gave an error callback has it
    invoked two times in a row: by [syncToDatabase] and then by
    [autoSync] itself; the success callback is not invoked. *)
Theorem autoSync_reports_failed_push_twice (options : SyncOptions) (h : Host Api) :
  let localCases := localCasesOf inherited iconMapping (storage h) in
  let first := getAllCaseStudies (api h) in
  let answer := fst (bulkUpdateCaseStudies (map (toApiCase iconMapping) localCases)
                       (snd first)) in
  let msg := orString (CaseStudiesApi.error answer) "Failed to upload to database" in
  let run := autoSync getAllCaseStudies bulkUpdateCaseStudies inherited iconMapping options h in
  localCases <> [] -> hasRecords (fst first) = false -> carried answer = None ->
  fst run = Threw (ErrorObj msg)
  /\ reported (snd run)
     = reported h
       ++ (if onProgress options
           then [Progress 0 3 "Analyzing sync requirements...";
                 Progress 1 3 "Comparing data sources...";
                 Progress 2 3 "Syncing local data to database..."]
           else [])
       ++ (if onError options
           then [Failed ("Failed to sync to database: " +:+ msg);
                 Failed ("Auto-sync failed: " +:+ msg)]
           else []).
Proof.
  intros localCases first answer msg run Hlocal Hrec Hnone.
  subst run msg answer first localCases.
  destruct (nonempty_length _ Hlocal) as [Hpos Hnz].
  unfold autoSync, getLocalCases, readRemote.
  cbn [fst snd api did call storage writable io reported] in *.
  destruct (getAllCaseStudies (api h)) as [r1 a1]. cbn [fst snd] in *.
  rewrite noRecords_hasRecords, Hrec, Hpos. cbn [negb andb].
  unfold syncToDatabase, getLocalCases, writeRemote.
  cbn [fst snd api did call storage writable io reported].
  rewrite Hnz.
  destruct (bulkUpdateCaseStudies _ a1) as [r2 a2]. cbn [fst] in Hnone.
  rewrite Hnone.
  cbn [fst snd api did call storage writable io reported messageOr
       withoutProgress onProgress onError onSuccess].
  split; [reflexivity |].
  rewrite <- !app_assoc.
  destruct (onProgress options), (onError options); reflexivity.
Qed.

(** X26.  A pull settles the status.  If every read of the remote list
    gets the same answer, that answer carries records, and the mirror
    can be written, then after [autoSync] the two counts that
    [getSyncStatus] reports are equal and its recommendation is
    [noSyncNeeded]. *)
Theorem status_after_pull (options : SyncOptions) (h : Host Api)
    (r : ApiResponse (list ApiCaseStudy)) :
  (forall a, fst (getAllCaseStudies a) = r) ->
  hasRecords r = true ->
  writable h = true ->
  let after := snd (autoSync getAllCaseStudies bulkUpdateCaseStudies inherited iconMapping
                      options h) in
  exists status h',
    getSyncStatus dateTime getAllCaseStudies inherited iconMapping after = (Returned status, h')
    /\ count (local status) = count (database status)
    /\ 0 < count (local status)
    /\ recommendation status = noSyncNeeded.
Proof.
  intros Hstable Hrec Hw after.
  pose proof (autoSync_pull getAllCaseStudies bulkUpdateCaseStudies inherited iconMapping
                options h) as Hpull.
  rewrite Hstable in Hpull. specialize (Hpull Hrec). cbn zeta in Hpull.
  rewrite Hstable, Hw in Hpull.
  destruct (hasRecords_carried r Hrec) as (x & d & Hd). rewrite Hd in Hpull.
  destruct Hpull as (_ & Hst & _). fold after in Hst.
  unfold getSyncStatus, getLocalCases, readRemote. cbn [api did storage fst snd].
  pose proof (Hstable (api after)) as Hr.
  destruct (getAllCaseStudies (api after)) as [r' a']. cbn [fst] in Hr. subst r'.
  eexists _, _. split; [reflexivity |].
  cbn [local database count recommendation]. rewrite Hst, Hd.
  cbn [localCasesOf]. rewrite !length_map.
  split; [reflexivity |]. split; [cbn [length]; lia |].
  destruct (recommend_cases (Z.of_nat (length (x :: d))) (Z.of_nat (length (x :: d))))
    as (Hsame & _).
  apply Hsame. right. reflexivity.
Qed.

End EngineBehaviour.

(** ** Runs of the statements above on concrete inputs *)

Section BehaviourRuns.
Import ApiCache Scenario.

Lemma set_then_get_witness :
  fst (get 300000 "k" (set 0 "k" "v" 300000 (∅ : gmap string (CacheItem string))))
  = Some "v"
  /\ fst (get 300001 "k" (set 0 "k" "v" 300000 (∅ : gmap string (CacheItem string))))
     = None.
Proof.
  split.
  - destruct (set_then_get 0 300000 "k" "v" 300000
                (∅ : gmap string (CacheItem string))) as [Hlive _]; [lia |].
    rewrite Hlive by lia. reflexivity.
  - destruct (set_then_get 0 300001 "k" "v" 300000
                (∅ : gmap string (CacheItem string))) as [_ Hdead]; [lia |].
    apply Hdead. lia.
Defined.

Lemma getOrFetch_serves_expired_witness :
  fst (get 400000 "k" (cache oneEntry)) = None
  /\ fst (getOrFetch 400000 "k" countingFetch 300000 defaultRefreshThreshold
            0 "new" oneEntry) = Returned "old".
Proof.
  destruct (getOrFetch_serves_expired 400000 "k" countingFetch 300000
              defaultRefreshThreshold 0 "new" oneEntry
              {| data := "old"; timestamp := 0; expiry := 300000 |})
    as [Hget Hfetch].
  - reflexivity.
  - cbn. lia.
  - lia.
  - cbn. lia.
  - split; [exact Hget | rewrite Hfetch; reflexivity].
Defined.

Lemma getOrFetch_miss_witness :
  getOrFetch 0 "other" rejectingFetch 300000 defaultRefreshThreshold 5 "boom"
    oneEntry
  = (Threw (ErrorObj "boom"),
     {| cache := cache oneEntry; refreshing := []; outside := 1%nat |}).
Proof.
  exact (getOrFetch_miss 0 "other" rejectingFetch 300000 defaultRefreshThreshold
           5 "boom" oneEntry eq_refl).
Defined.

Lemma refresh_settles_witness :
  inFlight "k" (refreshSettles 250500 countingFetch 0 "new" refreshingEntry) = 0%nat
  /\ cache (refreshSettles 250500 countingFetch 0 "new" refreshingEntry) !! "k"
     = Some {| data := "new"; timestamp := 250500; expiry := 550500 |}.
Proof.
  destruct (refresh_settles 250500 countingFetch 0 "new" refreshingEntry
              {| refreshKey := "k"; refreshTtl := 300000; refreshPromise := 0%nat |}
              eq_refl) as [Hcount Hset].
  split.
  - cbn [refreshKey] in Hcount. change (inFlight "k" refreshingEntry) with 1%nat in Hcount.
    congruence.
  - apply Hset. cbn. lia.
Defined.

End BehaviourRuns.

Section RecorderRuns.
Import PerformanceMonitor.

Lemma same_name_measurements_witness :
  let started := snd (startMeasure 2 "save" None (snd (startMeasure 1 "save" None []))) in
  fst (endMeasure 5 "save" started) = Some 4
  /\ fst (endMeasure 9 "save" (snd (endMeasure 5 "save" started))) = Some 7.
Proof.
  destruct (same_name_measurements_end_in_start_order 1 2 5 9 10 "save" None None [])
    as (Hfirst & Hsecond & _).
  - intros m Hm. inversion Hm.
  - discriminate.
  - discriminate.
  - split; [exact Hfirst | exact Hsecond].
Defined.


End RecorderRuns.

Section EngineBehaviourRuns.
Import CaseStudiesSync SyncScenario.

Lemma icons_well_formed :
  NoDup icons.*1 /\ NoDup icons.*2
  /\ forall kv, kv ∈ icons -> kv.1 <> "".
Proof.
  split; [| split].
  - apply (bool_decide_unpack _). reflexivity.
  - apply (bool_decide_unpack _). reflexivity.
  - intros kv Hin. unfold icons in Hin.
    repeat (apply elem_of_cons in Hin as [-> | Hin]; [discriminate |]).
    inversion Hin.
Qed.

Lemma local_to_api_and_back_witness :
  apiToLocal objectPrototype icons (toApiCase icons (localSample "a")) = localSample "a".
Proof.
  destruct icons_well_formed as (Hkeys & _ & Hnames).
  apply (local_to_api_and_back objectPrototype icons (localSample "a") "<Bot/>" Hkeys Hnames eq_refl).
  exists "Bot". unfold icons. right. left.
Defined.

Lemma api_to_local_and_back_witness :
  toApiCase icons (apiToLocal objectPrototype icons (Scenario.sampleCase "a"))
  = Scenario.sampleCase "a"
  /\ icon (apiToLocal objectPrototype icons inheritedNameCase)
     = Some "Object.prototype.constructor"
  /\ CaseStudiesApi.iconName
       (toApiCase icons (apiToLocal objectPrototype icons inheritedNameCase))
     = "MessageSquare".
Proof.
  destruct icons_well_formed as (_ & Hvalues & _).
  assert (Hname : CaseStudiesApi.iconName inheritedNameCase ∉ icons.*1).
  { intros Hin. cbn in Hin.
    repeat (apply elem_of_cons in Hin as [Hin | Hin]; [discriminate |]).
    inversion Hin. }
  split; [| split].
  - destruct (api_to_local_and_back objectPrototype icons (Scenario.sampleCase "a"))
      as [Hback _].
    apply Hback.
    + exact Hvalues.
    + discriminate.
    + exists "<Bot/>". unfold icons. right. left.
  - destruct (api_to_local_and_back objectPrototype icons inheritedNameCase)
      as (_ & Hmiss & _).
    rewrite (Hmiss Hname). reflexivity.
  - destruct (api_to_local_and_back objectPrototype icons inheritedNameCase)
      as (_ & _ & Hlost).
    apply (Hlost Hname "Object.prototype.constructor" eq_refl).
    intros Hin. cbn in Hin.
    repeat (apply elem_of_cons in Hin as [Hin | Hin]; [discriminate |]).
    inversion Hin.
Defined.

Lemma save_then_read_local_witness :
  fst (getLocalCases objectPrototype icons
         (snd (saveLocalCases icons [localSample "a"; localSample "b"]
                 (hostOf Missing emptyRemote))))
  = [localSample "a"; localSample "b"].
Proof.
  destruct icons_well_formed as (Hkeys & _ & Hnames).
  destruct (save_then_read_local objectPrototype icons [localSample "a"; localSample "b"]
              (hostOf Missing emptyRemote)) as [_ Hsaved].
  destruct (Hsaved eq_refl) as (_ & _ & Hread).
  apply Hread; [exact Hkeys | exact Hnames |].
  repeat constructor; exists "<Bot/>", "Bot"; (split; [reflexivity |]);
    unfold icons; right; left.
Defined.

Lemma autoSync_reports_failed_push_twice_witness :
  reported (snd (autoSync remoteList remoteBulk objectPrototype icons
                   {| onProgress := false; onError := true; onSuccess := true |}
                   (hostOf (Saved [savedSample "a"]) downRemote)))
  = [Failed "Failed to sync to database: Failed to fetch";
     Failed "Auto-sync failed: Failed to fetch"].
Proof.
  destruct (autoSync_reports_failed_push_twice remoteList remoteBulk objectPrototype icons
              {| onProgress := false; onError := true; onSuccess := true |}
              (hostOf (Saved [savedSample "a"]) downRemote)) as [_ Hrep].
  - discriminate.
  - reflexivity.
  - reflexivity.
  - rewrite Hrep. reflexivity.
Defined.

Lemma status_after_pull_witness :
  exists status h',
    getSyncStatus clock (fixedList twoRecords) objectPrototype icons
      (snd (autoSync (fixedList twoRecords) refusedBulk objectPrototype icons everyCallback
              {| storage := Saved [savedSample "z"]; writable := true; api := tt;
                 io := []; reported := [] |}))
    = (Returned status, h')
    /\ recommendation status = noSyncNeeded.
Proof.
  destruct (status_after_pull clock (fixedList twoRecords) refusedBulk objectPrototype icons
              everyCallback
              {| storage := Saved [savedSample "z"]; writable := true; api := tt;
                 io := []; reported := [] |} twoRecords)
    as (status & h' & Hrun & _ & _ & Hrec).
  - intros a. reflexivity.
  - reflexivity.
  - reflexivity.
  - exists status, h'. split; [exact Hrun | exact Hrec].
Defined.

End EngineBehaviourRuns.

Section MonitorRuns.
Import DatabaseMonitor Scenario.

Lemma getStats_errors_witness :
  "HTTP error! status: 500"
  ∈ errors (getStats QArith_base.inject_Z exactDivide exactTimes exactRound
              100 1000 busyMonitor).
Proof.
  destruct (getStats_errors QArith_base.inject_Z exactDivide exactTimes exactRound
              100 1000 busyMonitor) as (_ & _ & _ & Hall).
  assert (Hone : forall e op,
            op ∈ operations busyMonitor -> error op = Some e ->
            e ∈ ["HTTP error! status: 500"]).
  { intros e op Hop Herr. vm_compute in Hop.
    repeat (apply elem_of_cons in Hop as [-> | Hop]);
      [cbn in Herr; try discriminate; injection Herr as <-; left .. |
       apply elem_of_nil in Hop; contradiction]. }
  assert (Hbound : forall es : list string,
            NoDup es ->
            (forall e, e ∈ es ->
               exists op, op ∈ operations busyMonitor
                          /\ 100 - 1000 < timestamp op
                          /\ success op = false /\ error op = Some e /\ e <> "") ->
            (length es <= 5)%nat).
  { intros es Hnd Hes.
    transitivity (length ["HTTP error! status: 500"]); [| cbn; lia].
    apply submseteq_length, NoDup_submseteq; [exact Hnd |].
    intros e He. destruct (Hes e He) as (op & Hop & _ & _ & Herr & _).
    exact (Hone e op Hop Herr). }
  eapply (Hall Hbound).
  split; [vm_compute; left |].
  repeat split; discriminate.
Defined.

End MonitorRuns.
